(** * CELESTE7 behavioural-intelligence service: model and verified properties

    The development embeds the JavaScript sources of the service:

    - [Optimizer]     : pattern-queries-optimzed.js  ([BrutalQueryOptimizer])
    - [Interventions] : brutal-interventions.js      ([BrutalInterventionGenerator])
    - [Api]           : api/analyze.js               ([handleAnalyze])
    - [Engine]        : celeste7-real-engine.js      ([RealTimeBehavioralIntelligence],
                        the five detectors and [BehavioralIntelligenceAPI])
    - [Production]    : index.js                     ([Celeste7ProductionServer])

    Conventions.

    - A JavaScript number is a value of [Js.num]: [NaN], the two infinities,
      or a finite rational.  Finite arithmetic is exact (no rounding, no
      overflow, one unsigned zero).
    - A numeric property that is absent from an object ([undefined]) is
      represented by [NaN]: every modelled use of such a property goes
      through [ToNumber] or through truthiness, where the two agree.
    - What the datastore answered to a call is an input of the model
      ([Js.Reply]); an awaited call either resolves to [{data, error}] or
      rejects.
    - Functions that can throw return a [Js.completion].
    - A [req.body] that can be absent is an [option]; the lower-casing of a
      user's reply in brutal-interventions.js is a parameter of the model. *)

From Stdlib Require Import ZArith QArith Qround Qabs Lqa List String Ascii Bool.
From Stdlib Require Import Sorted Permutation Floats.
From stdpp Require Import gmap strings.

Import ListNotations.
Local Open Scope string_scope.
Local Open Scope Q_scope.

(** ** JavaScript values *)

Module Js.

Inductive num : Type :=
| NaN
| PInf
| NInf
| Fin (q : Q).

Definition Qltb (x y : Q) : bool := negb (Qle_bool y x).

Definition neg (a : num) : num :=
  match a with
  | NaN => NaN
  | PInf => NInf
  | NInf => PInf
  | Fin x => Fin (- x)
  end.

Definition add (a b : num) : num :=
  match a, b with
  | NaN, _ | _, NaN => NaN
  | PInf, NInf | NInf, PInf => NaN
  | PInf, _ | _, PInf => PInf
  | NInf, _ | _, NInf => NInf
  | Fin x, Fin y => Fin (x + y)
  end.

Definition sub (a b : num) : num := add a (neg b).

Definition scale_inf (positive : bool) (x : Q) : num :=
  match x ?= 0 with
  | Eq => NaN
  | Gt => if positive then PInf else NInf
  | Lt => if positive then NInf else PInf
  end.

Definition mul (a b : num) : num :=
  match a, b with
  | NaN, _ | _, NaN => NaN
  | Fin x, Fin y => Fin (x * y)
  | Fin x, PInf | PInf, Fin x => scale_inf true x
  | Fin x, NInf | NInf, Fin x => scale_inf false x
  | PInf, PInf | NInf, NInf => PInf
  | PInf, NInf | NInf, PInf => NInf
  end.

Definition div (a b : num) : num :=
  match a, b with
  | NaN, _ | _, NaN => NaN
  | Fin x, Fin y =>
      match y ?= 0 with
      | Eq => match x ?= 0 with Eq => NaN | Gt => PInf | Lt => NInf end
      | _ => Fin (x / y)
      end
  | Fin _, PInf | Fin _, NInf => Fin 0
  | PInf, Fin y => match y ?= 0 with Lt => NInf | _ => PInf end
  | NInf, Fin y => match y ?= 0 with Lt => PInf | _ => NInf end
  | _, _ => NaN
  end.

(** [a < b]; any comparison with [NaN] is false. *)
Definition lt (a b : num) : bool :=
  match a, b with
  | NaN, _ | _, NaN => false
  | Fin x, Fin y => Qltb x y
  | NInf, Fin _ | NInf, PInf | Fin _, PInf => true
  | _, _ => false
  end.

Definition gt (a b : num) : bool := lt b a.

(** [a >= b] *)
Definition ge (a b : num) : bool :=
  match a, b with
  | NaN, _ | _, NaN => false
  | Fin x, Fin y => Qle_bool y x
  | PInf, _ | _, NInf => true
  | _, _ => false
  end.

(** [a === b] on numbers *)
Definition eqb (a b : num) : bool :=
  match a, b with
  | Fin x, Fin y => Qeq_bool x y
  | PInf, PInf | NInf, NInf => true
  | _, _ => false
  end.

(** [Math.min(a, b)] *)
Definition min (a b : num) : num :=
  match a, b with
  | NaN, _ | _, NaN => NaN
  | _, _ => if lt b a then b else a
  end.

(** [Math.max(a, b)] *)
Definition max (a b : num) : num :=
  match a, b with
  | NaN, _ | _, NaN => NaN
  | _, _ => if lt a b then b else a
  end.

(** [Math.abs] *)
Definition abs (a : num) : num :=
  match a with
  | NaN => NaN
  | PInf | NInf => PInf
  | Fin x => Fin (Qabs x)
  end.

(** [Math.floor] *)
Definition floor (a : num) : num :=
  match a with
  | Fin x => Fin (inject_Z (Qfloor x))
  | other => other
  end.

(** [Math.round]: the nearest integer, halves going up. *)
Definition round (a : num) : num :=
  match a with
  | Fin x => Fin (inject_Z (Qfloor (x + (1 # 2))))
  | other => other
  end.

(** [Math.pow(b, n)] for a natural exponent *)
Fixpoint pow (b : num) (n : nat) : num :=
  match n with
  | O => Fin 1
  | S k => mul b (pow b k)
  end.

Definition of_nat (n : nat) : num := Fin (inject_Z (Z.of_nat n)).
Definition of_Z (z : Z) : num := Fin (inject_Z z).

(** Truthiness of a number: [0] and [NaN] are falsy. *)
Definition truthy (a : num) : bool :=
  match a with
  | NaN => false
  | Fin x => negb (Qeq_bool x 0)
  | _ => true
  end.

(** [a || d] on numbers *)
Definition or_else (a d : num) : num := if truthy a then a else d.

(** [(data || {}).f] or [data?.f] for a numeric property [f] *)
Definition field {A} (data : option A) (f : A -> num) : num :=
  match data with
  | Some row => f row
  | None => NaN
  end.

(** [xs.reduce((sum, x) => sum + x, 0)] *)
Definition sum (xs : list num) : num := fold_left add xs (Fin 0).

(** Truthiness of a string: the empty string is falsy; [None] stands for
    [null] or [undefined]. *)
Definition truthy_str (s : option string) : bool :=
  match s with
  | Some EmptyString => false
  | Some _ => true
  | None => false
  end.

(** [String.prototype.toLowerCase] on strings of ASCII characters: the
    letters A to Z are mapped to a to z and nothing else is changed.  Text
    that a caller can send in any script is not lower-cased with this
    function: see [Interventions.resistanceScore]. *)
Definition lower_ascii (c : ascii) : ascii :=
  let n := nat_of_ascii c in
  if (andb (Nat.leb 65 n) (Nat.leb n 90)) then ascii_of_nat (n + 32) else c.

Fixpoint toLowerCase (s : string) : string :=
  match s with
  | EmptyString => EmptyString
  | String c rest => String (lower_ascii c) (toLowerCase rest)
  end.

(** [s.includes(m)] *)
Fixpoint includes (s m : string) : bool :=
  if String.prefix m s then true
  else match s with
       | EmptyString => false
       | String _ rest => includes rest m
       end.

(** [words.some(w => s.includes(w))] *)
Definition includes_any (s : string) (words : list string) : bool :=
  existsb (includes s) words.

(** [xs.sort(cmp)].  The sort is stable; [a] stays in front of [b] unless
    the comparator returns a positive number for [(a, b)].  A comparator
    result of [NaN] counts as [0]. *)
Section Sort.
Context {A : Type} (cmp : A -> A -> num).

Definition goes_after (a b : A) : bool := gt (cmp a b) (Fin 0).

Fixpoint insert (x : A) (l : list A) : list A :=
  match l with
  | [] => [x]
  | y :: rest => if goes_after x y then y :: insert x rest else x :: l
  end.

Definition sort (l : list A) : list A := fold_right insert [] l.
End Sort.

(** What an awaited datastore call produced: the promise resolved to
    [{data, error}], or it was rejected. *)
Inductive Reply (A : Type) : Type :=
| Resolved (data : option A) (error : bool)
| Rejected.
Arguments Resolved {A} data error.
Arguments Rejected {A}.

(** [const { data } = await call] inside a [try]: a rejection is handled by
    the caller's [catch]. *)
Definition data_of {A} (r : Reply A) : option (option A) :=
  match r with
  | Resolved d _ => Some d
  | Rejected => None
  end.

(** Result of a function body that may throw. *)
Inductive completion (A : Type) : Type :=
| Normal (a : A)
| Threw.
Arguments Normal {A} a.
Arguments Threw {A}.

Definition bind {A B} (c : completion A) (k : A -> completion B) : completion B :=
  match c with
  | Normal a => k a
  | Threw => Threw
  end.

(** [const { data } = await call] outside any [try] *)
Definition await {A} (r : Reply A) : completion (option A) :=
  match r with
  | Resolved d _ => Normal d
  | Rejected => Threw
  end.

End Js.

Notation "'do' x <- c ; k" := (Js.bind c (fun x => k))
  (at level 10, x name, c at level 100, k at level 200).

(** Severity labels attached to a detected pattern
    (['critical'], ['high'], ['medium']). *)
Inductive Severity : Type := critical | high | medium.

Definition is_critical (s : Severity) : bool :=
  match s with critical => true | _ => false end.

(** [req.body] of an analyze request once a body parser has set it: an
    object, of which a property that is absent or [null] is [None] and one
    that is present is a string.  Where [req.body] can itself be absent the
    handler takes an [option Body] (see [Api.handleAnalyze]). *)
Record Body : Type := {
  userId : option string;
  message : option string
}.

(** [!userId || !message] *)
Definition missing_fields (body : Body) : bool :=
  negb (Js.truthy_str (userId body)) || negb (Js.truthy_str (message body)).

(** ** pattern-queries-optimzed.js *)

Module Optimizer.
Import Js.

(** The object returned by a detector.  [query_time_ms] and the
    [specific_callout] text are left out: no modelled function reads them. *)
Record Pattern : Type := {
  pattern_type : string;
  confidence : num;
  severity : Severity;
  evidence : list (string * num);
  estimated_cost : num
}.

(** Row of the [get_procrastination_metrics] procedure *)
Record ProcrastinationMetrics : Type := {
  total_delay_days : num;
  oldest_task_age : num
}.

(** Row of [user_business_context] as selected by [getDailyBurnRate] *)
Record BusinessContext : Type := {
  monthly_recurring_revenue : num
}.

(** Row of the [get_pricing_comparison] procedure *)
Record PricingComparison : Type := {
  market_average : num;
  your_price : num;
  customer_count : num;
  percentile_rank : num
}.

(** Row of the [get_execution_metrics] procedure *)
Record ExecutionMetrics : Type := {
  planning_count : num;
  shipped_count : num;
  days_since_ship : num;
  opportunity_cost : num
}.

Definition getDailyBurnRate (reply : Reply BusinessContext) : num :=
  match reply with
  | Resolved data _ =>
      or_else (div (or_else (field data monthly_recurring_revenue) (Fin 0)) (Fin 30))
              (Fin 100)
  | Rejected => Fin 100
  end.

Definition detectProcrastinationBrutally
    (rpc : Reply ProcrastinationMetrics) (context : Reply BusinessContext)
    : option Pattern :=
  match rpc with
  | Rejected => None
  | Resolved _ true => None
  | Resolved data false =>
      let delay := field data total_delay_days in
      let dailyBurn := getDailyBurnRate context in
      let costOfBullshit := mul (or_else delay (Fin 0)) dailyBurn in
      Some {| pattern_type := "procrastination";
              confidence := min (div (or_else delay (Fin 0)) (Fin 30)) (Fin 0.95);
              severity := if gt delay (Fin 60) then critical else high;
              evidence :=
                [("total_delay_days", or_else delay (Fin 0));
                 ("oldest_task_age_days", or_else (field data oldest_task_age) (Fin 0));
                 ("daily_burn_rate", round dailyBurn)];
              estimated_cost := round costOfBullshit |}
  end.

Definition detectPricingCowardiceBrutally (rpc : Reply PricingComparison)
    : option Pattern :=
  match rpc with
  | Rejected => None
  | Resolved _ true => None
  | Resolved None false => None
  | Resolved (Some data) false =>
      let gapPercent :=
        mul (div (sub (market_average data) (your_price data)) (market_average data))
            (Fin 100) in
      let monthlyLoss :=
        mul (sub (market_average data) (your_price data)) (customer_count data) in
      Some {| pattern_type := "pricing_cowardice";
              confidence := min (div gapPercent (Fin 50)) (Fin 0.95);
              severity := if gt gapPercent (Fin 50) then critical else high;
              evidence :=
                [("your_price", round (your_price data));
                 ("market_average", round (market_average data));
                 ("gap_percent", round gapPercent);
                 ("customer_count", customer_count data);
                 ("market_percentile", percentile_rank data)];
              estimated_cost := round monthlyLoss |}
  end.

Definition detectExecutionParalysisBrutally (rpc : Reply ExecutionMetrics)
    : option Pattern :=
  match rpc with
  | Rejected => None
  | Resolved _ true => None
  | Resolved data false =>
      let planToShipRatio :=
        div (field data planning_count)
            (or_else (field data shipped_count) (Fin 1)) in
      if lt planToShipRatio (Fin 3) then None
      else
        Some {| pattern_type := "execution_paralysis";
                confidence := min (div planToShipRatio (Fin 10)) (Fin 0.95);
                severity :=
                  if gt (field data days_since_ship) (Fin 60) then critical else high;
                evidence :=
                  [("planned_but_not_started", or_else (field data planning_count) (Fin 0));
                   ("projects_shipped", or_else (field data shipped_count) (Fin 0));
                   ("planning_ratio",
                    div (round (mul planToShipRatio (Fin 10))) (Fin 10));
                   ("days_blocked", or_else (field data days_since_ship) (Fin 0))];
                estimated_cost := round (or_else (field data opportunity_cost) (Fin 0)) |}
  end.

(** The object returned by [detectAllPatternsBrutally].  [failed] is set
    when the object carries an [error] message; [cached] is false when the
    property is absent. *)
Record Detection : Type := {
  patterns : list Pattern;
  total_estimated_cost : num;
  cached : bool;
  failed : bool
}.

(** Row of the [pattern_cache] table *)
Record CacheRow : Type := {
  cached_patterns : Detection;
  cached_at : Z
}.

(** What the datastore does during one call of [detectAllPatternsBrutally] *)
Record Upstream : Type := {
  now : Z;
  cache_read_ok : bool;
  cache_write_ok : bool;
  procrastination_metrics : Reply ProcrastinationMetrics;
  business_context : Reply BusinessContext;
  pricing_comparison : Reply PricingComparison;
  execution_metrics : Reply ExecutionMetrics
}.

(** Outcome of a promise passed to [Promise.allSettled] *)
Inductive Settled (A : Type) : Type :=
| Fulfilled (value : A)
| Unfulfilled.
Arguments Fulfilled {A} value.
Arguments Unfulfilled {A}.

Definition getCachedPatterns (table : gmap string CacheRow) (up : Upstream)
    (userId : string) : option (Detection * Z) :=
  if cache_read_ok up then
    match table !! userId with
    | Some row => Some (cached_patterns row, cached_at row)
    | None => None
    end
  else None.

Definition cachePatterns (table : gmap string CacheRow) (up : Upstream)
    (userId : string) (result : Detection) : gmap string CacheRow :=
  if cache_write_ok up then
    <[userId := {| cached_patterns := result; cached_at := now up |}]> table
  else table.

(** [.filter(p => p.status === 'fulfilled' && p.value && p.value.confidence > 0.7)
     .map(p => p.value)] *)
Definition keep_confident (settled : list (Settled (option Pattern))) : list Pattern :=
  flat_map (fun p =>
              match p with
              | Fulfilled (Some value) =>
                  if gt (confidence value) (Fin 0.7) then [value] else []
              | _ => []
              end) settled.

Definition by_cost_desc (a b : Pattern) : num :=
  sub (estimated_cost b) (estimated_cost a).

Section WithPooler.
(** [process.env.VERCEL] is set *)
Variable VERCEL : bool.
(** [this.pooler.detectPatternsQueued(userId, this)], from
    vercel-connection-pooler.js, which is not part of the sources. *)
Variable detectPatternsQueued : string -> completion Detection.

Definition cacheExpiry : Z := if VERCEL then 30000%Z else 5000%Z.

Definition detectAllPatternsBrutally (table : gmap string CacheRow)
    (up : Upstream) (userId : string) : Detection * gmap string CacheRow :=
  let compute :=
    if VERCEL then
      match detectPatternsQueued userId with
      | Normal result => (result, table)
      | Threw =>
          (* catch: return cached data on error *)
          match getCachedPatterns table up userId with
          | Some (data, _) => (data, table)
          | None =>
              ({| patterns := []; total_estimated_cost := NaN;
                  cached := false; failed := true |}, table)
          end
      end
    else
      let settled :=
        [Fulfilled (detectProcrastinationBrutally
                      (procrastination_metrics up) (business_context up));
         Fulfilled (detectPricingCowardiceBrutally (pricing_comparison up));
         Fulfilled (detectExecutionParalysisBrutally (execution_metrics up))] in
      let detectedPatterns := sort by_cost_desc (keep_confident settled) in
      let result :=
        {| patterns := detectedPatterns;
           total_estimated_cost := sum (List.map estimated_cost detectedPatterns);
           cached := false;
           failed := false |} in
      (result, cachePatterns table up userId result) in
  match getCachedPatterns table up userId with
  | Some (data, timestamp) =>
      if (now up - timestamp <? cacheExpiry)%Z then (data, table) else compute
  | None => compute
  end.
End WithPooler.

End Optimizer.

(** ** brutal-interventions.js *)

Module Interventions.
Import Js.

(** Key of [this.resistanceLevels] for an integer index *)
Definition level_name (index : Z) : option string :=
  match index with
  | 0%Z => Some "first_contact"
  | 1%Z => Some "gentle_nudge"
  | 2%Z => Some "uncomfortable_truth"
  | 3%Z => Some "brutal_reality"
  | 4%Z => Some "scorched_earth"
  | 5%Z => Some "existential_crisis"
  | _ => None
  end.

(** [this.resistanceLevels[key]]: the object has the keys ["0"] to ["5"], so
    the lookup succeeds exactly for the integers 0 to 5. *)
Definition resistanceLevels (key : num) : option string :=
  match key with
  | Fin q => if Qeq_bool q (inject_Z (Qfloor q)) then level_name (Qfloor q) else None
  | _ => None
  end.

Definition defined_levels : list string :=
  ["first_contact"; "gentle_nudge"; "uncomfortable_truth";
   "brutal_reality"; "scorched_earth"; "existential_crisis"].

Definition pattern_types : list string :=
  ["procrastination"; "pricing_cowardice"; "execution_paralysis";
   "competitive_delusion"; "revenue_stagnation"].

Definition mem (s : string) (l : list string) : bool :=
  existsb (String.eqb s) l.

(** [this.interventionGenerators[type]?.[level]]: is there a generator?
    Each of the five pattern types has one generator per level name. *)
Definition has_generator (type level : option string) : option (string * string) :=
  match type, level with
  | Some t, Some l => if mem t pattern_types && mem l defined_levels
                      then Some (t, l) else None
  | _, _ => None
  end.

(** What [generateIntervention] returned: the "insufficient data" object,
    the default intervention (its message quotes the evidence), or the
    output of a generator. *)
Inductive Intervention (Evidence Text : Type) : Type :=
| Insufficient
| DefaultBrutal (evidence : Evidence)
| Generated (type level : string) (text : Text).
Arguments Insufficient {Evidence Text}.
Arguments DefaultBrutal {Evidence Text} evidence.
Arguments Generated {Evidence Text} type level text.

(** The [pattern] argument, as far as [generateIntervention] reads it *)
Record PatternArg : Type := { type : option string }.

Section Generate.
Variables Evidence UserData Text : Type.
(** Running the selected generator: the queries of [getComparisonData]
    and the string interpolation of the template.  Either can throw. *)
Variable runGenerator : string -> string -> Evidence -> UserData -> completion Text.

(** The level name looked up by [generateIntervention] *)
Definition selected_level (resistanceLevel : num) : option string :=
  resistanceLevels (min resistanceLevel (Fin 5)).

Definition generateIntervention (pattern : option PatternArg)
    (evidence : option Evidence) (userData : option UserData)
    (resistanceLevel : num) : completion (Intervention Evidence Text) :=
  match pattern, evidence, userData with
  | Some pattern, Some evidence, Some userData =>
      let level := selected_level resistanceLevel in
      match has_generator (type pattern) level with
      | None => Normal (DefaultBrutal evidence)
      | Some (t, l) =>
          do text <- runGenerator t l evidence userData;
          Normal (Generated t l text)
      end
  | _, _, _ => Normal Insufficient
  end.
End Generate.

Definition resistanceMarkers : list string :=
  ["but"; "however"; "yes but"; "can't"; "impossible";
   "maybe later"; "not ready"; "need to think";
   "too aggressive"; "too harsh"; "unfair"].

(** Availability of the [user_patterns] table during one call *)
Record Datastore : Type := {
  read_ok : bool;
  write_ok : bool
}.

(** [currentLevel?.pattern_data?.level || 0]; the table maps a user to the
    level of the 'intervention_resistance' row. *)
Definition stored_level (table : gmap string Z) (userId : string) : Z :=
  match table !! userId with
  | Some level => level
  | None => 0%Z
  end.

Section Resistance.
(** [String.prototype.toLowerCase].  The reply is free text, and the
    built-in maps letters of every script (U+212A, the Kelvin sign, becomes
    k), so it is taken as it is: nothing is assumed of it.  The markers are
    ASCII text, for which containment does not depend on how the other
    characters of the reply are encoded. *)
Variable toLowerCase : string -> string.

(** [resistanceMarkers.reduce((score, marker) =>
       score + (userResponse.toLowerCase().includes(marker) ? 1 : 0), 0)] *)
Definition resistanceScore (userResponse : string) : Z :=
  fold_left (fun score marker =>
               (score + (if includes (toLowerCase userResponse) marker then 1 else 0))%Z)
            resistanceMarkers 0%Z.

(** Returns [newLevel] and the table after the upsert. *)
Definition trackResistance (db : Datastore) (table : gmap string Z)
    (userId : string) (userResponse : string) : Z * gmap string Z :=
  let score := resistanceScore userResponse in
  let currentLevel := if read_ok db then stored_level table userId else 0%Z in
  let newLevel := (currentLevel + (if (2 <? score)%Z then 1 else 0))%Z in
  (newLevel,
   if write_ok db then <[userId := Z.min newLevel 5]> table else table).
End Resistance.

End Interventions.

(** ** api/analyze.js *)

Module Api.
Import Js.

Definition Evidence : Type := list (string * num).
Definition UserData : Type := (string * string)%type.

(** The datastore as seen by [handleAnalyze] *)
Record Tables : Type := {
  pattern_cache : gmap string Optimizer.CacheRow;
  resistance : gmap string Z
}.

Record Upstream : Type := {
  detection : Optimizer.Upstream;
  resistance_read_ok : bool
}.

(** Operations started by the handler, in order *)
Inductive Call : Type :=
| DetectAllPatterns (user : string)
| GetResistanceLevel (user : string)
| GenerateIntervention (user : string).

Record Success (Text : Type) : Type := {
  patterns : list Optimizer.Pattern;
  intervention : option (Interventions.Intervention Evidence Text);
  confidence : num;
  should_intervene : bool;
  cached : bool
}.
Arguments patterns {Text}.
Arguments intervention {Text}.
Arguments confidence {Text}.
Arguments should_intervene {Text}.
Arguments cached {Text}.

Inductive Response (Text : Type) : Type :=
| Json200 (body : Success Text)
| JsonError (status : Z) (error : string).
Arguments Json200 {Text} body.
Arguments JsonError {Text} status error.

Definition status {Text} (r : Response Text) : Z :=
  match r with
  | Json200 _ => 200%Z
  | JsonError code _ => code
  end.

Definition getUserResistanceLevel (up : Upstream) (db : Tables) (user : string) : num :=
  if resistance_read_ok up
  then or_else (of_Z (Interventions.stored_level (resistance db) user)) (Fin 0)
  else Fin 0.

(** A pattern of the optimizer has no [type] property. *)
Definition as_argument (p : Optimizer.Pattern) : Interventions.PatternArg :=
  {| Interventions.type := None |}.

Section Handler.
Variable VERCEL : bool.
Variable detectPatternsQueued : string -> completion Optimizer.Detection.
Variable Text : Type.
Variable runGenerator : string -> string -> Evidence -> UserData -> completion Text.

(** [req_body] is [req.body]: [None] when the request carries no parsed
    body ([undefined], the case the [req.body?.userId] of the exported
    handler allows for).  [const { userId, message, sessionId } = req.body]
    is the first statement of the [try] block and throws a [TypeError] on
    it, which the [catch] answers with status 500. *)
Definition handleAnalyze (db : Tables) (up : Upstream) (req_body : option Body)
    : Response Text * list Call * Tables :=
  match req_body with
  | None => (JsonError 500 "Analysis failed", [], db)
  | Some body =>
  match missing_fields body, userId body, message body with
  | false, Some user, Some msg =>
      let '(found, cache') :=
        Optimizer.detectAllPatternsBrutally VERCEL detectPatternsQueued
          (pattern_cache db) (detection up) user in
      let db' := {| pattern_cache := cache'; resistance := resistance db |} in
      let respond intervention calls :=
        (Json200 {| patterns := Optimizer.patterns found;
                    intervention := intervention;
                    confidence :=
                      or_else (match Optimizer.patterns found with
                               | first :: _ => Optimizer.confidence first
                               | [] => NaN
                               end) (Fin 0);
                    should_intervene :=
                      match intervention with Some _ => true | None => false end;
                    cached := Optimizer.cached found |},
         calls, db') in
      match List.find (fun p => is_critical (Optimizer.severity p))
                      (Optimizer.patterns found) with
      | Some criticalPattern =>
          let resistanceLevel := getUserResistanceLevel up db user in
          match Interventions.generateIntervention Evidence UserData Text runGenerator
                  (Some (as_argument criticalPattern))
                  (Some (Optimizer.evidence criticalPattern))
                  (Some (user, msg)) resistanceLevel with
          | Normal generated =>
              respond (Some generated)
                      [DetectAllPatterns user; GetResistanceLevel user;
                       GenerateIntervention user]
          | Threw =>
              (JsonError 500 "Analysis failed",
               [DetectAllPatterns user; GetResistanceLevel user;
                GenerateIntervention user], db')
          end
      | None => respond None [DetectAllPatterns user]
      end
  | _, _, _ => (JsonError 400 "Missing required fields: userId, message", [], db)
  end
  end.
End Handler.

End Api.

(** ** celeste7-real-engine.js *)

Module Engine.
Import Js.

Definition day_ms : Z := (1000 * 60 * 60 * 24)%Z.

(** *** Rows returned by the queries *)

Record UserPatternRow : Type := {
  stored_pattern_type : string;
  occurrence_count : num
}.

Record PredictionRow : Type := {
  outcome_verified : bool;
  prediction_confidence : num
}.

Record ContextRow : Type := {
  context_mrr : num;
  context_product_count : num
}.

Record RevenueRow : Type := { revenue_after_use : num }.

Record SaasRow : Type := { saas_mrr : num }.

Record Competitor : Type := {
  competitor_id : string;
  monthly_recurring_revenue : num;
  competitor_product_count : num
}.

Record TaskRow : Type := {
  task_requested : string;
  created_at : Z
}.

Record FeedbackRow : Type := { user_input : option string }.

Record TaskTypeRow : Type := {
  task_type : option string;
  was_used : bool
}.

Record BlockerRow : Type := {
  blocker_type : string;
  detected_at : Z
}.

(** *** Objects passed between the functions *)

(** The behavioural profile.  [total_signals] and [prediction_accuracy] are
    fixed when the object is built from these two lists and never updated, so
    they are functions of them here; the remaining properties (trajectory,
    dominant pattern, evolution) are not read by any modelled function. *)
Record Profile : Type := {
  profile_patterns : list UserPatternRow;
  verified_predictions : list PredictionRow
}.

(** The business metrics, as far as the detectors read them (growth, churn,
    stage and the other properties are not read). *)
Record BusinessMetrics : Type := {
  current_mrr : num;
  avg_transaction_value : num;
  product_count : num;
  revenue_history : list num
}.

Record CompetitorAnalysis : Type := {
  competitors : list Competitor;
  data_points : num
}.

(** What a detector returns (the [insight] text is left out). *)
Record Detected : Type := {
  confidence : num;
  severity : Severity;
  estimated_cost : num;
  evidence : list (string * num)
}.

(** An element of the merged pattern list *)
Record Pattern : Type := {
  type : string;
  pattern_severity : Severity;
  pattern_confidence : num;
  pattern_evidence : list (string * num);
  cost : num
}.

(** Replies of the datastore to the queries of one analysis *)
Record Upstream : Type := {
  now : Z;
  (* getUserBehavioralProfile *)
  user_patterns : Reply (list UserPatternRow);
  behavioral_predictions : Reply (list PredictionRow);
  pattern_evolution : Reply unit;
  user_state_evolution : Reply unit;
  (* getBusinessTruth *)
  business_context : Reply ContextRow;
  revenue_rows : Reply (list RevenueRow);
  saas_metrics : Reply SaasRow;
  (* getCompetitiveReality *)
  competitive_context : Reply unit;
  similar_businesses : Reply (list Competitor);
  top_breakthroughs : Reply unit;
  (* getInterventionEffectiveness, getBreakthroughPatterns *)
  intervention_effectiveness : Reply unit;
  user_breakthroughs : Reply unit;
  (* ProcrastinationDetector *)
  pending_tasks : Reply (list TaskRow);
  user_feedback : Reply (list FeedbackRow);
  excuse_patterns : Reply unit;
  (* ExecutionParalysisDetector *)
  task_types : Reply (list TaskTypeRow);
  blocker_occurrences : Reply (list BlockerRow)
}.

(** [rows?.length || 0] *)
Definition count_rows {A} (rows : option (list A)) : nat :=
  match rows with
  | Some l => length l
  | None => O
  end.

(** [rows || []] *)
Definition rows_or_empty {A} (rows : option (list A)) : list A :=
  match rows with
  | Some l => l
  | None => []
  end.

(** *** RealTimeBehavioralIntelligence: data gathering *)

Definition calculatePredictionAccuracy (predictions : list PredictionRow) : num :=
  match predictions with
  | [] => Fin 0
  | _ =>
      let accurate :=
        List.filter (fun p => outcome_verified p && gt (prediction_confidence p) (Fin 0.7))
                    predictions in
      div (of_nat (length accurate)) (of_nat (length predictions))
  end.

Definition total_signals (profile : Profile) : num :=
  of_nat (length (profile_patterns profile) + length (verified_predictions profile)).

Definition prediction_accuracy (profile : Profile) : num :=
  calculatePredictionAccuracy (verified_predictions profile).

(** [cached] is what [patternCache.get] returned for the profile key. *)
Definition getUserBehavioralProfile (cached : option Profile) (up : Upstream)
    : completion Profile :=
  match cached with
  | Some profile => Normal profile
  | None =>
      do patterns <- await (user_patterns up);
      do predictions <- await (behavioral_predictions up);
      do evolution <- await (pattern_evolution up);
      do stateData <- await (user_state_evolution up);
      Normal {| profile_patterns := rows_or_empty patterns;
                verified_predictions := rows_or_empty predictions |}
  end.

Definition getBusinessTruth (up : Upstream) : completion BusinessMetrics :=
  do context <- await (business_context up);
  do revenueHistory <- await (revenue_rows up);
  do saasMetrics <- await (saas_metrics up);
  let revenues := List.map revenue_after_use (rows_or_empty revenueHistory) in
  let avgRevenue :=
    match revenues with
    | [] => Fin 0
    | _ => div (sum revenues) (of_nat (length revenues))
    end in
  Normal {| current_mrr :=
              or_else (field context context_mrr)
                      (or_else (field saasMetrics saas_mrr) (Fin 0));
            avg_transaction_value := avgRevenue;
            product_count := or_else (field context context_product_count) (Fin 0);
            revenue_history := firstn 12 revenues |}.

Definition getCompetitiveReality (up : Upstream) : completion CompetitorAnalysis :=
  do userContext <- await (competitive_context up);
  match userContext with
  | None => Normal {| competitors := []; data_points := Fin 0 |}
  | Some _ =>
      do found <- await (similar_businesses up);
      do breakthroughs <- await (top_breakthroughs up);
      Normal {| competitors := rows_or_empty found;
                data_points := mul (of_nat (count_rows found)) (Fin 6) |}
  end.

(** *** ProcrastinationDetector *)

Record TaskDelays : Type := {
  hasDelays : bool;
  delayScore : num;
  delayDays : num;
  avgDelay : num
}.

Definition analyzeTaskDelays (now : Z) (tasks : option (list TaskRow)) : TaskDelays :=
  match rows_or_empty tasks with
  | [] => {| hasDelays := false; delayScore := Fin 0; delayDays := NaN; avgDelay := NaN |}
  | pending =>
      let delays := List.map (fun t => of_Z ((now - created_at t) / day_ms)%Z) pending in
      let totalDelayDays := sum delays in
      let avg := div totalDelayDays (of_nat (length delays)) in
      {| hasDelays := true;
         delayScore := min (div avg (Fin 30)) (Fin 1);
         delayDays := totalDelayDays;
         avgDelay := round avg |}
  end.

Definition futureWords : list string :=
  ["will"; "going to"; "plan to"; "tomorrow"; "next week"; "soon"; "later"; "eventually"].

Definition actionWords : list string :=
  ["did"; "done"; "completed"; "shipped"; "launched"; "finished"].

(** Number of the [words] that occur in one of the messages, counted once
    per message and word. *)
Definition count_words (words : list string) (messages : list FeedbackRow) : nat :=
  list_sum
    (List.map (fun m =>
                 let text := toLowerCase (match user_input m with
                                          | Some s => s
                                          | None => ""%string
                                          end) in
                 length (List.filter (includes text) words))
              messages).

Record LanguagePatterns : Type := {
  futureFocused : bool;
  futureScore : num;
  futureRatioRounded : num
}.

Definition analyzeLanguagePatterns (messages : option (list FeedbackRow))
    : LanguagePatterns :=
  match rows_or_empty messages with
  | [] => {| futureFocused := false; futureScore := Fin 0; futureRatioRounded := NaN |}
  | msgs =>
      let futureCount := count_words futureWords msgs in
      let actionCount := count_words actionWords msgs in
      let futureRatio :=
        div (of_nat futureCount)
            (or_else (of_nat (futureCount + actionCount)) (Fin 1)) in
      {| futureFocused := gt futureRatio (Fin 0.6);
         futureScore := futureRatio;
         futureRatioRounded := div (round (mul futureRatio (Fin 100))) (Fin 100) |}
  end.

Definition ProcrastinationDetector_detect (metrics : BusinessMetrics) (up : Upstream)
    : completion (option Detected) :=
  do tasks <- await (pending_tasks up);
  do messages <- await (user_feedback up);
  do excuses <- await (excuse_patterns up);
  let taskDelays := analyzeTaskDelays (now up) tasks in
  let languagePatterns := analyzeLanguagePatterns messages in
  if negb (hasDelays taskDelays) && negb (futureFocused languagePatterns)
  then Normal None
  else
    let c := div (add (delayScore taskDelays) (futureScore languagePatterns)) (Fin 2) in
    let estimatedCost := mul (delayDays taskDelays) (div (current_mrr metrics) (Fin 30)) in
    Normal (Some {| confidence := c;
                    severity := if gt c (Fin 0.8) then critical
                                else if gt c (Fin 0.6) then high else medium;
                    estimated_cost := estimatedCost;
                    evidence :=
                      [("total_delay_days", delayDays taskDelays);
                       ("avg_task_delay", avgDelay taskDelays);
                       ("future_tense_ratio", futureRatioRounded languagePatterns)] |}).

(** *** PricingCowardiceDetector *)

Record PriceComparison : Type := {
  underpriced : bool;
  comparison_confidence : num;
  yourPrice : num;
  marketAvg : num;
  gapPercent : num;
  monthlyLoss : num
}.

Definition not_underpriced : PriceComparison :=
  {| underpriced := false; comparison_confidence := NaN; yourPrice := NaN;
     marketAvg := NaN; gapPercent := NaN; monthlyLoss := NaN |}.

Definition comparePricing (userMetrics : BusinessMetrics) (rivals : list Competitor)
    : PriceComparison :=
  match rivals with
  | [] => not_underpriced
  | _ =>
      let userAvgPrice :=
        div (current_mrr userMetrics) (or_else (product_count userMetrics) (Fin 1)) in
      let competitorPrices :=
        List.map (fun c => div (monthly_recurring_revenue c) (competitor_product_count c))
          (List.filter (fun c => truthy (monthly_recurring_revenue c)
                                 && truthy (competitor_product_count c)) rivals) in
      match competitorPrices with
      | [] => not_underpriced
      | _ =>
          let avg := div (sum competitorPrices) (of_nat (length competitorPrices)) in
          let gap := mul (div (sub avg userAvgPrice) avg) (Fin 100) in
          {| underpriced := gt gap (Fin 20);
             comparison_confidence := min (div gap (Fin 100)) (Fin 0.95);
             yourPrice := round userAvgPrice;
             marketAvg := round avg;
             gapPercent := round gap;
             monthlyLoss :=
               mul (sub avg userAvgPrice) (or_else (product_count userMetrics) (Fin 1)) |}
      end
  end.

Definition PricingCowardiceDetector_detect (metrics : BusinessMetrics)
    (analysis : CompetitorAnalysis) : option Detected :=
  if negb (truthy (current_mrr metrics)) && negb (truthy (avg_transaction_value metrics))
  then None
  else
    let priceComparison := comparePricing metrics (competitors analysis) in
    if negb (underpriced priceComparison) then None
    else
      Some {| confidence := comparison_confidence priceComparison;
              severity := if gt (gapPercent priceComparison) (Fin 50)
                          then critical else high;
              estimated_cost := monthlyLoss priceComparison;
              evidence :=
                [("your_price", yourPrice priceComparison);
                 ("market_average", marketAvg priceComparison);
                 ("gap_percent", gapPercent priceComparison);
                 ("customer_count", or_else (product_count metrics) (Fin 1))] |}.

(** *** ExecutionParalysisDetector *)

Record PlanningRatio : Type := {
  ratio : num;
  plannedCount : nat;
  executedCount : nat;
  planning_confidence : num
}.

Definition planningWords : list string := ["planning"; "research"; "analysis"; "strategy"].
Definition executionWords : list string := ["launch"; "ship"; "build"; "create"; "implement"].

(** [words.some(type => t.task_type?.toLowerCase().includes(type))] *)
Definition task_type_matches (words : list string) (t : TaskTypeRow) : bool :=
  match task_type t with
  | Some name => includes_any (toLowerCase name) words
  | None => false
  end.

Definition calculatePlanningToExecutionRatio (tasks : option (list TaskTypeRow))
    : PlanningRatio :=
  let planningTasks := List.filter (task_type_matches planningWords) (rows_or_empty tasks) in
  let executionTasks :=
    List.filter (fun t => was_used t && task_type_matches executionWords t)
                (rows_or_empty tasks) in
  let r := div (of_nat (length planningTasks))
               (or_else (of_nat (length executionTasks)) (Fin 1)) in
  {| ratio := div (round (mul r (Fin 10))) (Fin 10);
     plannedCount := length planningTasks;
     executedCount := length executionTasks;
     planning_confidence := min (div (of_nat (length planningTasks)) (Fin 10)) (Fin 0.9) |}.

Record Blockers : Type := {
  hasBlockers : bool;
  blocker_confidence : num;
  daysSinceExecution : num
}.

Definition identifyBlockers (now : Z) (found : option (list BlockerRow)) : Blockers :=
  match rows_or_empty found with
  | [] => {| hasBlockers := false; blocker_confidence := Fin 0; daysSinceExecution := NaN |}
  | latestBlocker :: others =>
      {| hasBlockers := true;
         blocker_confidence :=
           min (div (of_nat (length (latestBlocker :: others))) (Fin 20)) (Fin 0.9);
         daysSinceExecution := of_Z ((now - detected_at latestBlocker) / day_ms)%Z |}
  end.

Definition ExecutionParalysisDetector_detect (metrics : BusinessMetrics)
    (analysis : CompetitorAnalysis) (up : Upstream) : completion (option Detected) :=
  do tasks <- await (task_types up);
  do found <- await (blocker_occurrences up);
  let planningRatio := calculatePlanningToExecutionRatio tasks in
  let blockers := identifyBlockers (now up) found in
  if lt (ratio planningRatio) (Fin 3) && negb (hasBlockers blockers)
  then Normal None
  else
    Normal (Some
      {| confidence :=
           div (add (planning_confidence planningRatio) (blocker_confidence blockers)) (Fin 2);
         severity := if gt (daysSinceExecution blockers) (Fin 30) then critical else high;
         estimated_cost :=
           mul (daysSinceExecution blockers) (div (current_mrr metrics) (Fin 30));
         evidence :=
           [("planning_to_execution_ratio", ratio planningRatio);
            ("planned_but_not_started", of_nat (plannedCount planningRatio));
            ("days_blocked", daysSinceExecution blockers);
            ("competitor_launches",
             of_nat (length (List.filter
                               (fun c => gt (competitor_product_count c)
                                            (product_count metrics))
                               (competitors analysis))))] |}).

(** *** CompetitiveDelusionDetector *)

(** [xs.indexOf(x) + 1] *)
Fixpoint position (x : num) (xs : list num) : nat :=
  match xs with
  | [] => O
  | y :: rest =>
      if eqb y x then 1%nat
      else match position x rest with
           | O => O
           | S k => S (S k)
           end
  end.

Definition calculateRanking (userMetrics : BusinessMetrics) (rivals : list Competitor)
    : nat * num :=
  let allRevenues :=
    sort (fun a b => sub b a)
         (List.map monthly_recurring_revenue rivals ++ [current_mrr userMetrics]) in
  let rank := position (current_mrr userMetrics) allRevenues in
  (rank, round (mul (div (of_nat rank) (of_nat (length allRevenues))) (Fin 100))).

Definition CompetitiveDelusionDetector_detect (metrics : BusinessMetrics)
    (analysis : CompetitorAnalysis) : option Detected :=
  if (length (competitors analysis) <? 5)%nat then None
  else
    let '(rank, percentile) := calculateRanking metrics (competitors analysis) in
    if gt percentile (Fin 50) then None
    else
      let topPerformers := firstn 3 (competitors analysis) in
      let avgTopRevenue :=
        div (sum (List.map monthly_recurring_revenue topPerformers)) (Fin 3) in
      let revenueGap := sub avgTopRevenue (current_mrr metrics) in
      Some {| confidence := Fin 0.85;
              severity := if lt percentile (Fin 20) then critical else high;
              estimated_cost := revenueGap;
              evidence :=
                [("your_rank", of_nat rank);
                 ("total_competitors", of_nat (length (competitors analysis)));
                 ("percentile", percentile);
                 ("revenue_gap", round revenueGap);
                 ("top_performer_revenue", round avgTopRevenue)] |}.

(** *** RevenueStagnationDetector *)

Record Stagnation : Type := {
  isStagnant : bool;
  stagnation_confidence : num;
  monthsStagnant : nat;
  peakRevenue : num;
  currentRevenue : num;
  opportunityCost : num
}.

Section WithEnvironment.
(** [Math.sqrt] *)
Variable Math_sqrt : num -> num.

Definition analyzeStagnation (history : list num) : Stagnation :=
  let current := match history with r :: _ => r | [] => NaN end in
  let peak := fold_left max history NInf in
  let avgRevenue := div (sum history) (of_nat (length history)) in
  let variance :=
    div (sum (List.map (fun r => pow (sub r avgRevenue) 2) history))
        (of_nat (length history)) in
  let stdDev := Math_sqrt variance in
  let volatility := div stdDev avgRevenue in
  let stagnantMonths :=
    length (List.filter
              (fun r => lt (div (abs (sub r avgRevenue)) avgRevenue) (Fin 0.1))
              history) in
  let stagnant :=
    lt volatility (Fin 0.15)
    && ge (of_nat stagnantMonths) (mul (of_nat (length history)) (Fin 0.7)) in
  let months := if stagnant then stagnantMonths else O in
  let potentialRevenue := mul current (pow (Fin 1.1) months) in
  {| isStagnant := stagnant;
     stagnation_confidence :=
       if stagnant then min (div (of_nat months) (Fin 12)) (Fin 0.9) else Fin 0;
     monthsStagnant := months;
     peakRevenue := round peak;
     currentRevenue := round current;
     opportunityCost := mul (sub potentialRevenue current) (of_nat months) |}.

Definition RevenueStagnationDetector_detect (metrics : BusinessMetrics)
    : option Detected :=
  if (length (revenue_history metrics) <? 3)%nat then None
  else
    let stagnation := analyzeStagnation (revenue_history metrics) in
    if negb (isStagnant stagnation) then None
    else
      Some {| confidence := stagnation_confidence stagnation;
              severity := if (6 <? monthsStagnant stagnation)%nat
                          then critical else high;
              estimated_cost := opportunityCost stagnation;
              evidence :=
                [("months_stagnant", of_nat (monthsStagnant stagnation));
                 ("peak_revenue", peakRevenue stagnation);
                 ("current_revenue", currentRevenue stagnation)] |}.

(** *** RealTimeBehavioralIntelligence: detection and intervention *)

(** The five detectors, in the order of [this.patternDetectors]. *)
Definition run_detectors (metrics : BusinessMetrics) (analysis : CompetitorAnalysis)
    (up : Upstream) : completion (list (string * option Detected)) :=
  do procrastination <- ProcrastinationDetector_detect metrics up;
  do paralysis <- ExecutionParalysisDetector_detect metrics analysis up;
  Normal [("procrastination", procrastination);
          ("pricing_cowardice", PricingCowardiceDetector_detect metrics analysis);
          ("execution_paralysis", paralysis);
          ("competitive_delusion", CompetitiveDelusionDetector_detect metrics analysis);
          ("revenue_stagnation", RevenueStagnationDetector_detect metrics)].

(** [if (result && result.confidence > 0.7 && result.evidence) patterns.push(...)];
    the evidence of a detector result is always an object. *)
Definition merge_confident (results : list (string * option Detected)) : list Pattern :=
  flat_map (fun entry =>
              match snd entry with
              | Some result =>
                  if gt (confidence result) (Fin 0.7)
                  then [{| type := fst entry;
                           pattern_severity := severity result;
                           pattern_confidence := confidence result;
                           pattern_evidence := evidence result;
                           cost := or_else (estimated_cost result) (Fin 0) |}]
                  else []
              | None => []
              end) results.

Definition by_cost_desc (a b : Pattern) : num := sub (cost b) (cost a).

Definition detectDataDrivenPatterns (metrics : BusinessMetrics)
    (analysis : CompetitorAnalysis) (up : Upstream) : completion (list Pattern) :=
  do detectionResults <- run_detectors metrics analysis up;
  Normal (sort by_cost_desc (merge_confident detectionResults)).

(** [uuidv4()] *)
Variable uuidv4 : string.
(** [Math.random()] *)
Variable Math_random : num.
(** The template strings of [generateBaseIntervention] and
    [addUncomfortableSpecifics]; the latter yields the intervention text
    and the directive. *)
Variable generateBaseIntervention : Pattern -> string.
Variable addUncomfortableSpecifics : string -> Pattern -> BusinessMetrics -> string * string.

(** The [data] argument of [generateUncomfortableIntervention], as far as
    it is read.  [interventionHistory] is the property of that name;
    [mlSuggestion] is [data.mlPredictions?.suggestions]. *)
Record InterventionData : Type := {
  data_metrics : BusinessMetrics;
  interventionHistory : option (list (string * list (num * bool)));
  mlSuggestion : option string
}.

(** [BehavioralMLEngine.generateIntervention]: reading
    [data.interventionHistory[pattern.type]] throws when the property
    [interventionHistory] is undefined. *)
Definition mlEngine_generateIntervention (pattern : Pattern) (data : InterventionData)
    : completion string :=
  match interventionHistory data with
  | None => Threw
  | Some _ =>
      let baseIntervention := generateBaseIntervention pattern in
      if truthy_str (mlSuggestion data) && gt Math_random (Fin 0.5)
      then Normal (match mlSuggestion data with
                   | Some suggestion => suggestion ++ " " ++ baseIntervention
                   | None => baseIntervention
                   end)%string
      else Normal baseIntervention
  end.

Inductive Intervention : Type :=
| Neutral (tracking_id : string)
| Targeted (intervention directive : string) (pattern : string)
           (severity : Severity) (confidence estimated_cost : num)
           (tracking_id : string).

Definition generateUncomfortableIntervention (patterns : list Pattern)
    (data : InterventionData) : completion Intervention :=
  match patterns with
  | [] => Normal (Neutral uuidv4)
  | primaryPattern :: _ =>
      do mlIntervention <- mlEngine_generateIntervention primaryPattern data;
      let uncomfortableDetails :=
        addUncomfortableSpecifics mlIntervention primaryPattern (data_metrics data) in
      Normal (Targeted (fst uncomfortableDetails) (snd uncomfortableDetails)
                       (type primaryPattern) (pattern_severity primaryPattern)
                       (pattern_confidence primaryPattern) (cost primaryPattern)
                       uuidv4)
  end.

Definition calculateRealConfidence (patterns : list Pattern) (behavioralHistory : Profile)
    : num :=
  let dataQuality := min (div (total_signals behavioralHistory) (Fin 10)) (Fin 1) in
  let predictionAccuracy := or_else (prediction_accuracy behavioralHistory) (Fin 0.5) in
  let patternClarity :=
    match patterns with
    | first :: _ => pattern_confidence first
    | [] => Fin 0.5
    end in
  add (add (mul dataQuality (Fin 0.3)) (mul predictionAccuracy (Fin 0.5)))
      (mul patternClarity (Fin 0.2)).

(** The object returned by [analyzeUser] ([processing_time_ms] and
    [data_sources_used] are left out). *)
Record Analysis : Type := {
  patterns : list Pattern;
  intervention : Intervention;
  analysis_confidence : num;
  should_intervene : bool
}.

Definition analyzeUser (cached : option Profile) (up : Upstream) : completion Analysis :=
  do behavioralHistory <- getUserBehavioralProfile cached up;
  do businessMetrics <- getBusinessTruth up;
  do competitorAnalysis <- getCompetitiveReality up;
  do effectiveness <- await (intervention_effectiveness up);
  do breakthroughData <- await (user_breakthroughs up);
  (* mlEngine.getPredictions catches its own errors and its result is not
     passed on to the intervention step *)
  do found <- detectDataDrivenPatterns businessMetrics competitorAnalysis up;
  do generated <-
    generateUncomfortableIntervention found
      {| data_metrics := businessMetrics;
         interventionHistory := None;
         mlSuggestion := None |};
  (* trackInterventionDelivery catches its own errors *)
  Normal {| patterns := found;
            intervention := generated;
            analysis_confidence := calculateRealConfidence found behavioralHistory;
            should_intervene :=
              existsb (fun p => is_critical (pattern_severity p) || gt (cost p) (Fin 1000))
                      found |}.

(** *** BehavioralIntelligenceAPI *)

Inductive Call : Type :=
| CountRequest (user : string)
| AnalyzeUser (user : string).

Inductive Response : Type :=
| Analysed (result : Analysis)
| Refused (status : Z) (error : string).

Definition status (r : Response) : Z :=
  match r with
  | Analysed _ => 200%Z
  | Refused code _ => code
  end.

(** POST /api/analyze.  [requests] is what [patternCache.get] returned
    for the rate-limit key, [cached] what it returned for the profile key.
    The route runs behind [express.json()] of Express 4 (package.json:
    ^4.18.2), which leaves an object in [req.body] also when the request
    has no body, so the route always destructures a [Body]. *)
Definition analyze_route (requests : option nat) (cached : option Profile)
    (up : Upstream) (body : Body) : Response * list Call :=
  match missing_fields body, userId body with
  | false, Some user =>
      let seen := match requests with Some n => n | None => O end in
      if (30 <? seen)%nat then (Refused 429 "Rate limit exceeded", [])
      else
        match analyzeUser cached up with
        | Normal result => (Analysed result, [CountRequest user; AnalyzeUser user])
        | Threw => (Refused 500 "Analysis failed", [CountRequest user; AnalyzeUser user])
        end
  | _, _ => (Refused 400 "userId and message required", [])
  end.
End WithEnvironment.

(** The [outcome] object of a track-outcome request.  The three flags are
    given by their truthiness; a missing [revenue_impact] is [NaN]. *)
Record Outcome : Type := {
  action_taken : bool;
  revenue_impact : num;
  pattern_broken : bool;
  breakthrough : bool
}.

Definition weight_action_taken : num := Fin 0.3.
Definition weight_revenue_impact : num := Fin 0.3.
Definition weight_pattern_broken : num := Fin 0.2.
Definition weight_breakthrough : num := Fin 0.2.

Definition add_if (condition : bool) (weight score : num) : num :=
  if condition then add score weight else score.

Definition calculateEffectiveness (outcome : Outcome) : num :=
  let score := Fin 0 in
  let score := add_if (action_taken outcome) weight_action_taken score in
  let score := add_if (gt (revenue_impact outcome) (Fin 0)) weight_revenue_impact score in
  let score := add_if (pattern_broken outcome) weight_pattern_broken score in
  let score := add_if (breakthrough outcome) weight_breakthrough score in
  min score (Fin 1).

Record TrackBody : Type := {
  tracking_id : option string;
  outcome : option Outcome
}.

Inductive TrackResponse : Type :=
| Recorded (effectiveness_recorded : num)
| TrackRefused (status : Z) (error : string).

Definition track_status (r : TrackResponse) : Z :=
  match r with
  | Recorded _ => 200%Z
  | TrackRefused code _ => code
  end.


(** [checkDatabaseHealth]: [probe] is the reply to the [user_patterns] query. *)
Definition checkDatabaseHealth (probe : Reply unit) : bool :=
  match probe with
  | Resolved _ error => negb error
  | Rejected => false
  end.

(** What GET /health sends: [res.json] keeps the default status code. *)
Record Health : Type := {
  http_status : Z;
  health_status : string;
  database : bool
}.

Definition health_route (probe : Reply unit) : Health :=
  let dbHealth := checkDatabaseHealth probe in
  {| http_status := 200;
     health_status := if dbHealth then "healthy" else "degraded";
     database := dbHealth |}.

End Engine.

(** ** index.js *)

Module Production.

(** What [getSystemHealth] looks at *)
Record Process : Type := {
  cache_errors : nat;
  heapUsed : Z;
  intelligence_engine : bool;
  brutal_interventions : bool;
  query_optimizer : bool;
  ab_tester : bool;
  (* reading the metrics threw *)
  check_threw : bool
}.

Definition getSystemHealth (p : Process) : bool :=
  if check_threw p then false
  else
    let cache_healthy := (cache_errors p <? 10)%nat in
    let memory_healthy := (heapUsed p <? 400 * 1024 * 1024)%Z in
    memory_healthy && cache_healthy
    && forallb (fun c => c)
         [intelligence_engine p; brutal_interventions p; query_optimizer p; ab_tester p].

(** GET /health: [res.status(health.healthy ? 200 : 503)] *)
Definition health_route (p : Process) : Z :=
  if getSystemHealth p then 200%Z else 503%Z.

End Production.


(** * Properties *)

(** ** Predicates used in the statements *)

(** [a] is a finite number between [lo] and [hi]. *)
Definition within (lo hi : Q) (a : Js.num) : Prop :=
  match a with
  | Js.Fin q => lo <= q /\ q <= hi
  | _ => False
  end.

(** [a] is a finite number above [lo] and at most [hi]. *)
Definition above (lo hi : Q) (a : Js.num) : Prop :=
  match a with
  | Js.Fin q => lo < q /\ q <= hi
  | _ => False
  end.

(** A list is in descending order of [key]. *)
Definition descending {A} (key : A -> Js.num) (l : list A) : Prop :=
  StronglySorted (fun a b => Js.ge (key a) (key b) = true) l.

(** ** Sample inputs *)

(** No row in [pattern_cache], no row in [user_patterns]. *)
Definition no_tables : Api.Tables :=
  {| Api.pattern_cache := ∅; Api.resistance := ∅ |}.

(** Every call of the optimizer path is rejected by the datastore. *)
Definition failing_detection : Optimizer.Upstream :=
  {| Optimizer.now := 0;
     Optimizer.cache_read_ok := false;
     Optimizer.cache_write_ok := false;
     Optimizer.procrastination_metrics := Js.Rejected;
     Optimizer.business_context := Js.Rejected;
     Optimizer.pricing_comparison := Js.Rejected;
     Optimizer.execution_metrics := Js.Rejected |}.

Definition failing_upstream : Api.Upstream :=
  {| Api.detection := failing_detection; Api.resistance_read_ok := false |}.



(** A user priced 40% under the market (monthly loss 40000, not critical)
    who has also delayed tasks for 84 days (cost 8400, critical). *)
Definition mixed_detection : Optimizer.Upstream :=
  {| Optimizer.now := 0;
     Optimizer.cache_read_ok := true;
     Optimizer.cache_write_ok := true;
     Optimizer.procrastination_metrics :=
       Js.Resolved (Some {| Optimizer.total_delay_days := Js.Fin 84;
                            Optimizer.oldest_task_age := Js.Fin 84 |}) false;
     Optimizer.business_context :=
       Js.Resolved (Some {| Optimizer.monthly_recurring_revenue := Js.Fin 3000 |}) false;
     Optimizer.pricing_comparison :=
       Js.Resolved (Some {| Optimizer.market_average := Js.Fin 100;
                            Optimizer.your_price := Js.Fin 60;
                            Optimizer.customer_count := Js.Fin 1000;
                            Optimizer.percentile_rank := Js.Fin 30 |}) false;
     Optimizer.execution_metrics := Js.Resolved None false |}.

Definition mixed_upstream : Api.Upstream :=
  {| Api.detection := mixed_detection; Api.resistance_read_ok := true |}.

(** A user who charges 200 where the market charges 100. *)
Definition overpriced_row : Optimizer.PricingComparison :=
  {| Optimizer.market_average := Js.Fin 100;
     Optimizer.your_price := Js.Fin 200;
     Optimizer.customer_count := Js.Fin 10;
     Optimizer.percentile_rank := Js.Fin 90 |}.


(** As [quiet_engine], with one open task dated 60 days after [now]. *)
Definition future_task_engine : Engine.Upstream :=
  {| Engine.now := 0;
     Engine.user_patterns := Js.Resolved (Some []) false;
     Engine.behavioral_predictions := Js.Resolved (Some []) false;
     Engine.pattern_evolution := Js.Resolved (Some tt) false;
     Engine.user_state_evolution := Js.Resolved (Some tt) false;
     Engine.business_context := Js.Resolved None true;
     Engine.revenue_rows := Js.Resolved (Some []) false;
     Engine.saas_metrics := Js.Resolved None true;
     Engine.competitive_context := Js.Resolved None true;
     Engine.similar_businesses := Js.Resolved (Some []) false;
     Engine.top_breakthroughs := Js.Resolved (Some tt) false;
     Engine.intervention_effectiveness := Js.Resolved (Some tt) false;
     Engine.user_breakthroughs := Js.Resolved (Some tt) false;
     Engine.pending_tasks :=
       Js.Resolved (Some [{| Engine.task_requested := "launch";
                             Engine.created_at := (60 * Engine.day_ms)%Z |}]) false;
     Engine.user_feedback := Js.Resolved (Some []) false;
     Engine.excuse_patterns := Js.Resolved (Some tt) false;
     Engine.task_types := Js.Resolved (Some []) false;
     Engine.blocker_occurrences := Js.Resolved (Some []) false |}.

(** As [quiet_engine], with the first query of the profile rejected. *)
Definition broken_engine : Engine.Upstream :=
  {| Engine.now := 0;
     Engine.user_patterns := Js.Rejected;
     Engine.behavioral_predictions := Js.Resolved (Some []) false;
     Engine.pattern_evolution := Js.Resolved (Some tt) false;
     Engine.user_state_evolution := Js.Resolved (Some tt) false;
     Engine.business_context := Js.Resolved None true;
     Engine.revenue_rows := Js.Resolved (Some []) false;
     Engine.saas_metrics := Js.Resolved None true;
     Engine.competitive_context := Js.Resolved None true;
     Engine.similar_businesses := Js.Resolved (Some []) false;
     Engine.top_breakthroughs := Js.Resolved (Some tt) false;
     Engine.intervention_effectiveness := Js.Resolved (Some tt) false;
     Engine.user_breakthroughs := Js.Resolved (Some tt) false;
     Engine.pending_tasks := Js.Resolved (Some []) false;
     Engine.user_feedback := Js.Resolved (Some []) false;
     Engine.excuse_patterns := Js.Resolved (Some tt) false;
     Engine.task_types := Js.Resolved (Some []) false;
     Engine.blocker_occurrences := Js.Resolved (Some []) false |}.

(** Revenue 79 with one product, against one competitor at 100: a price
    gap of 21%. *)
Definition slightly_underpriced : Engine.BusinessMetrics :=
  {| Engine.current_mrr := Js.Fin 79;
     Engine.avg_transaction_value := Js.Fin 0;
     Engine.product_count := Js.Fin 1;
     Engine.revenue_history := [] |}.

Definition one_competitor : Engine.CompetitorAnalysis :=
  {| Engine.competitors :=
       [{| Engine.competitor_id := "c1";
           Engine.monthly_recurring_revenue := Js.Fin 100;
           Engine.competitor_product_count := Js.Fin 1 |}];
     Engine.data_points := Js.Fin 6 |}.

(** As [quiet_engine], with one task that has been open for 84 days and
    one message in the future tense. *)
Definition delaying_engine : Engine.Upstream :=
  {| Engine.now := 0;
     Engine.user_patterns := Js.Resolved (Some []) false;
     Engine.behavioral_predictions := Js.Resolved (Some []) false;
     Engine.pattern_evolution := Js.Resolved (Some tt) false;
     Engine.user_state_evolution := Js.Resolved (Some tt) false;
     Engine.business_context := Js.Resolved None true;
     Engine.revenue_rows := Js.Resolved (Some []) false;
     Engine.saas_metrics := Js.Resolved None true;
     Engine.competitive_context := Js.Resolved None true;
     Engine.similar_businesses := Js.Resolved (Some []) false;
     Engine.top_breakthroughs := Js.Resolved (Some tt) false;
     Engine.intervention_effectiveness := Js.Resolved (Some tt) false;
     Engine.user_breakthroughs := Js.Resolved (Some tt) false;
     Engine.pending_tasks :=
       Js.Resolved (Some [{| Engine.task_requested := "launch";
                             Engine.created_at := (- (84 * Engine.day_ms))%Z |}]) false;
     Engine.user_feedback :=
       Js.Resolved (Some [{| Engine.user_input := Some "I will launch tomorrow" |}]) false;
     Engine.excuse_patterns := Js.Resolved (Some tt) false;
     Engine.task_types := Js.Resolved (Some []) false;
     Engine.blocker_occurrences := Js.Resolved (Some []) false |}.



(** ** Arithmetic of [Js.num] *)

Section NumFacts.
Import Js.

Lemma Qltb_lt (x y : Q) : Qltb x y = true <-> x < y.
Proof.
  unfold Qltb. rewrite negb_true_iff. split; intro H.
  - apply Qnot_le_lt. intro L. apply Qle_bool_iff in L. congruence.
  - destruct (Qle_bool y x) eqn:E; [|reflexivity].
    apply Qle_bool_iff in E. exfalso. eapply Qlt_not_le; eassumption.
Qed.

Lemma Qltb_ge (x y : Q) : Qltb x y = false <-> y <= x.
Proof.
  unfold Qltb. rewrite negb_false_iff. apply Qle_bool_iff.
Qed.

Lemma div_Fin (x y : Q) : ~ y == 0 -> div (Fin x) (Fin y) = Fin (x / y).
Proof.
  intro H. unfold div. destruct (y ?= 0) eqn:E; try reflexivity.
  apply Qeq_alt in E. contradiction.
Qed.

Lemma gt_Fin (x y : Q) : gt (Fin x) (Fin y) = true <-> y < x.
Proof. apply Qltb_lt. Qed.

Lemma gt_Fin_r (a : num) (c : Q) :
  gt a (Fin c) = true -> a = PInf \/ exists q, a = Fin q /\ c < q.
Proof.
  destruct a as [| | |x]; cbn; try discriminate; auto.
  intro H. right. exists x. split; [reflexivity | now apply Qltb_lt].
Qed.

Lemma min_Fin (x y : Q) :
  exists q, min (Fin x) (Fin y) = Fin q /\ q <= x /\ q <= y /\ (q == x \/ q == y).
Proof.
  unfold min, lt. destruct (Qltb y x) eqn:E.
  - apply Qltb_lt in E. exists y. repeat split; lra.
  - apply Qltb_ge in E. exists x. repeat split; lra.
Qed.

Lemma within_min (lo hi x c : Q) :
  lo <= x -> lo <= c -> c <= hi -> within lo hi (min (Fin x) (Fin c)).
Proof.
  intros. destruct (min_Fin x c) as (q & -> & ? & ? & [E|E]); cbn; lra.
Qed.

Lemma min_upper (a : num) (c : Q) :
  match min a (Fin c) with
  | Fin q => q <= c
  | NInf => a = NInf
  | NaN => a = NaN
  | PInf => False
  end.
Proof.
  destruct a as [| | |x]; cbn; auto; [lra|].
  destruct (Qltb c x) eqn:E; [lra|]. now apply Qltb_ge in E.
Qed.

Lemma of_nat_nonneg (n : nat) : 0 <= inject_Z (Z.of_nat n).
Proof.
  change 0 with (inject_Z 0). rewrite <- Zle_Qle. lia.
Qed.

Lemma of_nat_pos (n : nat) : (0 < n)%nat -> 0 < inject_Z (Z.of_nat n).
Proof.
  intro. change 0 with (inject_Z 0). rewrite <- Zlt_Qlt. lia.
Qed.

Lemma of_nat_le (n m : nat) :
  (n <= m)%nat -> inject_Z (Z.of_nat n) <= inject_Z (Z.of_nat m).
Proof.
  intro. rewrite <- Zle_Qle. lia.
Qed.

(** A ratio of counts [n / m] with [n <= m] lies in the unit interval. *)
Lemma ratio_within (n m : nat) :
  (n <= m)%nat -> (0 < m)%nat -> within 0 1 (div (of_nat n) (of_nat m)).
Proof.
  intros Hle Hpos. unfold of_nat.
  pose proof (of_nat_pos m Hpos) as Pm.
  pose proof (of_nat_nonneg n) as Pn.
  pose proof (of_nat_le n m Hle) as Pl.
  rewrite div_Fin by lra. cbn. split.
  - apply Qle_shift_div_l; lra.
  - apply Qle_shift_div_r; lra.
Qed.

Lemma sum_from (acc : Q) (qs : list Q) :
  exists q, fold_left add (List.map Fin qs) (Fin acc) = Fin q
            /\ (Forall (fun x => 0 <= x) qs -> acc <= q).
Proof.
  revert acc. induction qs as [|x qs IH]; intro acc; cbn.
  - exists acc. split; [reflexivity | intros; lra].
  - destruct (IH (acc + x)) as (q & E & P). exists q. split; [exact E|].
    intro F. inversion F; subst. specialize (P H2). lra.
Qed.

Lemma sum_finite (qs : list Q) :
  exists q, sum (List.map Fin qs) = Fin q /\ (Forall (fun x => 0 <= x) qs -> 0 <= q).
Proof. apply sum_from. Qed.

(** Comparisons on numbers other than [NaN] *)

Lemma ge_trans (a b c : num) : ge a b = true -> ge b c = true -> ge a c = true.
Proof.
  destruct a, b, c; cbn; try congruence.
  rewrite !Qle_bool_iff. lra.
Qed.

Lemma sub_not_positive (a b : num) :
  a <> NaN -> b <> NaN -> gt (sub b a) (Fin 0) = false -> ge a b = true.
Proof.
  destruct a as [| | |x], b as [| | |y]; cbn; try congruence; intros _ _.
  intro H. apply Qltb_ge in H. apply Qle_bool_iff. lra.
Qed.

Lemma sub_positive (a b : num) :
  gt (sub b a) (Fin 0) = true -> ge b a = true.
Proof.
  destruct a as [| | |x], b as [| | |y]; cbn; try congruence.
  intro H. apply Qltb_lt in H. apply Qle_bool_iff. lra.
Qed.

Lemma or_else_number (a : num) (d : Q) : or_else a (Fin d) <> NaN.
Proof.
  unfold or_else. destruct a as [| | |x]; cbn; try congruence.
  destruct (negb (Qeq_bool x 0)); congruence.
Qed.

End NumFacts.

(** ** Sorting *)

Section SortFacts.
Import Js.
Context {A : Type} (key : A -> num).

Let cmp (a b : A) : num := sub (key b) (key a).

Lemma insert_perm (x : A) (l : list A) : Permutation (x :: l) (insert cmp x l).
Proof.
  induction l as [|y l IH]; cbn [insert]; [reflexivity|].
  destruct (goes_after cmp x y); [|reflexivity].
  rewrite perm_swap. now constructor.
Qed.

Lemma sort_perm (l : list A) : Permutation l (sort cmp l).
Proof.
  induction l as [|x l IH]; [constructor|].
  change (sort cmp (x :: l)) with (insert cmp x (sort cmp l)).
  rewrite <- insert_perm. now constructor.
Qed.

Lemma insert_descending (x : A) (l : list A) :
  key x <> NaN -> Forall (fun y => key y <> NaN) l ->
  descending key l -> descending key (insert cmp x l).
Proof.
  intros Hx Hl Hs. induction Hs as [|y l Hs IH Hy]; cbn [insert].
  - repeat constructor.
  - inversion Hl as [|? ? Ny Nl]; subst.
    unfold goes_after, cmp. destruct (gt (sub (key y) (key x)) (Fin 0)) eqn:E.
    + constructor; [now apply IH|].
      apply sub_positive in E.
      eapply Permutation_Forall; [apply insert_perm|].
      constructor; assumption.
    + apply sub_not_positive in E; try assumption.
      constructor; [constructor; assumption|].
      constructor; [assumption|].
      eapply List.Forall_impl; [|exact Hy].
      intros z Hz. eapply ge_trans; eassumption.
Qed.

Lemma sort_descending (l : list A) :
  Forall (fun y => key y <> NaN) l -> descending key (sort cmp l).
Proof.
  induction 1 as [|x l Hx Hl IH]; [constructor|].
  change (sort cmp (x :: l)) with (insert cmp x (sort cmp l)).
  apply insert_descending; try assumption.
  eapply Permutation_Forall; [apply sort_perm | assumption].
Qed.

Lemma sort_Forall (P : A -> Prop) (l : list A) : Forall P l -> Forall P (sort cmp l).
Proof. apply Permutation_Forall, sort_perm. Qed.

End SortFacts.

(** ** Escalation level (brutal-interventions.js) *)

Lemma resistanceLevels_integer (z : Z) :
  Interventions.resistanceLevels (Js.of_Z z) = Interventions.level_name z.
Proof.
  unfold Interventions.resistanceLevels, Js.of_Z.
  rewrite Qfloor_Z.
  destruct (Qeq_bool (inject_Z z) (inject_Z z)) eqn:E; [reflexivity|].
  apply Qeq_bool_neq in E. exfalso. apply E. reflexivity.
Qed.

Lemma min_integer (z : Z) : Js.min (Js.of_Z z) (Js.Fin 5) = Js.of_Z (Z.min z 5).
Proof.
  unfold Js.min, Js.of_Z, Js.lt.
  change 5 with (inject_Z 5).
  destruct (Js.Qltb (inject_Z 5) (inject_Z z)) eqn:E.
  - apply Qltb_lt in E. rewrite <- Zlt_Qlt in E. now rewrite Z.min_r by lia.
  - apply Qltb_ge in E. rewrite <- Zle_Qle in E. now rewrite Z.min_l by lia.
Qed.

Lemma selected_level_integer (z : Z) :
  Interventions.selected_level (Js.of_Z z) = Interventions.level_name (Z.min z 5).
Proof.
  unfold Interventions.selected_level.
  now rewrite min_integer, resistanceLevels_integer.
Qed.

Lemma level_name_defined (z : Z) :
  (0 <= z <= 5)%Z ->
  exists name, Interventions.level_name z = Some name
               /\ In name Interventions.defined_levels.
Proof.
  intro H.
  assert (z = 0 \/ z = 1 \/ z = 2 \/ z = 3 \/ z = 4 \/ z = 5)%Z as C by lia.
  destruct C as [-> | [-> | [-> | [-> | [-> | ->]]]]];
    eexists; (split; [reflexivity | cbn; tauto]).
Qed.

Lemma resistance_level_read (up : Api.Upstream) (db : Api.Tables) (user : string) :
  Api.getUserResistanceLevel up db user
  = Js.of_Z (if Api.resistance_read_ok up
             then Interventions.stored_level (Api.resistance db) user else 0%Z).
Proof.
  unfold Api.getUserResistanceLevel.
  destruct (Api.resistance_read_ok up); [|reflexivity].
  destruct (Interventions.stored_level (Api.resistance db) user); reflexivity.
Qed.

(** C6, as the code has it.  The level name used to pick a template is
    [resistanceLevels[Math.min(level, 5)]]: the persisted counter is clamped
    from above only.  For every integer level [z >= 0] (also above 5) it is
    one of the six defined names; for a negative level no name is selected
    and [generateIntervention] falls back to the default intervention. *)
Theorem escalation_level_clamped_above :
  forall z : Z,
    Interventions.selected_level (Js.of_Z z) = Interventions.level_name (Z.min z 5)
    /\ ((0 <= z)%Z ->
        exists name, Interventions.selected_level (Js.of_Z z) = Some name
                     /\ In name Interventions.defined_levels)
    /\ ((z < 0)%Z ->
        Interventions.selected_level (Js.of_Z z) = None
        /\ forall Evidence UserData Text run pattern (evidence : Evidence)
                  (userData : UserData),
            Interventions.generateIntervention Evidence UserData Text run
              (Some pattern) (Some evidence) (Some userData) (Js.of_Z z)
            = Js.Normal (Interventions.DefaultBrutal evidence))
    /\ (forall up db user,
          Api.resistance_read_ok up = true ->
          Interventions.stored_level (Api.resistance db) user = z ->
          Interventions.selected_level (Api.getUserResistanceLevel up db user)
          = Interventions.level_name (Z.min z 5)).
Proof.
  intro z. split; [apply selected_level_integer|]. split; [|split].
  - intro H. rewrite selected_level_integer.
    apply level_name_defined. lia.
  - intro H.
    assert (Interventions.selected_level (Js.of_Z z) = None) as N.
    { rewrite selected_level_integer. rewrite Z.min_l by lia.
      destruct z; try lia. reflexivity. }
    split; [exact N|]. intros. unfold Interventions.generateIntervention.
    rewrite N. unfold Interventions.has_generator.
    destruct (Interventions.type pattern); reflexivity.
  - intros up db user R S. rewrite resistance_level_read, R, S.
    apply selected_level_integer.
Qed.

Lemma escalation_level_clamped_above_witness :
  (exists name, Interventions.selected_level (Js.of_Z 7) = Some name
                /\ In name Interventions.defined_levels)
  /\ Interventions.selected_level (Js.of_Z (-2)) = None.
Proof.
  split.
  - apply (proj1 (proj2 (escalation_level_clamped_above 7))). lia.
  - apply (proj1 (proj2 (proj2 (escalation_level_clamped_above (-2))))). lia.
Defined.

(** C6 as stated fails for a negative counter: no level is named. *)
Lemma negative_level_names_no_level :
  ~ exists name, Interventions.selected_level (Js.of_Z (-1)) = Some name
                 /\ In name Interventions.defined_levels.
Proof.
  intros (name & E & _). vm_compute in E. discriminate.
Qed.

(** ** Health checks *)

(** A process of index.js in which every check passes *)
Definition sound_process : Production.Process :=
  {| Production.cache_errors := 0;
     Production.heapUsed := 287 * 1024 * 1024;
     Production.intelligence_engine := true;
     Production.brutal_interventions := true;
     Production.query_optimizer := true;
     Production.ab_tester := true;
     Production.check_threw := false |}.

(** The same process with 500 MB of heap in use *)
Definition bloated_process : Production.Process :=
  {| Production.cache_errors := 0;
     Production.heapUsed := 500 * 1024 * 1024;
     Production.intelligence_engine := true;
     Production.brutal_interventions := true;
     Production.query_optimizer := true;
     Production.ab_tester := true;
     Production.check_threw := false |}.

Lemma checkDatabaseHealth_true (probe : Js.Reply unit) :
  Engine.checkDatabaseHealth probe = true <-> exists data, probe = Js.Resolved data false.
Proof.
  destruct probe as [data [|]|]; cbn; split; try discriminate.
  - intros (d & H). discriminate H.
  - intros _. now exists data.
  - reflexivity.
  - intros (d & H). discriminate H.
Qed.

Lemma getSystemHealth_true (p : Production.Process) :
  Production.getSystemHealth p = true
  <-> Production.check_threw p = false
      /\ (Production.heapUsed p < 400 * 1024 * 1024)%Z
      /\ (Production.cache_errors p < 10)%nat
      /\ Production.intelligence_engine p = true
      /\ Production.brutal_interventions p = true
      /\ Production.query_optimizer p = true
      /\ Production.ab_tester p = true.
Proof.
  unfold Production.getSystemHealth.
  destruct (Production.check_threw p).
  - split; [discriminate | intros (H & _); discriminate H].
  - cbv zeta. cbn [forallb]. rewrite !andb_true_iff, Z.ltb_lt, Nat.ltb_lt. tauto.
Qed.

(** C9, as the code has it.  The engine's GET /health always answers with
    status 200 and reports the probe in the body: [database: true] and
    [status: 'healthy'] exactly when the probe resolves without an error,
    [database: false] and [status: 'degraded'] when it is rejected or
    resolves with one.  The health route of index.js answers 200 or 503,
    and 503 exactly when reading the metrics threw, the heap in use has
    reached 400 MB, the cache has counted 10 errors, or one of the four
    components is missing; a probe of the datastore is not among its
    checks. *)
Theorem health_reports_probe_in_body :
  (forall probe,
      let h := Engine.health_route probe in
      Engine.http_status h = 200%Z
      /\ (Engine.database h = true <-> exists data, probe = Js.Resolved data false)
      /\ (Engine.database h = false
          <-> probe = Js.Rejected \/ exists data, probe = Js.Resolved data true)
      /\ (Engine.health_status h = "healthy" <-> Engine.database h = true)
      /\ (Engine.health_status h = "degraded" <-> Engine.database h = false))
  /\ (forall p,
         (Production.health_route p = 503%Z
          <-> Production.check_threw p = true
              \/ (400 * 1024 * 1024 <= Production.heapUsed p)%Z
              \/ (10 <= Production.cache_errors p)%nat
              \/ Production.intelligence_engine p = false
              \/ Production.brutal_interventions p = false
              \/ Production.query_optimizer p = false
              \/ Production.ab_tester p = false)
         /\ (Production.health_route p = 200%Z
             <-> Production.health_route p <> 503%Z)).
Proof.
  split.
  - intros probe h. subst h. unfold Engine.health_route.
    cbn [Engine.http_status Engine.database Engine.health_status].
    split; [reflexivity|]. split; [apply checkDatabaseHealth_true|].
    split; [|split].
    + rewrite <- not_true_iff_false, checkDatabaseHealth_true.
      destruct probe as [data [|]|].
      * split; [intros _; right; now exists data | intros _ (d & H); discriminate H].
      * split; [intro H; exfalso; apply H; now exists data
               | intros [H | (d & H)]; discriminate H].
      * split; [intros _; now left | intros _ (d & H); discriminate H].
    + destruct (Engine.checkDatabaseHealth probe); split; try reflexivity; discriminate.
    + destruct (Engine.checkDatabaseHealth probe); split; try reflexivity; discriminate.
  - intro p. unfold Production.health_route.
    pose proof (getSystemHealth_true p) as H.
    destruct (Production.getSystemHealth p).
    + split.
      * split; [discriminate|]. intro F. exfalso.
        destruct (proj1 H eq_refl) as (T & M & C & I & B & Q & A).
        destruct F as [F | [F | [F | [F | [F | [F | F]]]]]]; try congruence; lia.
      * split; [discriminate | reflexivity].
    + split.
      * split; [|reflexivity]. intros _.
        destruct (Production.check_threw p) eqn:T; [now left|]. right.
        destruct (Z_lt_le_dec (Production.heapUsed p) (400 * 1024 * 1024)) as [M|M];
          [|now left]. right.
        destruct (le_lt_dec 10 (Production.cache_errors p)) as [C|C]; [now left|]. right.
        destruct (Production.intelligence_engine p) eqn:I; [|now left]. right.
        destruct (Production.brutal_interventions p) eqn:B; [|now left]. right.
        destruct (Production.query_optimizer p) eqn:Q; [|now left]. right.
        destruct (Production.ab_tester p) eqn:A; [|reflexivity].
        assert (false = true) by (apply H; repeat split; assumption). discriminate.
      * split; [discriminate | congruence].
Qed.

(** A probe that resolves without an error is reported healthy, a rejected
    one as degraded; index.js answers 200 for a sound process and 503 for
    one that uses 500 MB of heap. *)
Lemma health_reports_probe_in_body_witness :
  Engine.health_status (Engine.health_route (Js.Resolved None false)) = "healthy"
  /\ Engine.database (Engine.health_route Js.Rejected) = false
  /\ Production.health_route sound_process = 200%Z
  /\ Production.health_route bloated_process = 503%Z.
Proof.
  destruct health_reports_probe_in_body as [E P].
  pose proof (E (Js.Resolved None false)) as (_ & D & _ & S & _).
  pose proof (E Js.Rejected) as (_ & _ & F & _).
  split; [|split; [|split]].
  - apply S, D. now exists None.
  - apply F. now left.
  - apply (proj2 (P sound_process)). intro H. apply (proj1 (P sound_process)) in H.
    vm_compute in H. intuition (discriminate || lia).
  - apply (proj1 (P bloated_process)). right. left. vm_compute. discriminate.
Defined.

(** C9 as stated fails: with a rejected probe the status is still 200. *)
Lemma failed_probe_still_200 :
  Engine.checkDatabaseHealth Js.Rejected = false
  /\ Engine.http_status (Engine.health_route Js.Rejected) = 200%Z.
Proof. split; reflexivity. Qed.

(** ** Request validation *)

Lemma missing_fields_of_None (body : Body) :
  userId body = None \/ message body = None -> missing_fields body = true.
Proof.
  unfold missing_fields. intros [E | E]; rewrite E; cbn.
  - reflexivity.
  - apply orb_true_r.
Qed.

(** C8.  An analyze request whose body lacks [userId] or [message] is
    answered with status 400 by both handlers; no detection is started and
    no table is changed.  A request to api/analyze.js that carries no body
    at all is not answered 400: reading the two fields from [req.body]
    throws inside the [try] block of [handleAnalyze], and the [catch]
    answers 500, without a detection either. *)
Theorem analyze_request_validation :
  (forall body : Body,
      userId body = None \/ message body = None ->
      (forall VERCEL pooler Text run db up,
          let '(response, calls, db') :=
            Api.handleAnalyze VERCEL pooler Text run db up (Some body) in
          Api.status response = 400%Z /\ calls = [] /\ db' = db)
      /\ (forall sqrt uuid random base specifics requests cached up,
            let '(response, calls) :=
              Engine.analyze_route sqrt uuid random base specifics requests cached up body in
            Engine.status response = 400%Z /\ calls = []))
  /\ (forall VERCEL pooler Text run db up,
         Api.handleAnalyze VERCEL pooler Text run db up None
         = (Api.JsonError 500 "Analysis failed", [], db)).
Proof.
  split.
  - intros body H. apply missing_fields_of_None in H. split; intros.
    + unfold Api.handleAnalyze. rewrite H. repeat split.
    + unfold Engine.analyze_route. rewrite H. repeat split.
  - reflexivity.
Qed.

Lemma analyze_request_validation_witness :
  (let '(response, calls, db') :=
     Api.handleAnalyze false (fun _ => Js.Threw) unit (fun _ _ _ _ => Js.Threw)
       no_tables failing_upstream (Some {| userId := Some "u1"; message := None |}) in
   Api.status response = 400%Z /\ calls = [] /\ db' = no_tables)
  /\ Api.status
       (fst (fst (Api.handleAnalyze false (fun _ => Js.Threw) unit
                    (fun _ _ _ _ => Js.Threw) no_tables failing_upstream None)))
     = 500%Z.
Proof.
  split.
  - apply (proj1 (proj1 analyze_request_validation
                    {| userId := Some "u1"; message := None |} (or_intror eq_refl))).
  - now rewrite (proj2 analyze_request_validation).
Defined.

(** ** Outcome tracking *)



(** The same sum in IEEE binary64 arithmetic, the arithmetic of the
    JavaScript engine: the four weights add up to exactly 1 there too. *)
Definition effectiveness_binary64 (action revenue broken breakthrough : bool) : float :=
  let score := 0%float in
  let score := if action then (score + 0x1.3333333333333p-2)%float else score in
  let score := if revenue then (score + 0x1.3333333333333p-2)%float else score in
  let score := if broken then (score + 0x1.999999999999ap-3)%float else score in
  let score := if breakthrough then (score + 0x1.999999999999ap-3)%float else score in
  if (1 <? score)%float then 1%float else score.

Lemma effectiveness_binary64_full :
  effectiveness_binary64 true true true true = 1%float.
Proof. reflexivity. Qed.




(** ** Resistance tracking (brutal-interventions.js) *)

(** The datastore answers every read and applies every upsert. *)
Definition working : Interventions.Datastore :=
  {| Interventions.read_ok := true; Interventions.write_ok := true |}.

(** The resistance table after any number of [trackResistance] calls,
    starting from a table without rows; reads and writes may fail. *)
Inductive tracked (toLowerCase : string -> string) : gmap string Z -> Prop :=
| tracked_empty : tracked toLowerCase ∅
| tracked_call (db : Interventions.Datastore) (table : gmap string Z)
               (user reply : string) :
    tracked toLowerCase table ->
    tracked toLowerCase
      (snd (Interventions.trackResistance toLowerCase db table user reply)).

(** Following the words of the specification ("counts occurrences of a
    fixed hedge-word list"): the number of places of the lower-cased reply
    at which one of the hedge words occurs. *)
Fixpoint occurrences (marker s : string) : nat :=
  (if String.prefix marker s then 1 else 0)
  + match s with
    | EmptyString => 0
    | String _ rest => occurrences marker rest
    end.

Definition hedge_occurrences (toLowerCase : string -> string) (reply : string) : Z :=
  Z.of_nat (list_sum (List.map (fun marker => occurrences marker (toLowerCase reply))
                               Interventions.resistanceMarkers)).

(** The markers that the lower-cased reply contains, each listed once. *)
Definition contained_markers (toLowerCase : string -> string) (reply : string)
    : list string :=
  List.filter (Js.includes (toLowerCase reply)) Interventions.resistanceMarkers.

Lemma score_step (text : string) (markers : list string) (start : Z) :
  fold_left (fun score marker =>
               (score + (if Js.includes text marker then 1 else 0))%Z) markers start
  = (start + Z.of_nat (length (List.filter (Js.includes text) markers)))%Z.
Proof.
  revert start. induction markers as [|m markers IH]; intro start;
    cbn [fold_left List.filter].
  - cbn [length]. lia.
  - rewrite IH. destruct (Js.includes text m); cbn [length]; lia.
Qed.

Lemma resistanceScore_counts (toLowerCase : string -> string) (reply : string) :
  Interventions.resistanceScore toLowerCase reply
  = Z.of_nat (length (contained_markers toLowerCase reply)).
Proof.
  unfold Interventions.resistanceScore, contained_markers.
  rewrite score_step. lia.
Qed.

Lemma resistanceScore_bounds (toLowerCase : string -> string) (reply : string) :
  (0 <= Interventions.resistanceScore toLowerCase reply <= 11)%Z.
Proof.
  rewrite resistanceScore_counts. unfold contained_markers.
  pose proof (List.filter_length_le (Js.includes (toLowerCase reply))
                Interventions.resistanceMarkers) as H.
  cbn [length Interventions.resistanceMarkers] in H. lia.
Qed.

Lemma stored_level_insert (table : gmap string Z) (user other : string) (level : Z) :
  Interventions.stored_level (<[user := level]> table) other
  = if decide (user = other) then level else Interventions.stored_level table other.
Proof.
  unfold Interventions.stored_level. rewrite lookup_insert.
  destruct (decide (user = other)); reflexivity.
Qed.

Lemma tracked_levels (toLowerCase : string -> string) (table : gmap string Z) :
  tracked toLowerCase table ->
  forall user, (0 <= Interventions.stored_level table user <= 5)%Z.
Proof.
  induction 1 as [|db table user reply H IH]; intro other.
  - unfold Interventions.stored_level. rewrite lookup_empty. lia.
  - unfold Interventions.trackResistance. cbn [snd].
    destruct (Interventions.write_ok db); [|apply IH].
    rewrite stored_level_insert. destruct (decide (user = other)); [|apply IH].
    specialize (IH user).
    destruct (Interventions.read_ok db),
             (2 <? Interventions.resistanceScore toLowerCase reply)%Z; lia.
Qed.

(** C2, as the code has it.  The score of a reply is the number of the
    eleven (distinct) markers that the lower-cased reply contains: a marker
    counts once, however often it occurs.  Starting from an empty table,
    after every call of [trackResistance] each stored level is an integer
    in [0,5]; with the datastore working, a call never lowers a level,
    changes only the caller's row, and raises it by one (capped at 5)
    exactly when the score is above 2.  This holds whatever
    [String.prototype.toLowerCase] does to the reply. *)
Theorem resistance_level_steps :
  forall (toLowerCase : string -> string) (table : gmap string Z),
    tracked toLowerCase table ->
    forall user reply other : string,
      let after :=
        snd (Interventions.trackResistance toLowerCase working table user reply) in
      let score := Interventions.resistanceScore toLowerCase reply in
      score
      = Z.of_nat (length (List.filter (Js.includes (toLowerCase reply))
                                      Interventions.resistanceMarkers))
      /\ (NoDup Interventions.resistanceMarkers
          /\ length Interventions.resistanceMarkers = 11%nat)
      /\ (0 <= Interventions.stored_level after other <= 5)%Z
      /\ (Interventions.stored_level table other
          <= Interventions.stored_level after other)%Z
      /\ Interventions.stored_level after user
         = (if (2 <? score)%Z
            then Z.min (Interventions.stored_level table user + 1) 5
            else Interventions.stored_level table user)
      /\ (other <> user ->
          Interventions.stored_level after other = Interventions.stored_level table other)
      /\ (Interventions.stored_level table user < Interventions.stored_level after user
          <-> 2 < score /\ Interventions.stored_level table user < 5)%Z
      /\ (0 <= score <= 11)%Z.
Proof.
  intros lower table T user reply other after score.
  pose proof (tracked_levels _ _ (tracked_call lower working table user reply T)) as A.
  pose proof (tracked_levels _ _ T) as B.
  fold after in A.
  assert (forall u, Interventions.stored_level after u
                    = if decide (user = u)
                      then Z.min (Interventions.stored_level table user
                                  + (if (2 <? score)%Z then 1 else 0)) 5
                      else Interventions.stored_level table u) as E.
  { intro u. unfold after, Interventions.trackResistance, working.
    cbn [snd Interventions.write_ok Interventions.read_ok].
    apply stored_level_insert. }
  pose proof (B user) as Bu. pose proof (B other) as Bo.
  split; [apply resistanceScore_counts|].
  split.
  { split; [|reflexivity].
    apply (bool_decide_unpack _). vm_compute. exact I. }
  split; [apply A|]. split; [|split; [|split; [|split]]].
  - rewrite E. destruct (decide (user = other)) as [->|]; [|lia].
    destruct (2 <? score)%Z; lia.
  - rewrite E. destruct (decide (user = user)); [|congruence].
    destruct (2 <? score)%Z; lia.
  - intro N. rewrite E. destruct (decide (user = other)); congruence.
  - rewrite E. destruct (decide (user = user)); [|congruence].
    destruct (2 <? score)%Z eqn:S.
    + apply Z.ltb_lt in S. lia.
    + apply Z.ltb_ge in S. lia.
  - apply resistanceScore_bounds.
Qed.

(** A reply that contains three markers ("but", "can't", "impossible")
    takes a new user to level 1. *)
Lemma resistance_level_steps_witness :
  Interventions.resistanceScore Js.toLowerCase "But I can't, it is IMPOSSIBLE" = 3%Z
  /\ Interventions.stored_level
       (snd (Interventions.trackResistance Js.toLowerCase working ∅ "u1"
               "But I can't, it is IMPOSSIBLE"))
       "u1"
     = 1%Z.
Proof.
  pose proof (resistance_level_steps Js.toLowerCase ∅ (tracked_empty _)
                "u1" "But I can't, it is IMPOSSIBLE" "u1") as H.
  cbv zeta in H. destruct H as (S & _ & _ & _ & L & _). split.
  - rewrite S. vm_compute. reflexivity.
  - rewrite L, S. vm_compute. reflexivity.
Defined.

(** A read that resolves without data makes the call start again from
    level 0: the upsert then lowers a stored level. *)
Lemma failed_read_resets_level :
  let db := {| Interventions.read_ok := false; Interventions.write_ok := true |} in
  let table : gmap string Z := <["u1" := 4%Z]> ∅ in
  Interventions.stored_level table "u1" = 4%Z
  /\ Interventions.stored_level
       (snd (Interventions.trackResistance Js.toLowerCase db table "u1" "fine")) "u1"
     = 0%Z.
Proof.
  cbv zeta. split.
  - rewrite stored_level_insert. destruct (decide ("u1" = "u1")); congruence.
  - unfold Interventions.trackResistance. cbn [snd Interventions.write_ok Interventions.read_ok].
    rewrite stored_level_insert. destruct (decide ("u1" = "u1")); [|congruence].
    assert (Interventions.resistanceScore Js.toLowerCase "fine" = 0%Z) as ->
      by (vm_compute; reflexivity).
    reflexivity.
Qed.

(** C2 as stated fails: a reply with three occurrences of a hedge word
    leaves the level where it was, because the word is counted once. *)
Lemma repeated_hedge_word_counts_once :
  (2 < hedge_occurrences Js.toLowerCase "but but but")%Z
  /\ Interventions.stored_level
       (snd (Interventions.trackResistance Js.toLowerCase working ∅ "u1" "but but but"))
       "u1"
     = Interventions.stored_level ∅ "u1".
Proof.
  split; [vm_compute; reflexivity|].
  unfold Interventions.trackResistance, working.
  cbn [snd Interventions.write_ok Interventions.read_ok].
  rewrite stored_level_insert. destruct (decide ("u1" = "u1")); [|congruence].
  assert (Interventions.resistanceScore Js.toLowerCase "but but but" = 1%Z) as ->
    by (vm_compute; reflexivity).
  unfold Interventions.stored_level. rewrite lookup_empty. reflexivity.
Qed.

(** ** Detection in pattern-queries-optimzed.js *)

Section NumFacts2.
Import Js.

Lemma min_above (x : num) (c lo : Q) :
  gt (min x (Fin c)) (Fin lo) = true -> above lo c (min x (Fin c)).
Proof.
  pose proof (min_upper x c) as U.
  destruct (min x (Fin c)) as [| | |q]; cbn; try discriminate; [tauto|].
  intro G. apply Qltb_lt in G. split; assumption.
Qed.

Lemma above_gt (lo hi : Q) (a : num) : above lo hi a -> gt a (Fin lo) = true.
Proof.
  destruct a as [| | |q]; cbn; try tauto. intros [? _]. now apply Qltb_lt.
Qed.

Lemma above_weaken (lo hi hi' : Q) (a : num) : hi <= hi' -> above lo hi a -> above lo hi' a.
Proof.
  destruct a as [| | |q]; cbn; try tauto. intros ? [? ?]. split; lra.
Qed.

Lemma truthy_or_else (a : num) (d : Q) : ~ d == 0 -> truthy (or_else a (Fin d)) = true.
Proof.
  intro H. unfold or_else. destruct (truthy a) eqn:E; [exact E|].
  cbn. apply negb_true_iff. destruct (Qeq_bool d 0) eqn:Z; [|reflexivity].
  apply Qeq_bool_iff in Z. contradiction.
Qed.

Lemma truthy_Fin (q : Q) : truthy (Fin q) = true <-> ~ q == 0.
Proof.
  cbn. rewrite negb_true_iff. split.
  - intros E H. apply Qeq_bool_iff in H. congruence.
  - intro H. destruct (Qeq_bool q 0) eqn:E; [|reflexivity].
    apply Qeq_bool_iff in E. contradiction.
Qed.

Lemma scale_inf_number (positive : bool) (q : Q) : ~ q == 0 -> scale_inf positive q <> NaN.
Proof.
  intro H. unfold scale_inf. destruct (q ?= 0) eqn:E.
  - apply Qeq_alt in E. contradiction.
  - destruct positive; congruence.
  - destruct positive; congruence.
Qed.

Lemma mul_truthy (a b : num) : truthy a = true -> truthy b = true -> mul a b <> NaN.
Proof.
  destruct a as [| | |x], b as [| | |y]; cbn [truthy mul]; try congruence;
    intros Ha Hb; apply scale_inf_number; now apply truthy_Fin.
Qed.

Lemma round_number (a : num) : a <> NaN -> round a <> NaN.
Proof. destruct a; cbn; congruence. Qed.

(** A ratio [x / d] capped from above can only exceed a positive bound when
    [x] is not zero. *)
Lemma capped_ratio_truthy (x : num) (d c lo : Q) :
  0 < d -> 0 <= lo ->
  gt (min (div x (Fin d)) (Fin c)) (Fin lo) = true -> truthy x = true.
Proof.
  intros Hd Hlo. destruct x as [| | |q]; try (intros _; reflexivity).
  - cbn. discriminate.
  - rewrite div_Fin by lra. intro G.
    apply truthy_Fin. intro Z.
    destruct (min_Fin (q / d) c) as (r & E & L & _). rewrite E in G.
    apply gt_Fin in G.
    assert (q / d == 0) as Z' by (rewrite Z; field; lra).
    lra.
Qed.

End NumFacts2.

(** The numeric columns of the pricing row, when there is one, are present. *)
Definition pricing_row_complete (up : Optimizer.Upstream) : Prop :=
  match Optimizer.pricing_comparison up with
  | Js.Resolved (Some row) _ =>
      (exists a, Optimizer.market_average row = Js.Fin a)
      /\ (exists b, Optimizer.your_price row = Js.Fin b)
      /\ (exists c, Optimizer.customer_count row = Js.Fin c)
  | _ => True
  end.

(** What [detectAllPatternsBrutally] computes when it does not answer from
    the cache and [VERCEL] is unset. *)
Definition fresh_patterns (up : Optimizer.Upstream) : list Optimizer.Pattern :=
  Js.sort Optimizer.by_cost_desc
    (Optimizer.keep_confident
       [Optimizer.Fulfilled
          (Optimizer.detectProcrastinationBrutally
             (Optimizer.procrastination_metrics up) (Optimizer.business_context up));
        Optimizer.Fulfilled
          (Optimizer.detectPricingCowardiceBrutally (Optimizer.pricing_comparison up));
        Optimizer.Fulfilled
          (Optimizer.detectExecutionParalysisBrutally (Optimizer.execution_metrics up))]).

Definition fresh_detection (up : Optimizer.Upstream) : Optimizer.Detection :=
  {| Optimizer.patterns := fresh_patterns up;
     Optimizer.total_estimated_cost :=
       Js.sum (List.map Optimizer.estimated_cost (fresh_patterns up));
     Optimizer.cached := false;
     Optimizer.failed := false |}.

(** The [pattern_cache] table after any number of local detection calls
    whose upstream replies satisfy [accepted], starting without rows. *)
Inductive cached_by (accepted : Optimizer.Upstream -> Prop)
  : gmap string Optimizer.CacheRow -> Prop :=
| cached_empty : cached_by accepted ∅
| cached_call pooler table up user :
    cached_by accepted table -> accepted up ->
    cached_by accepted
      (snd (Optimizer.detectAllPatternsBrutally false pooler table up user)).

Definition any_upstream (up : Optimizer.Upstream) : Prop := True.

Section OptimizerFacts.
Import Js Optimizer.

Lemma detect_local pooler table up user :
  detectAllPatternsBrutally false pooler table up user
  = match getCachedPatterns table up user with
    | Some (data, timestamp) =>
        if (now up - timestamp <? 5000)%Z then (data, table)
        else (fresh_detection up, cachePatterns table up user (fresh_detection up))
    | None => (fresh_detection up, cachePatterns table up user (fresh_detection up))
    end.
Proof. reflexivity. Qed.

(** With [VERCEL] set and nothing in the cache, the function hands back
    what the pooler returned, as it is. *)
Lemma detect_pooled pooler table up user result :
  getCachedPatterns table up user = None ->
  pooler user = Normal result ->
  detectAllPatternsBrutally true pooler table up user = (result, table).
Proof.
  intros C P. unfold detectAllPatternsBrutally. now rewrite C, P.
Qed.

Lemma dailyBurn_truthy context : truthy (getDailyBurnRate context) = true.
Proof.
  unfold getDailyBurnRate. destruct context as [data error|].
  - apply truthy_or_else. lra.
  - reflexivity.
Qed.

Lemma procrastination_pattern rpc context p :
  detectProcrastinationBrutally rpc context = Some p ->
  gt (confidence p) (Fin 0.7) = true ->
  above 0.7 0.95 (confidence p) /\ estimated_cost p <> NaN.
Proof.
  unfold detectProcrastinationBrutally.
  destruct rpc as [data [|]|]; try discriminate.
  intros [= <-]. cbn [confidence estimated_cost]. intro G. split.
  - now apply min_above.
  - apply round_number, mul_truthy.
    + eapply capped_ratio_truthy; [| |exact G]; lra.
    + apply dailyBurn_truthy.
Qed.

Lemma pricing_pattern up p :
  detectPricingCowardiceBrutally (pricing_comparison up) = Some p ->
  gt (confidence p) (Fin 0.7) = true ->
  above 0.7 0.95 (confidence p) /\ (pricing_row_complete up -> estimated_cost p <> NaN).
Proof.
  unfold detectPricingCowardiceBrutally, pricing_row_complete.
  destruct (pricing_comparison up) as [[row|] [|]|]; try discriminate.
  intros [= <-]. cbn [confidence estimated_cost]. intro G. split.
  - now apply min_above.
  - intros ((a & ->) & (b & ->) & (c & ->)). cbn. congruence.
Qed.

Lemma execution_pattern rpc p :
  detectExecutionParalysisBrutally rpc = Some p ->
  gt (confidence p) (Fin 0.7) = true ->
  above 0.7 0.95 (confidence p) /\ estimated_cost p <> NaN.
Proof.
  unfold detectExecutionParalysisBrutally.
  destruct rpc as [data [|]|]; try discriminate.
  destruct (lt _ (Fin 3)); try discriminate.
  intros [= <-]. cbn [confidence estimated_cost]. intro G. split.
  - now apply min_above.
  - apply round_number, or_else_number.
Qed.

Lemma keep_confident_Forall (P : Pattern -> Prop) settled :
  (forall p, In (Fulfilled (Some p)) settled ->
             gt (confidence p) (Fin 0.7) = true -> P p) ->
  Forall P (keep_confident settled).
Proof.
  unfold keep_confident.
  induction settled as [|s settled IH]; intro H; cbn [flat_map]; [constructor|].
  apply Forall_app. split.
  - destruct s as [[p|]|]; try constructor.
    destruct (gt (confidence p) (Fin 0.7)) eqn:G; constructor; [|constructor].
    apply H; [now left | exact G].
  - apply IH. intros p I. apply H. now right.
Qed.

Lemma fresh_patterns_confident up :
  Forall (fun p => above 0.7 0.95 (confidence p)) (fresh_patterns up).
Proof.
  apply sort_Forall, keep_confident_Forall.
  intros p [E | [E | [E | []]]] G; injection E as E.
  - eapply procrastination_pattern; eassumption.
  - eapply pricing_pattern; eassumption.
  - eapply execution_pattern; eassumption.
Qed.

Lemma fresh_patterns_descending up :
  pricing_row_complete up -> descending estimated_cost (fresh_patterns up).
Proof.
  intro W. apply sort_descending, keep_confident_Forall.
  intros p [E | [E | [E | []]]] G; injection E as E.
  - eapply procrastination_pattern; eassumption.
  - eapply pricing_pattern; eassumption.
  - eapply execution_pattern; eassumption.
Qed.

(** A property of every freshly computed detection holds for everything
    the cache holds and for everything a call returns. *)
Section CacheInvariant.
Variable accepted : Upstream -> Prop.
Variable P : Detection -> Prop.
Hypothesis fresh_ok : forall up, accepted up -> P (fresh_detection up).

Definition cache_holds (table : gmap string CacheRow) : Prop :=
  forall user row, table !! user = Some row -> P (cached_patterns row).

Lemma detect_keeps pooler table up user :
  cache_holds table -> accepted up ->
  P (fst (detectAllPatternsBrutally false pooler table up user))
  /\ cache_holds (snd (detectAllPatternsBrutally false pooler table up user)).
Proof using fresh_ok.
  intros C A. rewrite detect_local.
  assert (cache_holds (cachePatterns table up user (fresh_detection up))) as K.
  { unfold cachePatterns. destruct (cache_write_ok up); [|exact C].
    intros u row. rewrite lookup_insert.
    destruct (decide (user = u)); [|apply C].
    intros [= <-]. cbn. now apply fresh_ok. }
  unfold getCachedPatterns.
  destruct (cache_read_ok up); [|split; [now apply fresh_ok | exact K]].
  destruct (table !! user) as [row|] eqn:L; [|split; [now apply fresh_ok | exact K]].
  destruct (now up - cached_at row <? 5000)%Z.
  - split; [eapply C; exact L | exact C].
  - split; [now apply fresh_ok | exact K].
Qed.

Lemma cached_by_holds table : cached_by accepted table -> cache_holds table.
Proof using fresh_ok.
  induction 1 as [|pooler table up user H IH A].
  - intros u row. rewrite lookup_empty. discriminate.
  - now apply detect_keeps.
Qed.

Lemma detect_result pooler table up user :
  cached_by accepted table -> accepted up ->
  P (fst (detectAllPatternsBrutally false pooler table up user)).
Proof using fresh_ok.
  intros C A. apply detect_keeps; [now apply cached_by_holds | exact A].
Qed.

End CacheInvariant.

End OptimizerFacts.

(** ** The detectors of celeste7-real-engine.js *)

(** No open task is dated after the clock reading of the request. *)
Definition tasks_not_future (up : Engine.Upstream) : Prop :=
  match Engine.pending_tasks up with
  | Js.Resolved tasks _ =>
      Forall (fun t => (Engine.created_at t <= Engine.now up)%Z) (Engine.rows_or_empty tasks)
  | Js.Rejected => True
  end.

Section EngineFacts.
Import Js Engine.

Lemma count_ratio_capped (n : nat) (d c : Q) :
  0 < d -> 0 <= c -> within 0 c (min (div (of_nat n) (Fin d)) (Fin c)).
Proof.
  intros Hd Hc. unfold of_nat. rewrite div_Fin by lra.
  apply within_min; try lra.
  apply Qle_shift_div_l; [exact Hd|]. pose proof (of_nat_nonneg n). lra.
Qed.

Lemma mean_within (lo hi : Q) (a b : num) :
  within lo hi a -> within lo hi b -> within lo hi (div (add a b) (Fin 2)).
Proof.
  destruct a as [| | |x], b as [| | |y]; cbn [within]; try tauto.
  intros [? ?] [? ?]. cbn [add]. rewrite div_Fin by lra. cbn.
  split; [apply Qle_shift_div_l | apply Qle_shift_div_r]; lra.
Qed.

Lemma capped_ratio_above (gap : num) (t d c lo : Q) :
  0 < d -> lo * d <= t -> lo < c ->
  gt gap (Fin t) = true -> above lo c (min (div gap (Fin d)) (Fin c)).
Proof.
  intros Hd Hlo Hc G. apply gt_Fin_r in G. destruct G as [-> | (g & -> & L)].
  - cbn [div]. destruct (d ?= 0) eqn:E.
    + apply Qeq_alt in E. lra.
    + apply Qlt_alt in E. lra.
    + cbn. split; lra.
  - rewrite div_Fin by lra.
    destruct (min_Fin (g / d) c) as (q & -> & ? & ? & [E | E]); cbn.
    + split; [|lra]. rewrite E. apply Qlt_shift_div_l; lra.
    + split; lra.
Qed.

Lemma or_else_of_nat (n : nat) :
  or_else (of_nat n) (Fin 1) = match n with O => Fin 1 | S _ => of_nat n end.
Proof. destruct n; reflexivity. Qed.

(** *** Procrastination *)

Lemma delayScore_bounds now tasks :
  exists q, delayScore (analyzeTaskDelays now tasks) = Fin q
            /\ q <= 1
            /\ (Forall (fun t => (created_at t <= now)%Z) (rows_or_empty tasks) -> 0 <= q).
Proof.
  unfold analyzeTaskDelays. destruct (rows_or_empty tasks) as [|t pending] eqn:R.
  - exists 0. cbn. repeat split; lra.
  - cbn [delayScore].
    set (all := t :: pending).
    assert (List.map (fun t0 => of_Z ((now - created_at t0) / day_ms)) all
            = List.map Fin (List.map (fun t0 => inject_Z ((now - created_at t0) / day_ms)) all))
      as -> by (rewrite List.map_map; reflexivity).
    destruct (sum_finite (List.map (fun t0 => inject_Z ((now - created_at t0) / day_ms)) all))
      as (s & -> & Pos).
    rewrite !length_map. unfold of_nat.
    pose proof (of_nat_pos (length all) ltac:(cbn; lia)) as Lpos.
    rewrite div_Fin by lra. rewrite div_Fin by lra.
    destruct (min_Fin (s / inject_Z (Z.of_nat (length all)) / 30) 1)
      as (q & -> & L1 & L2 & [E | E]); exists q; (split; [reflexivity|]); (split; [lra|]).
    + intro F. rewrite E.
      assert (0 <= s) as S.
      { apply Pos. apply Forall_map. eapply List.Forall_impl; [|exact F].
        intros r Hr. cbn in Hr. change 0 with (inject_Z 0). rewrite <- Zle_Qle.
        apply Z.div_pos; [lia | reflexivity]. }
      apply Qle_shift_div_l; [lra|].
      assert (0 <= s / inject_Z (Z.of_nat (length all))) by (apply Qle_shift_div_l; lra).
      lra.
    + intros _. lra.
Qed.

Lemma futureScore_bounds messages :
  within 0 1 (futureScore (analyzeLanguagePatterns messages)).
Proof.
  unfold analyzeLanguagePatterns. destruct (rows_or_empty messages) as [|m msgs].
  - cbn. lra.
  - cbn [futureScore]. rewrite or_else_of_nat.
    set (f := count_words futureWords (m :: msgs)).
    set (a := count_words actionWords (m :: msgs)).
    destruct (f + a)%nat eqn:E.
    + assert (f = O) as -> by lia. change (Fin 1) with (of_nat 1).
      apply ratio_within; lia.
    + rewrite <- E. apply ratio_within; lia.
Qed.

Lemma procrastination_confidence metrics up d :
  ProcrastinationDetector_detect metrics up = Normal (Some d) ->
  exists q, confidence d = Fin q /\ q <= 1 /\ (tasks_not_future up -> 0 <= q).
Proof.
  unfold ProcrastinationDetector_detect, tasks_not_future.
  destruct (pending_tasks up) as [tasks e1|]; [|discriminate].
  destruct (user_feedback up) as [messages e2|]; [|discriminate].
  destruct (excuse_patterns up) as [excuses e3|]; [|discriminate].
  cbn [await bind].
  destruct (negb _ && negb _); [discriminate|].
  intros [= <-]. cbn [confidence].
  destruct (delayScore_bounds (now up) tasks) as (q1 & -> & U1 & L1).
  pose proof (futureScore_bounds messages) as W.
  destruct (futureScore (analyzeLanguagePatterns messages)) as [| | |q2]; cbn in W; try tauto.
  cbn [add]. rewrite div_Fin by lra. eexists. split; [reflexivity|]. split.
  - apply Qle_shift_div_r; lra.
  - intro F. specialize (L1 F). apply Qle_shift_div_l; lra.
Qed.

(** *** Pricing *)

Lemma pricing_confidence metrics analysis d :
  PricingCowardiceDetector_detect metrics analysis = Some d ->
  above 0.2 0.95 (confidence d).
Proof.
  unfold PricingCowardiceDetector_detect.
  destruct (negb _ && negb _); [discriminate|].
  destruct (underpriced _) eqn:U; [|discriminate].
  cbn [negb]. intros [= <-]. cbn [confidence].
  revert U. unfold comparePricing.
  destruct (competitors analysis) as [|c rivals]; [discriminate|].
  destruct (List.map _ _) as [|price prices]; [discriminate|].
  cbn [underpriced comparison_confidence]. intro G.
  eapply capped_ratio_above; [| | |exact G]; lra.
Qed.

(** *** Execution paralysis *)

Lemma blocker_confidence_bounds now found :
  within 0 0.9 (blocker_confidence (identifyBlockers now found)).
Proof.
  unfold identifyBlockers. destruct (rows_or_empty found) as [|b others].
  - cbn. lra.
  - cbn [blocker_confidence]. apply count_ratio_capped; lra.
Qed.

Lemma planning_confidence_bounds tasks :
  within 0 0.9 (planning_confidence (calculatePlanningToExecutionRatio tasks)).
Proof.
  unfold calculatePlanningToExecutionRatio, planning_confidence.
  apply count_ratio_capped; lra.
Qed.

Lemma execution_confidence metrics analysis up d :
  ExecutionParalysisDetector_detect metrics analysis up = Normal (Some d) ->
  within 0 0.9 (confidence d).
Proof.
  unfold ExecutionParalysisDetector_detect.
  destruct (task_types up) as [tasks e1|]; [|discriminate].
  destruct (blocker_occurrences up) as [found e2|]; [|discriminate].
  cbn [await bind].
  destruct (lt _ _ && negb _); [discriminate|].
  intros [= <-]. cbn [confidence].
  apply mean_within.
  - exact (planning_confidence_bounds tasks).
  - exact (blocker_confidence_bounds (now up) found).
Qed.

(** *** Competitive delusion *)

Lemma competitive_confidence metrics analysis d :
  CompetitiveDelusionDetector_detect metrics analysis = Some d ->
  within 0.85 0.85 (confidence d).
Proof.
  unfold CompetitiveDelusionDetector_detect.
  destruct (length _ <? 5)%nat; [discriminate|].
  destruct (calculateRanking _ _) as [rank percentile].
  destruct (gt percentile (Fin 50)); [discriminate|].
  intros [= <-]. cbn. lra.
Qed.

(** *** Revenue stagnation *)

Lemma stagnation_confidence_bounds sqrt history :
  within 0 0.9 (stagnation_confidence (analyzeStagnation sqrt history)).
Proof.
  unfold analyzeStagnation. cbn [stagnation_confidence].
  destruct (lt _ _ && ge _ _).
  - apply count_ratio_capped; lra.
  - cbn. lra.
Qed.

Lemma stagnation_detector_confidence sqrt metrics d :
  RevenueStagnationDetector_detect sqrt metrics = Some d ->
  within 0 0.9 (confidence d).
Proof.
  unfold RevenueStagnationDetector_detect.
  destruct (length _ <? 3)%nat; [discriminate|].
  destruct (negb _); [discriminate|].
  intros [= <-]. apply stagnation_confidence_bounds.
Qed.

End EngineFacts.

(** ** The merged pattern list and the overall confidence of the engine *)

Section EngineMerge.
Import Js Engine.

Lemma within_upper (lo hi : Q) (a : num) :
  within lo hi a -> hi <= 1 -> exists q, a = Fin q /\ q <= 1.
Proof.
  destruct a as [| | |q]; cbn; try tauto. intros [? ?] ?. exists q. split; [reflexivity | lra].
Qed.

Lemma above_upper (lo hi : Q) (a : num) :
  above lo hi a -> hi <= 1 -> exists q, a = Fin q /\ q <= 1.
Proof.
  destruct a as [| | |q]; cbn; try tauto. intros [? ?] ?. exists q. split; [reflexivity | lra].
Qed.

Lemma or_else_within (lo hi d : Q) (a : num) :
  within lo hi a -> lo <= d -> d <= hi -> within lo hi (or_else a (Fin d)).
Proof.
  intros W ? ?. unfold or_else. destruct (truthy a); [exact W | cbn; lra].
Qed.

(** Every detector result has a finite confidence of at most 1. *)
Definition bounded_results (results : list (string * option Detected)) : Prop :=
  forall name d, In (name, Some d) results -> exists q, confidence d = Fin q /\ q <= 1.

Lemma run_detectors_bounded sqrt metrics analysis up results :
  run_detectors sqrt metrics analysis up = Normal results -> bounded_results results.
Proof.
  unfold run_detectors.
  destruct (ProcrastinationDetector_detect metrics up) as [procrastination|] eqn:P;
    [|discriminate].
  destruct (ExecutionParalysisDetector_detect metrics analysis up) as [paralysis|] eqn:X;
    [|discriminate].
  cbn [bind]. intros [= <-] name d I.
  destruct I as [E | [E | [E | [E | [E | []]]]]]; injection E as _ E.
  - subst procrastination. destruct (procrastination_confidence _ _ _ P) as (q & ? & ? & _).
    now exists q.
  - eapply above_upper; [eapply pricing_confidence; exact E | lra].
  - subst paralysis. eapply within_upper; [eapply execution_confidence; exact X | lra].
  - eapply within_upper; [eapply competitive_confidence; exact E | lra].
  - eapply within_upper; [eapply stagnation_detector_confidence; exact E | lra].
Qed.

Lemma merge_confident_Forall (P : Pattern -> Prop) results :
  (forall name d,
      In (name, Some d) results -> gt (confidence d) (Fin 0.7) = true ->
      P {| type := name;
           pattern_severity := severity d;
           pattern_confidence := confidence d;
           pattern_evidence := evidence d;
           cost := or_else (estimated_cost d) (Fin 0) |}) ->
  Forall P (merge_confident results).
Proof.
  unfold merge_confident.
  induction results as [|[name [d|]] results IH]; intro H; cbn [flat_map fst snd].
  - constructor.
  - apply Forall_app. split.
    + destruct (gt (confidence d) (Fin 0.7)) eqn:G; constructor; [|constructor].
      apply H; [now left | exact G].
    + apply IH. intros n d' I. apply H. now right.
  - apply IH. intros n d' I. apply H. now right.
Qed.

Lemma merged_patterns sqrt metrics analysis up found :
  detectDataDrivenPatterns sqrt metrics analysis up = Normal found ->
  Forall (fun p => above 0.7 1 (pattern_confidence p)) found
  /\ descending cost found.
Proof.
  unfold detectDataDrivenPatterns.
  destruct (run_detectors sqrt metrics analysis up) as [results|] eqn:R; [|discriminate].
  cbn [bind]. intros [= <-]. apply run_detectors_bounded in R. split.
  - apply sort_Forall, merge_confident_Forall. intros name d I G.
    cbn [pattern_confidence]. destruct (R name d I) as (q & E & U).
    rewrite E in *. apply gt_Fin in G. cbn. split; assumption.
  - apply sort_descending, merge_confident_Forall. intros name d I G.
    cbn [cost]. apply or_else_number.
Qed.

Lemma prediction_accuracy_within profile : within 0 1 (prediction_accuracy profile).
Proof.
  unfold prediction_accuracy, calculatePredictionAccuracy.
  destruct (verified_predictions profile) as [|p rest]; [cbn; lra|].
  apply ratio_within; [apply List.filter_length_le | cbn; lia].
Qed.

Lemma calculateRealConfidence_within found profile :
  Forall (fun p => above 0.7 1 (pattern_confidence p)) found ->
  within 0 1 (calculateRealConfidence found profile).
Proof.
  intro F. unfold calculateRealConfidence.
  assert (within 0 1 (min (div (total_signals profile) (Fin 10)) (Fin 1))) as D
    by (apply count_ratio_capped; lra).
  assert (within 0 1 (or_else (prediction_accuracy profile) (Fin 0.5))) as A
    by (apply or_else_within; [apply prediction_accuracy_within | lra | lra]).
  assert (within 0 1 (match found with
                      | first :: _ => pattern_confidence first
                      | [] => Fin 0.5
                      end)) as C.
  { destruct F as [|first rest H _]; [cbn; lra|].
    destruct (pattern_confidence first) as [| | |q]; cbn in *; try tauto. lra. }
  destruct (min _ _) as [| | |x]; cbn in D; try tauto.
  destruct (or_else _ _) as [| | |y]; cbn in A; try tauto.
  destruct (match found with _ :: _ => _ | [] => _ end) as [| | |z]; cbn in C; try tauto.
  cbn. lra.
Qed.

End EngineMerge.

(** ** The filter on confidence *)

Section ApiFacts.
Import Js.

Lemma missing_fields_present (user msg : string) :
  user <> "" -> msg <> "" ->
  missing_fields {| userId := Some user; message := Some msg |} = false.
Proof.
  intros U M. destruct user, msg; try congruence. reflexivity.
Qed.

(** What [handleAnalyze] answers when both fields are present: status 200,
    the detected patterns, and the default intervention built from the
    evidence of the first critical pattern, if there is one. *)
Lemma handleAnalyze_present VERCEL pooler Text run db up user msg :
  user <> "" -> msg <> "" ->
  let found :=
    fst (Optimizer.detectAllPatternsBrutally VERCEL pooler
           (Api.pattern_cache db) (Api.detection up) user) in
  let critical_one :=
    List.find (fun p => is_critical (Optimizer.severity p)) (Optimizer.patterns found) in
  fst (fst (Api.handleAnalyze VERCEL pooler Text run db up
              (Some {| userId := Some user; message := Some msg |})))
  = Api.Json200
      {| Api.patterns := Optimizer.patterns found;
         Api.intervention :=
           option_map (fun p => Interventions.DefaultBrutal (Optimizer.evidence p))
                      critical_one;
         Api.confidence :=
           or_else (match Optimizer.patterns found with
                    | first :: _ => Optimizer.confidence first
                    | [] => NaN
                    end) (Fin 0);
         Api.should_intervene :=
           match critical_one with Some _ => true | None => false end;
         Api.cached := Optimizer.cached found |}.
Proof.
  intros U M found critical_one. unfold Api.handleAnalyze.
  rewrite (missing_fields_present user msg U M). cbn [userId message].
  subst critical_one found.
  destruct (Optimizer.detectAllPatternsBrutally VERCEL pooler (Api.pattern_cache db)
              (Api.detection up) user) as [found cache'].
  cbn [fst]. destruct (List.find _ (Optimizer.patterns found)) as [c|]; reflexivity.
Qed.

Lemma handleAnalyze_patterns VERCEL pooler Text run db up body b :
  fst (fst (Api.handleAnalyze VERCEL pooler Text run db up (Some body))) = Api.Json200 b ->
  exists user,
    Api.patterns b
    = Optimizer.patterns
        (fst (Optimizer.detectAllPatternsBrutally VERCEL pooler
                (Api.pattern_cache db) (Api.detection up) user))
    /\ Api.confidence b
       = or_else (match Api.patterns b with
                  | first :: _ => Optimizer.confidence first
                  | [] => NaN
                  end) (Fin 0).
Proof.
  destruct (missing_fields body) eqn:MF.
  - unfold Api.handleAnalyze. rewrite MF. discriminate.
  - destruct body as [[[|c u]|] [[|c' m]|]]; cbn in MF; try discriminate.
    pose proof (handleAnalyze_present VERCEL pooler Text run db up
                  (String c u) (String c' m) ltac:(discriminate) ltac:(discriminate)) as E.
    cbv zeta in E. rewrite E. intros [= <-]. eexists. split; reflexivity.
Qed.

End ApiFacts.

Section RouteFacts.
Import Js Engine.

Lemma analyzeUser_result sqrt uuid random base specifics cached up r :
  analyzeUser sqrt uuid random base specifics cached up = Normal r ->
  exists profile metrics analysis,
    detectDataDrivenPatterns sqrt metrics analysis up = Normal (patterns r)
    /\ analysis_confidence r = calculateRealConfidence (patterns r) profile
    /\ patterns r = []
    /\ should_intervene r = false.
Proof.
  unfold analyzeUser.
  destruct (getUserBehavioralProfile cached up) as [profile|]; [|discriminate].
  destruct (getBusinessTruth up) as [metrics|]; [|discriminate].
  destruct (getCompetitiveReality up) as [analysis|]; [|discriminate].
  destruct (intervention_effectiveness up) as [effectiveness e1|]; [|discriminate].
  destruct (user_breakthroughs up) as [breakthroughData e2|]; [|discriminate].
  cbn [bind await].
  destruct (detectDataDrivenPatterns sqrt metrics analysis up) as [found|] eqn:D;
    [|discriminate].
  cbn [bind]. destruct found as [|primary others]; [|discriminate].
  cbn. intros [= <-]. exists profile, metrics, analysis. repeat split. exact D.
Qed.

Lemma analyze_route_result sqrt uuid random base specifics requests cached up body r :
  fst (analyze_route sqrt uuid random base specifics requests cached up body) = Analysed r ->
  analyzeUser sqrt uuid random base specifics cached up = Normal r.
Proof.
  unfold analyze_route.
  destruct (missing_fields body); [discriminate|].
  destruct (userId body) as [user|]; [|discriminate].
  destruct (30 <? _)%nat; [discriminate|].
  destruct (analyzeUser sqrt uuid random base specifics cached up); [|discriminate].
  now intros [= <-].
Qed.

End RouteFacts.




(** ** Order of the merged list and the pattern that is templated *)

(** The datastore answered the call (whatever the answer). *)
Definition answered {A} (reply : Js.Reply A) : Prop :=
  match reply with
  | Js.Resolved _ _ => True
  | Js.Rejected => False
  end.

(** The five queries issued by the detectors were answered. *)
Definition detectors_answered (up : Engine.Upstream) : Prop :=
  answered (Engine.pending_tasks up) /\ answered (Engine.user_feedback up)
  /\ answered (Engine.excuse_patterns up) /\ answered (Engine.task_types up)
  /\ answered (Engine.blocker_occurrences up).

Lemma detection_runs sqrt metrics analysis up :
  detectors_answered up ->
  exists found, Engine.detectDataDrivenPatterns sqrt metrics analysis up = Js.Normal found.
Proof.
  intros (A1 & A2 & A3 & A4 & A5).
  unfold Engine.detectDataDrivenPatterns, Engine.run_detectors,
    Engine.ProcrastinationDetector_detect, Engine.ExecutionParalysisDetector_detect.
  destruct (Engine.pending_tasks up); [|contradiction].
  destruct (Engine.user_feedback up); [|contradiction].
  destruct (Engine.excuse_patterns up); [|contradiction].
  destruct (Engine.task_types up); [|contradiction].
  destruct (Engine.blocker_occurrences up); [|contradiction].
  cbn [Js.await Js.bind].
  destruct (negb _ && negb _); destruct (Js.lt _ _ && negb _);
    cbn [Js.bind]; eexists; reflexivity.
Qed.

(** Two patterns of the engine, the dearer one first *)
Definition dear_pattern : Engine.Pattern :=
  {| Engine.type := "pricing_cowardice";
     Engine.pattern_severity := high;
     Engine.pattern_confidence := Js.Fin 0.8;
     Engine.pattern_evidence := [];
     Engine.cost := Js.Fin 900 |}.

Definition cheap_pattern : Engine.Pattern :=
  {| Engine.type := "procrastination";
     Engine.pattern_severity := critical;
     Engine.pattern_confidence := Js.Fin 0.9;
     Engine.pattern_evidence := [];
     Engine.cost := Js.Fin 200 |}.

(** A data object that carries [interventionHistory] *)
Definition recorded_data : Engine.InterventionData :=
  {| Engine.data_metrics := slightly_underpriced;
     Engine.interventionHistory := Some [];
     Engine.mlSuggestion := None |}.

(** C1, as the code has it.  The engine's merged list is in descending
    order of cost, and so is the list that the optimizer computes with
    [VERCEL] unset (when the pricing row carries its numeric columns and
    the cache was filled by the function itself); with [VERCEL] set and
    nothing in the cache the optimizer hands back the pooler's result as it
    is.  [handleAnalyze] builds the intervention from the first pattern of
    the list whose severity is critical, and builds none when no pattern is
    critical.  The engine's [generateUncomfortableIntervention] answers an
    empty list with the neutral intervention; for a list that is not empty
    it templates the first element when its data carries
    [interventionHistory], and throws when it does not. *)
Theorem merged_list_order_and_templated_pattern :
  (forall table,
      cached_by pricing_row_complete table ->
      forall pooler up user,
        pricing_row_complete up ->
        descending Optimizer.estimated_cost
          (Optimizer.patterns
             (fst (Optimizer.detectAllPatternsBrutally false pooler table up user))))
  /\ (forall pooler table up user result,
         Optimizer.getCachedPatterns table up user = None ->
         pooler user = Js.Normal result ->
         Optimizer.detectAllPatternsBrutally true pooler table up user = (result, table))
  /\ (forall VERCEL pooler Text run db up user msg,
         user <> "" -> msg <> "" ->
         exists b,
           fst (fst (Api.handleAnalyze VERCEL pooler Text run db up
                       (Some {| userId := Some user; message := Some msg |})))
           = Api.Json200 b
           /\ Api.patterns b
              = Optimizer.patterns
                  (fst (Optimizer.detectAllPatternsBrutally VERCEL pooler
                          (Api.pattern_cache db) (Api.detection up) user))
           /\ Api.intervention b
              = option_map
                  (fun p => Interventions.DefaultBrutal (Optimizer.evidence p))
                  (List.find (fun p => is_critical (Optimizer.severity p))
                             (Api.patterns b)))
  /\ (forall sqrt metrics analysis up found,
         Engine.detectDataDrivenPatterns sqrt metrics analysis up = Js.Normal found ->
         descending Engine.cost found)
  /\ (forall sqrt metrics analysis up,
         detectors_answered up ->
         exists found,
           Engine.detectDataDrivenPatterns sqrt metrics analysis up = Js.Normal found)
  /\ (forall uuid random base specifics data,
         Engine.generateUncomfortableIntervention uuid random base specifics [] data
         = Js.Normal (Engine.Neutral uuid))
  /\ (forall uuid random base specifics first rest data,
         (Engine.interventionHistory data = None ->
          Engine.generateUncomfortableIntervention uuid random base specifics
            (first :: rest) data
          = Js.Threw)
         /\ (Engine.interventionHistory data <> None ->
             exists text,
               Engine.generateUncomfortableIntervention uuid random base specifics
                 (first :: rest) data
               = Js.Normal
                   (Engine.Targeted
                      (fst (specifics text first (Engine.data_metrics data)))
                      (snd (specifics text first (Engine.data_metrics data)))
                      (Engine.type first) (Engine.pattern_severity first)
                      (Engine.pattern_confidence first) (Engine.cost first) uuid)
               /\ (text = base first
                   \/ exists suggestion,
                        Engine.mlSuggestion data = Some suggestion
                        /\ text = (suggestion ++ " " ++ base first)%string))).
Proof.
  split; [|split; [|split; [|split; [|split; [|split]]]]].
  - intros table C pooler up user W.
    apply (detect_result pricing_row_complete
             (fun d => descending Optimizer.estimated_cost (Optimizer.patterns d)));
      try assumption.
    intros up' W'. now apply fresh_patterns_descending.
  - intros pooler table up user result C P. now apply detect_pooled.
  - intros VERCEL pooler Text run db up user msg U M.
    eexists. split; [now apply handleAnalyze_present|]. split; reflexivity.
  - intros sqrt metrics analysis up found E.
    now apply (merged_patterns _ _ _ _ _ E).
  - intros. now apply detection_runs.
  - reflexivity.
  - intros uuid random base specifics first rest data.
    unfold Engine.generateUncomfortableIntervention, Engine.mlEngine_generateIntervention.
    destruct (Engine.interventionHistory data) as [history|].
    + split; [discriminate|]. intros _.
      destruct (Engine.mlSuggestion data) as [suggestion|];
        destruct (Js.truthy_str _ && Js.gt random (Js.Fin 0.5));
        cbn [Js.bind]; eexists; (split; [reflexivity|]);
        try (now left); right; eexists; split; reflexivity.
    + split; [reflexivity | congruence].
Qed.

(** The list computed for [mixed_detection] holds two patterns, in
    descending order of cost; [handleAnalyze] builds the default
    intervention for it; and [generateUncomfortableIntervention], called
    with [recorded_data], templates the dearer of two patterns. *)
Lemma merged_list_order_and_templated_pattern_witness :
  (List.map Optimizer.estimated_cost
     (Optimizer.patterns
        (fst (Optimizer.detectAllPatternsBrutally false (fun _ => Js.Threw) ∅
                mixed_detection "u1")))
   = [Js.Fin 40000; Js.Fin 8400]
   /\ descending Optimizer.estimated_cost
        (Optimizer.patterns
           (fst (Optimizer.detectAllPatternsBrutally false (fun _ => Js.Threw) ∅
                   mixed_detection "u1"))))
  /\ Engine.generateUncomfortableIntervention "id" (Js.Fin 0) (fun _ => "base")
       (fun text _ _ => (text, "act")) [dear_pattern; cheap_pattern] recorded_data
     = Js.Normal (Engine.Targeted "base" "act" "pricing_cowardice" high
                    (Js.Fin 0.8) (Js.Fin 900) "id").
Proof.
  destruct merged_list_order_and_templated_pattern as (O & _ & _ & _ & _ & _ & G).
  split; [split|].
  - vm_compute. reflexivity.
  - apply (O ∅ (cached_empty pricing_row_complete) (fun _ => Js.Threw) mixed_detection "u1").
    cbn. repeat split; eexists; reflexivity.
  - destruct (G "id" (Js.Fin 0) (fun _ : Engine.Pattern => "base")
                (fun (text : string) (_ : Engine.Pattern) (_ : Engine.BusinessMetrics) =>
                   (text, "act"))
                dear_pattern [cheap_pattern] recorded_data) as [_ T].
    destruct T as (text & -> & [-> | (suggestion & S & _)]).
    + discriminate.
    + reflexivity.
    + discriminate S.
Defined.

(** C1 as stated fails in [handleAnalyze]: the list is led by the
    non-critical pricing pattern (cost 40000), and the intervention is built
    from the critical procrastination pattern behind it (cost 8400). *)
Lemma intervention_uses_second_pattern :
  exists first second b,
    fst (fst (Api.handleAnalyze false (fun _ => Js.Threw) unit (fun _ _ _ _ => Js.Threw)
                no_tables mixed_upstream
                (Some {| userId := Some "u1"; message := Some "I will launch tomorrow" |})))
    = Api.Json200 b
    /\ Api.patterns b = [first; second]
    /\ Optimizer.pattern_type first = "pricing_cowardice"
    /\ Optimizer.pattern_type second = "procrastination"
    /\ Api.intervention b = Some (Interventions.DefaultBrutal (Optimizer.evidence second))
    /\ Api.intervention b <> Some (Interventions.DefaultBrutal (Optimizer.evidence first)).
Proof.
  do 3 eexists. split; [vm_compute; reflexivity|].
  split; [reflexivity|]. repeat split. discriminate.
Qed.

(** ** Range of the confidence values *)

Section Ranges.
Import Js.

Lemma capped_never_above (x : num) (c : Q) : gt (min x (Fin c)) (Fin c) = false.
Proof.
  pose proof (min_upper x c) as U.
  destruct (min x (Fin c)) as [| | |q]; cbn; try reflexivity; [tauto|].
  now apply Qltb_ge.
Qed.

Lemma optimizer_detectors_capped rpc context pricing execution p :
  Optimizer.detectProcrastinationBrutally rpc context = Some p
  \/ Optimizer.detectPricingCowardiceBrutally pricing = Some p
  \/ Optimizer.detectExecutionParalysisBrutally execution = Some p ->
  gt (Optimizer.confidence p) (Fin 0.95) = false.
Proof.
  unfold Optimizer.detectProcrastinationBrutally, Optimizer.detectPricingCowardiceBrutally,
    Optimizer.detectExecutionParalysisBrutally.
  intros [E | [E | E]].
  - destruct rpc as [data [|]|]; try discriminate.
    injection E as <-. apply capped_never_above.
  - destruct pricing as [[row|] [|]|]; try discriminate.
    injection E as <-. apply capped_never_above.
  - destruct execution as [data [|]|]; try discriminate.
    destruct (lt _ (Fin 3)); try discriminate.
    injection E as <-. apply capped_never_above.
Qed.

Lemma run_detectors_ranges sqrt metrics analysis up results name d :
  Engine.run_detectors sqrt metrics analysis up = Normal results ->
  In (name, Some d) results ->
  exists q, Engine.confidence d = Fin q
            /\ q <= 1
            /\ (name <> "procrastination" \/ tasks_not_future up -> 0 <= q).
Proof.
  unfold Engine.run_detectors.
  destruct (Engine.ProcrastinationDetector_detect metrics up) as [procrastination|] eqn:P;
    [|discriminate].
  destruct (Engine.ExecutionParalysisDetector_detect metrics analysis up)
    as [paralysis|] eqn:X; [|discriminate].
  cbn [bind]. intros [= <-] I.
  destruct I as [E | [E | [E | [E | [E | []]]]]]; injection E as <- E.
  - subst procrastination.
    destruct (procrastination_confidence _ _ _ P) as (q & Eq & U & L).
    exists q. repeat split; try assumption. intros [N | F]; [congruence | auto].
  - pose proof (pricing_confidence _ _ _ E) as W.
    destruct (Engine.confidence d) as [| | |q]; cbn in W; try tauto.
    exists q. repeat split; lra.
  - subst paralysis. pose proof (execution_confidence _ _ _ _ X) as W.
    destruct (Engine.confidence d) as [| | |q]; cbn in W; try tauto.
    exists q. repeat split; lra.
  - pose proof (competitive_confidence _ _ _ E) as W.
    destruct (Engine.confidence d) as [| | |q]; cbn in W; try tauto.
    exists q. repeat split; lra.
  - pose proof (stagnation_detector_confidence _ _ _ E) as W.
    destruct (Engine.confidence d) as [| | |q]; cbn in W; try tauto.
    exists q. repeat split; lra.
Qed.

Lemma head_confidence_within (found : list Optimizer.Pattern) :
  Forall (fun p => above 0.7 0.95 (Optimizer.confidence p)) found ->
  within 0 0.95 (or_else (match found with
                          | first :: _ => Optimizer.confidence first
                          | [] => NaN
                          end) (Fin 0)).
Proof.
  intros [|first rest H _]; [cbn; lra|].
  unfold or_else. destruct (Optimizer.confidence first) as [| | |q]; cbn in H; try tauto.
  destruct (truthy (Fin q)); cbn; lra.
Qed.

End Ranges.

(** C3, as the code has it.  No confidence that the code computes exceeds
    1: a result of one of the engine's five detectors is a finite number of
    at most 1, and is not negative for the other four detectors, nor for
    the procrastination detector when no open task is dated in the future;
    a result of the optimizer's detectors is never above 0.95.  Every
    pattern of the engine's merged list, and of the list that the optimizer
    returns with [VERCEL] unset and a cache filled by the function itself,
    has a confidence in (0.7, 1]; the top-level confidence that
    [analyzeUser] computes from a merged list, the one its route returns,
    and the one that [handleAnalyze] returns with [VERCEL] unset lie in
    [0, 1].  With [VERCEL] set and nothing in the cache, the list and the
    top-level confidence of [handleAnalyze] are those of the pooler's
    result. *)
Theorem confidence_ranges :
  (forall sqrt metrics analysis up results name d,
      Engine.run_detectors sqrt metrics analysis up = Js.Normal results ->
      In (name, Some d) results ->
      exists q, Engine.confidence d = Js.Fin q
                /\ q <= 1
                /\ (name <> "procrastination" \/ tasks_not_future up -> 0 <= q))
  /\ (forall rpc context pricing execution p,
         Optimizer.detectProcrastinationBrutally rpc context = Some p
         \/ Optimizer.detectPricingCowardiceBrutally pricing = Some p
         \/ Optimizer.detectExecutionParalysisBrutally execution = Some p ->
         Js.gt (Optimizer.confidence p) (Js.Fin 0.95) = false)
  /\ (forall sqrt metrics analysis up found,
         Engine.detectDataDrivenPatterns sqrt metrics analysis up = Js.Normal found ->
         Forall (fun p => above 0.7 1 (Engine.pattern_confidence p)) found
         /\ forall profile, within 0 1 (Engine.calculateRealConfidence found profile))
  /\ (forall table,
         cached_by any_upstream table ->
         forall pooler up user,
           Forall (fun p => above 0.7 0.95 (Optimizer.confidence p))
             (Optimizer.patterns
                (fst (Optimizer.detectAllPatternsBrutally false pooler table up user))))
  /\ (forall sqrt uuid random base specifics requests cached up body r,
         fst (Engine.analyze_route sqrt uuid random base specifics requests cached up body)
         = Engine.Analysed r ->
         within 0 1 (Engine.analysis_confidence r)
         /\ (exists profile,
                Engine.analysis_confidence r
                = Engine.calculateRealConfidence (Engine.patterns r) profile)
         /\ Engine.patterns r = [])
  /\ (forall found profile,
         Forall (fun p => above 0.7 1 (Engine.pattern_confidence p)) found ->
         within 0 1 (Engine.calculateRealConfidence found profile))
  /\ (forall db,
         cached_by any_upstream (Api.pattern_cache db) ->
         forall pooler Text run up body b,
           fst (fst (Api.handleAnalyze false pooler Text run db up (Some body))) = Api.Json200 b ->
           within 0 1 (Api.confidence b))
  /\ (forall pooler Text run db up user msg result,
         user <> "" -> msg <> "" ->
         Optimizer.getCachedPatterns (Api.pattern_cache db) (Api.detection up) user = None ->
         pooler user = Js.Normal result ->
         exists b,
           fst (fst (Api.handleAnalyze true pooler Text run db up
                       (Some {| userId := Some user; message := Some msg |})))
           = Api.Json200 b
           /\ Api.patterns b = Optimizer.patterns result
           /\ Api.confidence b
              = Js.or_else (match Optimizer.patterns result with
                            | first :: _ => Optimizer.confidence first
                            | [] => Js.NaN
                            end) (Js.Fin 0)).
Proof.
  assert (forall table, cached_by any_upstream table ->
          forall pooler up user,
            Forall (fun p => above 0.7 0.95 (Optimizer.confidence p))
              (Optimizer.patterns
                 (fst (Optimizer.detectAllPatternsBrutally false pooler table up user))))
    as Opt.
  { intros table C pooler up user.
    apply (detect_result any_upstream
             (fun d => Forall (fun p => above 0.7 0.95 (Optimizer.confidence p))
                              (Optimizer.patterns d))); try assumption.
    - intros up' _. apply fresh_patterns_confident.
    - exact I. }
  split; [|split; [|split; [|split; [|split; [|split; [|split]]]]]].
  - intros. eapply run_detectors_ranges; eassumption.
  - intros. eapply optimizer_detectors_capped; eassumption.
  - intros sqrt metrics analysis up found E.
    destruct (merged_patterns _ _ _ _ _ E) as [F _].
    split; [exact F|]. intro profile. now apply calculateRealConfidence_within.
  - exact Opt.
  - intros sqrt uuid random base specifics requests cached up body r E.
    apply analyze_route_result, analyzeUser_result in E.
    destruct E as (profile & metrics & analysis & D & C & N & _).
    split; [|split; [now exists profile | exact N]].
    rewrite C. apply calculateRealConfidence_within.
    now apply (merged_patterns _ _ _ _ _ D).
  - apply calculateRealConfidence_within.
  - intros db C pooler Text run up body b E.
    destruct (handleAnalyze_patterns _ _ _ _ _ _ _ _ E) as (user & P & ->).
    assert (Forall (fun p => above 0.7 0.95 (Optimizer.confidence p)) (Api.patterns b)) as F
      by (rewrite P; now apply Opt).
    pose proof (head_confidence_within _ F) as W.
    destruct (Js.or_else _ _) as [| | |q]; cbn in *; try tauto. lra.
  - intros pooler Text run db up user msg result U M C P.
    pose proof (handleAnalyze_present true pooler Text run db up user msg U M) as E.
    cbv zeta in E. rewrite (detect_pooled _ _ _ _ _ C P) in E. cbn [fst] in E.
    eexists. split; [exact E|]. split; reflexivity.
Qed.

(** The engine finds one pattern for [delaying_engine], of confidence 1,
    and computes a top-level confidence in [0, 1] from it; the optimizer
    finds two patterns for [mixed_detection], and [handleAnalyze] returns
    them with a top-level confidence in [0, 1]. *)
Lemma confidence_ranges_witness :
  (exists found,
      Engine.detectDataDrivenPatterns (fun x => x) slightly_underpriced one_competitor
        delaying_engine = Js.Normal found
      /\ length found = 1%nat
      /\ Forall (fun p => above 0.7 1 (Engine.pattern_confidence p)) found
      /\ within 0 1
           (Engine.calculateRealConfidence found
              {| Engine.profile_patterns := []; Engine.verified_predictions := [] |}))
  /\ (length (Optimizer.patterns
                (fst (Optimizer.detectAllPatternsBrutally false (fun _ => Js.Threw) ∅
                        mixed_detection "u1"))) = 2%nat
      /\ Forall (fun p => above 0.7 0.95 (Optimizer.confidence p))
           (Optimizer.patterns
              (fst (Optimizer.detectAllPatternsBrutally false (fun _ => Js.Threw) ∅
                      mixed_detection "u1"))))
  /\ (exists b,
         fst (fst (Api.handleAnalyze false (fun _ => Js.Threw) unit
                     (fun _ _ _ _ => Js.Threw) no_tables mixed_upstream
                     (Some {| userId := Some "u1"; message := Some "I will launch tomorrow" |})))
         = Api.Json200 b
         /\ length (Api.patterns b) = 2%nat
         /\ within 0 1 (Api.confidence b)).
Proof.
  destruct confidence_ranges as (_ & _ & E & O & _ & _ & A & _).
  split; [|split].
  - eexists. split; [vm_compute; reflexivity|].
    split; [reflexivity|].
    assert (Engine.detectDataDrivenPatterns (fun x => x) slightly_underpriced one_competitor
              delaying_engine
            = Js.Normal
                [{| Engine.type := "procrastination";
                    Engine.pattern_severity := critical;
                    Engine.pattern_confidence := Js.Fin (4 # 4);
                    Engine.pattern_evidence :=
                      [("total_delay_days", Js.Fin 84); ("avg_task_delay", Js.Fin 84);
                       ("future_tense_ratio", Js.Fin 1.00)];
                    Engine.cost := Js.Fin (6636 # 30) |}]) as D
      by (vm_compute; reflexivity).
    destruct (E _ _ _ _ _ D) as [F C]. split; [exact F | apply C].
  - split; [vm_compute; reflexivity|].
    apply (O ∅ (cached_empty any_upstream)).
  - eexists. split; [rewrite handleAnalyze_present by discriminate; reflexivity|].
    split; [vm_compute; reflexivity|].
    eapply (A no_tables (cached_empty any_upstream) (fun _ => Js.Threw) unit
              (fun _ _ _ _ => Js.Threw) mixed_upstream
              {| userId := Some "u1"; message := Some "I will launch tomorrow" |}).
    rewrite handleAnalyze_present by discriminate. reflexivity.
Defined.

(** C3 as stated fails.  The optimizer's pricing detector gives a user who
    charges twice the market average the confidence -2, and the engine's
    procrastination detector gives a user whose only open task is dated 60
    days ahead the confidence -1. *)
Lemma confidence_below_zero :
  (exists p q,
      Optimizer.detectPricingCowardiceBrutally (Js.Resolved (Some overpriced_row) false)
      = Some p
      /\ Optimizer.confidence p = Js.Fin q /\ q == -2)
  /\ (exists d q,
         Engine.ProcrastinationDetector_detect slightly_underpriced future_task_engine
         = Js.Normal (Some d)
         /\ Engine.confidence d = Js.Fin q /\ q == -1).
Proof.
  split; do 2 eexists; (split; [vm_compute; reflexivity|]); split; reflexivity.
Qed.

(** ** A user without rows, and a failing datastore *)

(** The reply to a list query carries no row. *)
Definition no_rows {A} (reply : Js.Reply (list A)) : Prop :=
  exists error, reply = Js.Resolved None error \/ reply = Js.Resolved (Some []) error.

(** The reply to a [.single()] query or to a procedure carries no data. *)
Definition no_data {A} (reply : Js.Reply A) : Prop :=
  exists error, reply = Js.Resolved None error.

(** The call failed: the promise was rejected, or it resolved with an error. *)
Definition failed {A} (reply : Js.Reply A) : Prop :=
  reply = Js.Rejected \/ exists data, reply = Js.Resolved data true.


Definition optimizer_down (up : Optimizer.Upstream) : Prop :=
  Optimizer.cache_read_ok up = false
  /\ failed (Optimizer.procrastination_metrics up)
  /\ failed (Optimizer.pricing_comparison up)
  /\ failed (Optimizer.execution_metrics up).

Definition engine_without_rows (up : Engine.Upstream) : Prop :=
  no_rows (Engine.user_patterns up) /\ no_rows (Engine.behavioral_predictions up)
  /\ answered (Engine.pattern_evolution up) /\ answered (Engine.user_state_evolution up)
  /\ no_data (Engine.business_context up) /\ no_rows (Engine.revenue_rows up)
  /\ no_data (Engine.saas_metrics up) /\ no_data (Engine.competitive_context up)
  /\ answered (Engine.intervention_effectiveness up)
  /\ answered (Engine.user_breakthroughs up)
  /\ no_rows (Engine.pending_tasks up) /\ no_rows (Engine.user_feedback up)
  /\ answered (Engine.excuse_patterns up)
  /\ no_rows (Engine.task_types up) /\ no_rows (Engine.blocker_occurrences up).

(** [requests > 30] does not hold for the counter read from the cache. *)
Definition not_limited (requests : option nat) : Prop :=
  match requests with
  | Some n => (n <= 30)%nat
  | None => True
  end.

Section Outage.
Import Js.


Lemma fresh_patterns_down up :
  failed (Optimizer.procrastination_metrics up) ->
  failed (Optimizer.pricing_comparison up) ->
  failed (Optimizer.execution_metrics up) ->
  fresh_patterns up = [].
Proof.
  intros [E1 | (d1 & E1)] [E2 | (d2 & E2)] [E3 | (d3 & E3)];
    unfold fresh_patterns; rewrite E1, E2, E3; try reflexivity;
    destruct d2; reflexivity.
Qed.

(** With nothing usable in the cache, an empty fresh list is what the
    caller gets. *)
Lemma detect_uncached pooler table up user :
  Optimizer.getCachedPatterns table up user = None ->
  fst (Optimizer.detectAllPatternsBrutally false pooler table up user)
  = fresh_detection up.
Proof.
  intro N. rewrite detect_local, N. reflexivity.
Qed.

Lemma handleAnalyze_empty pooler Text run db up user msg :
  user <> "" -> msg <> "" ->
  Optimizer.getCachedPatterns (Api.pattern_cache db) (Api.detection up) user = None ->
  fresh_patterns (Api.detection up) = [] ->
  exists b,
    Api.handleAnalyze false pooler Text run db up
      (Some {| userId := Some user; message := Some msg |})
    = (Api.Json200 b, [Api.DetectAllPatterns user],
       {| Api.pattern_cache :=
            Optimizer.cachePatterns (Api.pattern_cache db) (Api.detection up) user
              (fresh_detection (Api.detection up));
          Api.resistance := Api.resistance db |})
    /\ Api.patterns b = [] /\ Api.intervention b = None
    /\ Api.should_intervene b = false.
Proof.
  intros U M N F. unfold Api.handleAnalyze.
  rewrite (missing_fields_present user msg U M). cbn [userId message].
  rewrite detect_local, N. unfold fresh_detection. rewrite F.
  cbn. eexists. split; [reflexivity|]. repeat split.
Qed.

Lemma no_rows_inv {A} (reply : Reply (list A)) :
  no_rows reply ->
  exists data error, reply = Resolved data error /\ Engine.rows_or_empty data = [].
Proof.
  intros (error & [-> | ->]); do 2 eexists; split; reflexivity.
Qed.

Lemma answered_inv {A} (reply : Reply A) :
  answered reply -> exists data error, reply = Resolved data error.
Proof.
  destruct reply; [|contradiction]. intros _. do 2 eexists. reflexivity.
Qed.

(** The metrics of a user without rows *)
Definition no_metrics : Engine.BusinessMetrics :=
  {| Engine.current_mrr := Fin 0;
     Engine.avg_transaction_value := Fin 0;
     Engine.product_count := Fin 0;
     Engine.revenue_history := [] |}.

Definition no_competitors : Engine.CompetitorAnalysis :=
  {| Engine.competitors := []; Engine.data_points := Fin 0 |}.

Lemma getBusinessTruth_without_rows up :
  engine_without_rows up -> Engine.getBusinessTruth up = Normal no_metrics.
Proof.
  intros (_ & _ & _ & _ & (e5 & E5) & R6 & (e7 & E7) & _).
  apply no_rows_inv in R6. destruct R6 as (d6 & e6 & E6 & R6).
  unfold Engine.getBusinessTruth. rewrite E5, E6, E7. cbn [await bind].
  rewrite R6. reflexivity.
Qed.

Lemma getCompetitiveReality_without_rows up :
  engine_without_rows up -> Engine.getCompetitiveReality up = Normal no_competitors.
Proof.
  intros (_ & _ & _ & _ & _ & _ & _ & (e8 & E8) & _).
  unfold Engine.getCompetitiveReality. rewrite E8. reflexivity.
Qed.

Lemma detection_without_rows sqrt up :
  engine_without_rows up ->
  Engine.detectDataDrivenPatterns sqrt no_metrics no_competitors up = Normal [].
Proof.
  intros (_ & _ & _ & _ & _ & _ & _ & _ & _ & _ & R11 & R12 & A13 & R14 & R15).
  apply no_rows_inv in R11, R12, R14, R15. apply answered_inv in A13.
  destruct R11 as (d11 & e11 & E11 & R11), R12 as (d12 & e12 & E12 & R12),
    A13 as (d13 & e13 & E13), R14 as (d14 & e14 & E14 & R14),
    R15 as (d15 & e15 & E15 & R15).
  unfold Engine.detectDataDrivenPatterns, Engine.run_detectors,
    Engine.ProcrastinationDetector_detect, Engine.ExecutionParalysisDetector_detect.
  rewrite E11, E12, E13, E14, E15. cbn [await bind].
  unfold Engine.analyzeTaskDelays, Engine.analyzeLanguagePatterns,
    Engine.calculatePlanningToExecutionRatio, Engine.identifyBlockers.
  rewrite R11, R12, R14, R15. reflexivity.
Qed.

Lemma analyzeUser_without_rows sqrt uuid random base specifics cached up :
  engine_without_rows up ->
  exists r,
    Engine.analyzeUser sqrt uuid random base specifics cached up = Normal r
    /\ Engine.patterns r = [] /\ Engine.should_intervene r = false.
Proof.
  intro W.
  assert (exists profile, Engine.getUserBehavioralProfile cached up = Normal profile) as (p & P).
  { destruct W as (R1 & R2 & A3 & A4 & _).
    apply no_rows_inv in R1, R2. apply answered_inv in A3, A4.
    destruct R1 as (d1 & e1 & E1 & _), R2 as (d2 & e2 & E2 & _),
      A3 as (d3 & e3 & E3), A4 as (d4 & e4 & E4).
    unfold Engine.getUserBehavioralProfile. destruct cached; [eexists; reflexivity|].
    rewrite E1, E2, E3, E4. eexists. reflexivity. }
  pose proof W as (_ & _ & _ & _ & _ & _ & _ & _ & A9 & A10 & _).
  apply answered_inv in A9, A10.
  destruct A9 as (d9 & e9 & E9), A10 as (d10 & e10 & E10).
  unfold Engine.analyzeUser.
  rewrite P, (getBusinessTruth_without_rows up W),
    (getCompetitiveReality_without_rows up W), E9, E10.
  cbn [bind await]. rewrite (detection_without_rows sqrt up W). cbn [bind].
  eexists. split; [reflexivity|]. split; reflexivity.
Qed.

Lemma analyze_route_runs sqrt uuid random base specifics requests cached up user msg :
  user <> "" -> msg <> "" -> not_limited requests ->
  Engine.analyze_route sqrt uuid random base specifics requests cached up
    {| userId := Some user; message := Some msg |}
  = (match Engine.analyzeUser sqrt uuid random base specifics cached up with
     | Normal result => Engine.Analysed result
     | Threw => Engine.Refused 500 "Analysis failed"
     end, [Engine.CountRequest user; Engine.AnalyzeUser user]).
Proof.
  intros U M L. unfold Engine.analyze_route.
  rewrite (missing_fields_present user msg U M). cbn [userId].
  assert ((30 <? match requests with Some n => n | None => 0%nat end)%nat = false) as ->.
  { apply Nat.ltb_ge. destruct requests; cbn in *; lia. }
  destruct (Engine.analyzeUser _ _ _ _ _ _ _); reflexivity.
Qed.

Lemma analyzeUser_rejected sqrt uuid random base specifics cached up :
  (cached = None /\ Engine.user_patterns up = Rejected)
  \/ Engine.business_context up = Rejected
  \/ Engine.pending_tasks up = Rejected ->
  Engine.analyzeUser sqrt uuid random base specifics cached up = Threw.
Proof.
  unfold Engine.analyzeUser. intros [[-> H] | [H | H]].
  - unfold Engine.getUserBehavioralProfile. rewrite H. reflexivity.
  - destruct (Engine.getUserBehavioralProfile cached up); [|reflexivity].
    unfold Engine.getBusinessTruth. rewrite H. reflexivity.
  - destruct (Engine.getUserBehavioralProfile cached up); [|reflexivity].
    destruct (Engine.getBusinessTruth up); [|reflexivity].
    destruct (Engine.getCompetitiveReality up); [|reflexivity].
    destruct (Engine.intervention_effectiveness up); [|reflexivity].
    destruct (Engine.user_breakthroughs up); [|reflexivity].
    cbn [bind await].
    unfold Engine.detectDataDrivenPatterns, Engine.run_detectors,
      Engine.ProcrastinationDetector_detect.
    rewrite H. reflexivity.
Qed.

End Outage.

(** Every query of the engine resolved with [data: null] and an error. *)
Definition soft_failure {A} (reply : Js.Reply A) : Prop := reply = Js.Resolved None true.

Definition engine_failing_softly (up : Engine.Upstream) : Prop :=
  soft_failure (Engine.user_patterns up) /\ soft_failure (Engine.behavioral_predictions up)
  /\ soft_failure (Engine.pattern_evolution up)
  /\ soft_failure (Engine.user_state_evolution up)
  /\ soft_failure (Engine.business_context up) /\ soft_failure (Engine.revenue_rows up)
  /\ soft_failure (Engine.saas_metrics up) /\ soft_failure (Engine.competitive_context up)
  /\ soft_failure (Engine.similar_businesses up)
  /\ soft_failure (Engine.top_breakthroughs up)
  /\ soft_failure (Engine.intervention_effectiveness up)
  /\ soft_failure (Engine.user_breakthroughs up)
  /\ soft_failure (Engine.pending_tasks up) /\ soft_failure (Engine.user_feedback up)
  /\ soft_failure (Engine.excuse_patterns up)
  /\ soft_failure (Engine.task_types up) /\ soft_failure (Engine.blocker_occurrences up).

Lemma soft_failure_without_rows up : engine_failing_softly up -> engine_without_rows up.
Proof.
  unfold engine_failing_softly, engine_without_rows, soft_failure, no_rows, no_data.
  intros (E1 & E2 & E3 & E4 & E5 & E6 & E7 & E8 & E9 & E10 & E11 & E12 & E13 & E14
          & E15 & E16 & E17).
  rewrite E1, E2, E3, E4, E5, E6, E7, E8, E11, E12, E13, E14, E15, E16, E17.
  repeat split; try (exists true; auto).
Qed.


Lemma uncached_when_unreadable table up user :
  Optimizer.cache_read_ok up = false -> Optimizer.getCachedPatterns table up user = None.
Proof.
  intro N. unfold Optimizer.getCachedPatterns. rewrite N. reflexivity.
Qed.




(** C4, as the code has it.  [handleAnalyze] answers every well-formed
    request with status 200 whatever the datastore does, and with an empty
    pattern list when the cache read and the three detector calls fail.  The
    engine's route treats a query that resolves with [data: null] and an
    error as "no data" (status 200, empty list when all queries fail this
    way), and answers 500 when an awaited query is rejected. *)
Theorem datastore_failure_handling :
  forall user msg : string,
    user <> "" -> msg <> "" ->
    (forall VERCEL pooler Text run db up,
        Api.status (fst (fst (Api.handleAnalyze VERCEL pooler Text run db up
                                (Some {| userId := Some user; message := Some msg |}))))
        = 200%Z)
    /\ (forall pooler Text run db up,
           optimizer_down (Api.detection up) ->
           exists b,
             fst (fst (Api.handleAnalyze false pooler Text run db up
                         (Some {| userId := Some user; message := Some msg |})))
             = Api.Json200 b
             /\ Api.patterns b = [] /\ Api.should_intervene b = false)
    /\ (forall sqrt uuid random base specifics requests cached up,
           not_limited requests ->
           engine_failing_softly up ->
           exists r,
             fst (Engine.analyze_route sqrt uuid random base specifics requests cached up
                    {| userId := Some user; message := Some msg |})
             = Engine.Analysed r
             /\ Engine.patterns r = [] /\ Engine.should_intervene r = false)
    /\ (forall sqrt uuid random base specifics requests cached up,
           not_limited requests ->
           (cached = None /\ Engine.user_patterns up = Js.Rejected)
           \/ Engine.business_context up = Js.Rejected
           \/ Engine.pending_tasks up = Js.Rejected ->
           Engine.status
             (fst (Engine.analyze_route sqrt uuid random base specifics requests cached up
                     {| userId := Some user; message := Some msg |}))
           = 500%Z).
Proof.
  intros user msg U M. split; [|split; [|split]].
  - intros. pose proof (handleAnalyze_present VERCEL pooler Text run db up user msg U M) as E.
    cbv zeta in E. rewrite E. reflexivity.
  - intros pooler Text run db up (C & F1 & F2 & F3).
    destruct (handleAnalyze_empty pooler Text run db up user msg U M) as (b & E & P & _ & S).
    + now apply uncached_when_unreadable.
    + now apply fresh_patterns_down.
    + exists b. rewrite E. auto.
  - intros sqrt uuid random base specifics requests cached up L W.
    rewrite analyze_route_runs by assumption.
    apply soft_failure_without_rows in W.
    destruct (analyzeUser_without_rows sqrt uuid random base specifics cached up W)
      as (r & -> & P & S).
    exists r. auto.
  - intros sqrt uuid random base specifics requests cached up L R.
    rewrite analyze_route_runs by assumption.
    rewrite analyzeUser_rejected by assumption. reflexivity.
Qed.

Lemma datastore_failure_handling_witness :
  exists b,
    fst (fst (Api.handleAnalyze false (fun _ => Js.Threw) unit (fun _ _ _ _ => Js.Threw)
                no_tables failing_upstream
                (Some {| userId := Some "u1"; message := Some "hello" |})))
    = Api.Json200 b
    /\ Api.patterns b = [] /\ Api.should_intervene b = false.
Proof.
  apply (proj1 (proj2 (datastore_failure_handling "u1" "hello"
                         ltac:(discriminate) ltac:(discriminate)))).
  repeat split; left; reflexivity.
Defined.

(** C4 as stated fails in the engine: when the first query of the profile
    is rejected, the route answers with status 500. *)
Lemma rejected_query_gives_500 :
  Engine.user_patterns broken_engine = Js.Rejected
  /\ Engine.status
       (fst (Engine.analyze_route (fun x => x) "id" (Js.Fin 0) (fun _ => "")
               (fun text _ _ => (text, "")) None None broken_engine
               {| userId := Some "u1"; message := Some "hello" |}))
     = 500%Z.
Proof. split; reflexivity. Qed.

(** * Further parts of the sources

    - [Financial]  : pattern-queries-optimzed.js, the comparison table
    - [ABTester]   : brutal-interventions.js ([InterventionABTester])
    - [Breaker]    : api/analyze.js, the circuit breaker and the routes
                     that go through it
    - [Realtime]   : index.js ([SmartCacheWrapper], the resistance level
                     and the realtime stream)
    - [Client]     : client-realtime.js ([Celeste7VercelRealTime])

    and further properties of the functions modelled above. *)

(** ** pattern-queries-optimzed.js: what the money could have bought *)

Module Financial.
Import Js.

(** [Object.entries(this.financialComparisons)]: the keys are integers, so
    the entries come in ascending order of the key. *)
Definition loadFinancialComparisons : list (Z * string) :=
  [(1000%Z, "month of groceries");
   (2000%Z, "new laptop");
   (5000%Z, "family vacation");
   (10000%Z, "6 months of rent");
   (20000%Z, "family vacation home down payment");
   (30000%Z, "year of private school");
   (50000%Z, "Tesla Model 3")].

Definition getWhatYouCouldHaveBought (amount : num) : string :=
  match List.find (fun entry => ge amount (of_Z (fst entry)))
          (sort (fun a b => sub (of_Z (fst b)) (of_Z (fst a)))
                loadFinancialComparisons) with
  | Some entry => snd entry
  | None => "nice dinner"
  end.

End Financial.

Section FinancialFacts.
Import Js Financial.

Lemma ge_of_Z_mono (amount : num) (small large : Z) :
  (small <= large)%Z -> ge amount (of_Z large) = true -> ge amount (of_Z small) = true.
Proof.
  intros L. destruct amount as [| | |q]; cbn; try congruence.
  rewrite !Qle_bool_iff. intro H. rewrite Zle_Qle in L. lra.
Qed.

Lemma comparisons_sorted :
  sort (fun a b => sub (of_Z (fst b)) (of_Z (fst a))) loadFinancialComparisons
  = rev loadFinancialComparisons.
Proof. vm_compute. reflexivity. Qed.

(** X1.  The item returned is the one of the largest threshold that the amount
    reaches, and "nice dinner" exactly when the amount does not reach 1000
    (which includes an amount that is not a number). *)
Theorem largest_affordable_item :
  forall amount : num,
    (getWhatYouCouldHaveBought amount = "nice dinner"
     <-> ge amount (Fin 1000) = false)
    /\ (forall threshold item,
           In (threshold, item) loadFinancialComparisons ->
           ge amount (of_Z threshold) = true ->
           (forall other item',
               In (other, item') loadFinancialComparisons ->
               ge amount (of_Z other) = true -> (other <= threshold)%Z) ->
           getWhatYouCouldHaveBought amount = item).
Proof.
  intro amount. unfold getWhatYouCouldHaveBought. rewrite comparisons_sorted.
  cbn [rev loadFinancialComparisons app List.find fst snd].
  change (of_Z 1000) with (Fin 1000).
  destruct (ge amount (of_Z 50000)) eqn:G7.
  { assert (ge amount (Fin 1000) = true) as G1
      by (apply (ge_of_Z_mono amount 1000 50000); [lia | exact G7]).
    split; [split; [discriminate | congruence]|].
    intros threshold item I G M.
    assert (50000 <= threshold)%Z as B by (eapply M; [|exact G7]; cbn; tauto).
    cbn in I. repeat (destruct I as [I | I]; [injection I as <- <-; try lia; try reflexivity|]).
    contradiction. }
  destruct (ge amount (of_Z 30000)) eqn:G6.
  { assert (ge amount (Fin 1000) = true) as G1
      by (apply (ge_of_Z_mono amount 1000 30000); [lia | exact G6]).
    split; [split; [discriminate | congruence]|].
    intros threshold item I G M.
    assert (30000 <= threshold)%Z as B by (eapply M; [|exact G6]; cbn; tauto).
    cbn in I. repeat (destruct I as [I | I];
                      [injection I as <- <-; try lia; try reflexivity; try congruence|]).
    contradiction. }
  destruct (ge amount (of_Z 20000)) eqn:G5.
  { assert (ge amount (Fin 1000) = true) as G1
      by (apply (ge_of_Z_mono amount 1000 20000); [lia | exact G5]).
    split; [split; [discriminate | congruence]|].
    intros threshold item I G M.
    assert (20000 <= threshold)%Z as B by (eapply M; [|exact G5]; cbn; tauto).
    cbn in I. repeat (destruct I as [I | I];
                      [injection I as <- <-; try lia; try reflexivity; try congruence|]).
    contradiction. }
  destruct (ge amount (of_Z 10000)) eqn:G4.
  { assert (ge amount (Fin 1000) = true) as G1
      by (apply (ge_of_Z_mono amount 1000 10000); [lia | exact G4]).
    split; [split; [discriminate | congruence]|].
    intros threshold item I G M.
    assert (10000 <= threshold)%Z as B by (eapply M; [|exact G4]; cbn; tauto).
    cbn in I. repeat (destruct I as [I | I];
                      [injection I as <- <-; try lia; try reflexivity; try congruence|]).
    contradiction. }
  destruct (ge amount (of_Z 5000)) eqn:G3.
  { assert (ge amount (Fin 1000) = true) as G1
      by (apply (ge_of_Z_mono amount 1000 5000); [lia | exact G3]).
    split; [split; [discriminate | congruence]|].
    intros threshold item I G M.
    assert (5000 <= threshold)%Z as B by (eapply M; [|exact G3]; cbn; tauto).
    cbn in I. repeat (destruct I as [I | I];
                      [injection I as <- <-; try lia; try reflexivity; try congruence|]).
    contradiction. }
  destruct (ge amount (of_Z 2000)) eqn:G2.
  { assert (ge amount (Fin 1000) = true) as G1
      by (apply (ge_of_Z_mono amount 1000 2000); [lia | exact G2]).
    split; [split; [discriminate | congruence]|].
    intros threshold item I G M.
    assert (2000 <= threshold)%Z as B by (eapply M; [|exact G2]; cbn; tauto).
    cbn in I. repeat (destruct I as [I | I];
                      [injection I as <- <-; try lia; try reflexivity; try congruence|]).
    contradiction. }
  destruct (ge amount (Fin 1000)) eqn:G1.
  { split; [split; discriminate|].
    intros threshold item I G M.
    cbn in I. repeat (destruct I as [I | I];
                      [injection I as <- <-; try lia; try reflexivity; try congruence|]).
    contradiction. }
  split; [split; reflexivity|].
  intros threshold item I G M.
  assert (ge amount (of_Z 1000) = true) as C.
  { apply (ge_of_Z_mono amount 1000 threshold); [|exact G].
    cbn in I. repeat (destruct I as [I | I]; [injection I as <- <-; lia|]). contradiction. }
  change (of_Z 1000) with (Fin 1000) in C. congruence.
Qed.

Lemma largest_affordable_item_witness :
  getWhatYouCouldHaveBought (Fin 8400) = "family vacation".
Proof.
  apply (proj2 (largest_affordable_item (Fin 8400)) 5000%Z "family vacation").
  - cbn. tauto.
  - reflexivity.
  - intros other item' I G. cbn in I.
    repeat (destruct I as [I | I]; [injection I as <- <-; try lia; vm_compute in G; discriminate|]).
    contradiction.
Defined.

End FinancialFacts.

(** ** pattern-queries-optimzed.js: which patterns reach the list *)

(** The price gap in percent computed by [detectPricingCowardiceBrutally] *)
Definition gapPercent (row : Optimizer.PricingComparison) : Js.num :=
  Js.mul (Js.div (Js.sub (Optimizer.market_average row) (Optimizer.your_price row))
                 (Optimizer.market_average row))
         (Js.Fin 100).

(** The ratio of planned to shipped work computed by
    [detectExecutionParalysisBrutally] *)
Definition planToShipRatio (data : option Optimizer.ExecutionMetrics) : Js.num :=
  Js.div (Js.field data Optimizer.planning_count)
         (Js.or_else (Js.field data Optimizer.shipped_count) (Js.Fin 1)).

(** [cached && Date.now() - cached.timestamp < this.cacheExpiry], local
    configuration *)
Definition cache_hit (table : gmap string Optimizer.CacheRow)
    (up : Optimizer.Upstream) (user : string) : bool :=
  match Optimizer.getCachedPatterns table up user with
  | Some (_, timestamp) => (Optimizer.now up - timestamp <? 5000)%Z
  | None => false
  end.

(** A reading of the clock 3 seconds after [mixed_detection], with every
    procedure failing. *)
Definition later_failing_detection : Optimizer.Upstream :=
  {| Optimizer.now := 3000;
     Optimizer.cache_read_ok := true;
     Optimizer.cache_write_ok := true;
     Optimizer.procrastination_metrics := Js.Rejected;
     Optimizer.business_context := Js.Rejected;
     Optimizer.pricing_comparison := Js.Rejected;
     Optimizer.execution_metrics := Js.Rejected |}.

Section OptimizerThresholds.
Import Js Optimizer.

(** A capped ratio exceeds a bound below the cap exactly when the
    numerator exceeds the bound scaled by the denominator. *)
Lemma capped_ratio_gt (x : num) (d c lo : Q) :
  0 < d -> lo < c ->
  gt (min (div x (Fin d)) (Fin c)) (Fin lo) = gt x (Fin (lo * d)).
Proof.
  intros Hd Hc. destruct x as [| | |q].
  - reflexivity.
  - cbn. destruct (d ?= 0) eqn:E.
    + apply Qeq_alt in E. lra.
    + apply Qlt_alt in E. lra.
    + cbn. destruct (Qltb c c) eqn:F.
      * apply Qltb_lt in F. lra.
      * apply Qltb_lt. exact Hc.
  - cbn. destruct (d ?= 0) eqn:E.
    + apply Qeq_alt in E. lra.
    + apply Qlt_alt in E. lra.
    + reflexivity.
  - rewrite div_Fin by lra.
    destruct (min_Fin (q / d) c) as (r & -> & L1 & L2 & M).
    assert (q == (q / d) * d) as Q by (field; lra).
    destruct (gt (Fin q) (Fin (lo * d))) eqn:G.
    + apply gt_Fin in G. apply gt_Fin.
      assert (lo < q / d) by (apply Qlt_shift_div_l; lra).
      destruct M; lra.
    + apply Qltb_ge in G. apply Qltb_ge.
      assert (q / d <= lo) by (apply Qle_shift_div_r; lra).
      lra.
Qed.

Lemma gt_or_else_zero (a : num) (k : Q) :
  0 <= k -> gt (or_else a (Fin 0)) (Fin k) = gt a (Fin k).
Proof.
  intro K. unfold or_else. destruct a as [| | |q]; cbn [truthy].
  - apply Qltb_ge. exact K.
  - reflexivity.
  - reflexivity.
  - destruct (Qeq_bool q 0) eqn:E; [|reflexivity]. cbn [negb].
    apply Qeq_bool_iff in E.
    transitivity false.
    + apply Qltb_ge. exact K.
    + symmetry. apply Qltb_ge. lra.
Qed.

Lemma gt_bound_eq (a : num) (x y : Q) : x == y -> gt a (Fin x) = gt a (Fin y).
Proof.
  intro E. destruct a as [| | |q]; try reflexivity. cbn.
  destruct (Qltb y q) eqn:G.
  - apply Qltb_lt in G. apply Qltb_lt. lra.
  - apply Qltb_ge in G. apply Qltb_ge. lra.
Qed.

Lemma is_critical_if (b : bool) : is_critical (if b then critical else high) = b.
Proof. now destruct b. Qed.

Lemma procrastination_confident rpc context p :
  detectProcrastinationBrutally rpc context = Some p ->
  exists data, rpc = Resolved data false
    /\ pattern_type p = "procrastination"
    /\ gt (confidence p) (Fin 0.7) = gt (field data total_delay_days) (Fin 21)
    /\ is_critical (severity p) = gt (field data total_delay_days) (Fin 60).
Proof.
  unfold detectProcrastinationBrutally.
  destruct rpc as [data [|]|]; try discriminate.
  intros [= <-]. exists data. cbn [pattern_type confidence severity].
  repeat split.
  - rewrite capped_ratio_gt by lra.
    rewrite (gt_bound_eq _ (0.7 * 30) 21) by reflexivity. apply gt_or_else_zero. lra.
  - exact (is_critical_if _).
Qed.

Lemma pricing_confident rpc p :
  detectPricingCowardiceBrutally rpc = Some p ->
  exists row, rpc = Resolved (Some row) false
    /\ pattern_type p = "pricing_cowardice"
    /\ gt (confidence p) (Fin 0.7) = gt (gapPercent row) (Fin 35)
    /\ is_critical (severity p) = gt (gapPercent row) (Fin 50).
Proof.
  unfold detectPricingCowardiceBrutally.
  destruct rpc as [[row|] [|]|]; try discriminate.
  intros [= <-]. exists row. cbn [pattern_type confidence severity].
  fold (gapPercent row). repeat split.
  - rewrite capped_ratio_gt by lra. apply gt_bound_eq. reflexivity.
  - exact (is_critical_if _).
Qed.

Lemma execution_confident rpc p :
  detectExecutionParalysisBrutally rpc = Some p ->
  exists data, rpc = Resolved data false
    /\ pattern_type p = "execution_paralysis"
    /\ gt (confidence p) (Fin 0.7) = gt (planToShipRatio data) (Fin 7)
    /\ is_critical (severity p) = gt (field data days_since_ship) (Fin 60).
Proof.
  unfold detectExecutionParalysisBrutally.
  destruct rpc as [data [|]|]; try discriminate.
  fold (planToShipRatio data).
  destruct (lt _ (Fin 3)); try discriminate.
  intros [= <-]. exists data. cbn [pattern_type confidence severity].
  repeat split.
  - rewrite capped_ratio_gt by lra. apply gt_bound_eq. reflexivity.
  - exact (is_critical_if _).
Qed.

Lemma gt_weaken (a : num) (small large : Q) :
  small <= large -> gt a (Fin large) = true -> lt a (Fin small) = false.
Proof.
  intro L. destruct a as [| | |q]; cbn; try congruence.
  intro G. apply Qltb_lt in G. apply Qltb_ge. lra.
Qed.

Lemma In_fresh_patterns up p :
  In p (fresh_patterns up)
  <-> (detectProcrastinationBrutally (procrastination_metrics up) (business_context up)
         = Some p
       \/ detectPricingCowardiceBrutally (pricing_comparison up) = Some p
       \/ detectExecutionParalysisBrutally (execution_metrics up) = Some p)
      /\ gt (confidence p) (Fin 0.7) = true.
Proof.
  unfold fresh_patterns. split.
  - intro I. eapply Permutation_in in I; [|symmetry; apply sort_perm].
    unfold keep_confident in I. cbn [flat_map] in I.
    rewrite !in_app_iff in I.
    destruct I as [I | [I | [I | []]]].
    + destruct (detectProcrastinationBrutally _ _) as [v|]; [|destruct I].
      destruct (gt (confidence v) (Fin 0.7)) eqn:G; [|destruct I].
      destruct I as [<- | []]. auto.
    + destruct (detectPricingCowardiceBrutally _) as [v|]; [|destruct I].
      destruct (gt (confidence v) (Fin 0.7)) eqn:G; [|destruct I].
      destruct I as [<- | []]. auto.
    + destruct (detectExecutionParalysisBrutally _) as [v|]; [|destruct I].
      destruct (gt (confidence v) (Fin 0.7)) eqn:G; [|destruct I].
      destruct I as [<- | []]. auto.
  - intros [D G]. eapply Permutation_in; [apply sort_perm|].
    unfold keep_confident. cbn [flat_map]. rewrite !in_app_iff.
    destruct D as [-> | [-> | ->]]; rewrite G; cbn; tauto.
Qed.

(** X2.  In the local configuration a procrastination pattern is listed exactly
    when the reported delay exceeds 21 days, a pricing pattern exactly when
    the price gap exceeds 35 percent, and an execution pattern exactly when
    the ratio of planned to shipped work exceeds 7 (the detector's own
    threshold of 3 never decides); a listed procrastination pattern is
    critical exactly above 60 days, a listed pricing pattern exactly above
    a gap of 50 percent. *)
Theorem listing_thresholds :
  forall up : Upstream,
    (forall critical_wanted : bool,
        (exists p, In p (fresh_patterns up) /\ pattern_type p = "procrastination"
                   /\ is_critical (severity p) = critical_wanted)
        <-> (exists data, procrastination_metrics up = Resolved data false
                          /\ gt (field data total_delay_days) (Fin 21) = true
                          /\ gt (field data total_delay_days) (Fin 60) = critical_wanted))
    /\ (forall critical_wanted : bool,
        (exists p, In p (fresh_patterns up) /\ pattern_type p = "pricing_cowardice"
                   /\ is_critical (severity p) = critical_wanted)
        <-> (exists row, pricing_comparison up = Resolved (Some row) false
                         /\ gt (gapPercent row) (Fin 35) = true
                         /\ gt (gapPercent row) (Fin 50) = critical_wanted))
    /\ ((exists p, In p (fresh_patterns up) /\ pattern_type p = "execution_paralysis")
        <-> (exists data, execution_metrics up = Resolved data false
                          /\ gt (planToShipRatio data) (Fin 7) = true)).
Proof.
  intro up. split; [|split].
  - intro w. split.
    + intros (p & I & T & S). apply In_fresh_patterns in I. destruct I as [D G].
      destruct D as [D | [D | D]].
      * apply procrastination_confident in D.
        destruct D as (data & E & _ & C & K). exists data.
        split; [exact E|]. split; congruence.
      * apply pricing_confident in D. destruct D as (? & _ & T' & _).
        rewrite T in T'. discriminate.
      * apply execution_confident in D. destruct D as (? & _ & T' & _).
        rewrite T in T'. discriminate.
    + intros (data & E & G & K).
      destruct (detectProcrastinationBrutally (procrastination_metrics up)
                  (business_context up)) as [p|] eqn:D.
      * exists p. pose proof D as D'. apply procrastination_confident in D'.
        destruct D' as (data' & E' & T & C & S).
        rewrite E in E'. injection E' as <-.
        split; [|split; [exact T | congruence]].
        apply In_fresh_patterns. split; [now left | congruence].
      * rewrite E in D. discriminate.
  - intro w. split.
    + intros (p & I & T & S). apply In_fresh_patterns in I. destruct I as [D G].
      destruct D as [D | [D | D]].
      * apply procrastination_confident in D. destruct D as (? & _ & T' & _).
        rewrite T in T'. discriminate.
      * apply pricing_confident in D.
        destruct D as (row & E & _ & C & K). exists row.
        split; [exact E|]. split; congruence.
      * apply execution_confident in D. destruct D as (? & _ & T' & _).
        rewrite T in T'. discriminate.
    + intros (row & E & G & K).
      destruct (detectPricingCowardiceBrutally (pricing_comparison up)) as [p|] eqn:D.
      * exists p. pose proof D as D'. apply pricing_confident in D'.
        destruct D' as (row' & E' & T & C & S).
        rewrite E in E'. injection E' as <-.
        split; [|split; [exact T | congruence]].
        apply In_fresh_patterns. split; [tauto | congruence].
      * rewrite E in D. discriminate.
  - split.
    + intros (p & I & T). apply In_fresh_patterns in I. destruct I as [D G].
      destruct D as [D | [D | D]].
      * apply procrastination_confident in D. destruct D as (? & _ & T' & _).
        rewrite T in T'. discriminate.
      * apply pricing_confident in D. destruct D as (? & _ & T' & _).
        rewrite T in T'. discriminate.
      * apply execution_confident in D.
        destruct D as (data & E & _ & C & _). exists data.
        split; [exact E | congruence].
    + intros (data & E & G).
      destruct (detectExecutionParalysisBrutally (execution_metrics up)) as [p|] eqn:D.
      * exists p. pose proof D as D'. apply execution_confident in D'.
        destruct D' as (data' & E' & T & C & S).
        rewrite E in E'. injection E' as <-.
        split; [|exact T].
        apply In_fresh_patterns. split; [tauto | congruence].
      * rewrite E in D. unfold detectExecutionParalysisBrutally in D.
        fold (planToShipRatio data) in D.
        rewrite (gt_weaken _ 3 7) in D by (try lra; exact G). discriminate.
Qed.

(** With a positive market average, the price gap exceeds 35 percent
    exactly when the user's price is below 65 percent of the average. *)
Lemma gap_in_prices (market price customers rank : Q) :
  0 < market ->
  gt (gapPercent {| market_average := Fin market; your_price := Fin price;
                    customer_count := Fin customers; percentile_rank := Fin rank |})
     (Fin 35) = true
  <-> price < 0.65 * market.
Proof.
  intro M. unfold gapPercent. cbn [market_average your_price sub neg add].
  rewrite div_Fin by lra. cbn [mul]. rewrite gt_Fin.
  assert ((market + - price) / market * 100 == 100 - 100 * (price / market)) as E
    by (field; lra).
  rewrite E. split; intro H.
  - assert (price / market < 0.65) as R by lra.
    assert (price == price / market * market) as P by (field; lra).
    assert (price / market * market < 0.65 * market) by (apply Qmult_lt_r; lra).
    lra.
  - assert (price / market < 0.65) as R by (apply Qlt_shift_div_r; lra).
    lra.
Qed.

End OptimizerThresholds.

Section OptimizerCache.
Import Js Optimizer.

(** X3.  In the local configuration, and with a cache that only this function
    has written, no returned object has [cached] set, also when it was
    read from the cache, and none carries an error message. *)
Theorem cache_hit_is_not_flagged pooler table up user :
  cached_by any_upstream table ->
  cached (fst (detectAllPatternsBrutally false pooler table up user)) = false
  /\ failed (fst (detectAllPatternsBrutally false pooler table up user)) = false.
Proof.
  intro C.
  apply (detect_result any_upstream (fun d => cached d = false /\ failed d = false));
    [|exact C|exact I].
  intros; split; reflexivity.
Qed.

Lemma cache_hit_is_not_flagged_witness :
  cached (fst (detectAllPatternsBrutally false (fun _ => Threw)
                 (snd (detectAllPatternsBrutally false (fun _ => Threw) ∅
                         mixed_detection "u1"))
                 later_failing_detection "u1")) = false
  /\ failed (fst (detectAllPatternsBrutally false (fun _ => Threw)
                    (snd (detectAllPatternsBrutally false (fun _ => Threw) ∅
                            mixed_detection "u1"))
                    later_failing_detection "u1")) = false.
Proof.
  apply cache_hit_is_not_flagged.
  apply cached_call; [apply cached_empty | exact I].
Defined.

(** X4.  A call that computes the patterns and stores them answers every call
    for the same user during the next 5 seconds: such a call returns the
    stored object whatever the procedures would answer now, and leaves the
    table as it is.  From 5 seconds on the patterns are computed again. *)
Theorem cache_round_trip pooler table up1 up2 user :
  cache_hit table up1 user = false ->
  cache_write_ok up1 = true ->
  cache_read_ok up2 = true ->
  let first := detectAllPatternsBrutally false pooler table up1 user in
  let second := detectAllPatternsBrutally false pooler (snd first) up2 user in
  fst first = fresh_detection up1
  /\ ((now up2 - now up1 < 5000)%Z -> second = (fresh_detection up1, snd first))
  /\ ((5000 <= now up2 - now up1)%Z -> fst second = fresh_detection up2).
Proof.
  intros Miss W R first second.
  assert (first = (fresh_detection up1,
                   <[user := {| cached_patterns := fresh_detection up1;
                                cached_at := now up1 |}]> table)) as E1.
  { unfold first. rewrite detect_local. unfold cache_hit in Miss.
    unfold cachePatterns. rewrite W.
    destruct (getCachedPatterns table up1 user) as [[d ts]|]; [|reflexivity].
    rewrite Miss. reflexivity. }
  unfold second. rewrite E1. cbn [fst snd].
  rewrite detect_local. unfold getCachedPatterns. rewrite R.
  rewrite lookup_insert. destruct (decide (user = user)) as [_|N]; [|contradiction].
  cbn [cached_patterns cached_at].
  split; [reflexivity|]. split; intro T.
  - apply Z.ltb_lt in T. rewrite T. reflexivity.
  - apply Z.ltb_ge in T. rewrite T. reflexivity.
Qed.

Lemma cache_round_trip_witness :
  detectAllPatternsBrutally false (fun _ => Threw)
    (snd (detectAllPatternsBrutally false (fun _ => Threw) ∅ mixed_detection "u1"))
    later_failing_detection "u1"
  = (fresh_detection mixed_detection,
     snd (detectAllPatternsBrutally false (fun _ => Threw) ∅ mixed_detection "u1")).
Proof.
  apply (cache_round_trip (fun _ => Threw) ∅ mixed_detection later_failing_detection "u1").
  - reflexivity.
  - reflexivity.
  - reflexivity.
  - reflexivity.
Defined.

(** X5.  The daily burn rate is never zero and never [NaN]: it is a thirtieth
    of the monthly revenue when that is a number other than zero, and 100
    when the query fails, finds no row, or finds no revenue; the cost of a
    delay is then put at 100 for each day. *)
Theorem daily_burn_rate_default :
  forall context : Reply BusinessContext,
    truthy (getDailyBurnRate context) = true
    /\ (forall row error q,
           context = Resolved (Some row) error ->
           monthly_recurring_revenue row = Fin q -> ~ q == 0 ->
           getDailyBurnRate context = Fin (q / 30))
    /\ (truthy (match context with
                | Resolved data _ => field data monthly_recurring_revenue
                | Rejected => NaN
                end) = false ->
        getDailyBurnRate context = Fin 100
        /\ forall data,
             exists p,
               detectProcrastinationBrutally (Resolved data false) context = Some p
               /\ estimated_cost p
                  = round (mul (or_else (field data total_delay_days) (Fin 0)) (Fin 100))).
Proof.
  intro context. split; [apply dailyBurn_truthy|]. split.
  - intros row error q -> E N. cbn [getDailyBurnRate field]. rewrite E.
    assert (truthy (Fin q) = true) as T by now apply truthy_Fin.
    unfold or_else at 2. rewrite T. rewrite div_Fin by lra.
    unfold or_else. rewrite (proj2 (truthy_Fin (q / 30))); [reflexivity|].
    intro Z. apply N. 
    assert (q == q / 30 * 30) as Q by (field; lra). rewrite Q, Z. lra.
  - intro F.
    assert (getDailyBurnRate context = Fin 100) as B.
    { destruct context as [data error|]; [|reflexivity].
      cbn [getDailyBurnRate]. unfold or_else at 2. rewrite F. reflexivity. }
    split; [exact B|]. intro data. eexists. split; [reflexivity|].
    cbn [estimated_cost]. now rewrite B.
Qed.

Lemma daily_burn_rate_default_witness :
  getDailyBurnRate
    (Resolved (Some {| monthly_recurring_revenue := Fin 3000 |}) false)
  = Fin (3000 / 30).
Proof.
  apply (proj1 (proj2 (daily_burn_rate_default
                         (Resolved (Some {| monthly_recurring_revenue := Fin 3000 |}) false)))
           {| monthly_recurring_revenue := Fin 3000 |} false 3000).
  - reflexivity.
  - reflexivity.
  - intro H. discriminate H.
Defined.

End OptimizerCache.

(** ** brutal-interventions.js: escalation over several replies *)

(** [resistanceScore > 2] *)
Definition resisting (toLowerCase : string -> string) (reply : string) : bool :=
  (2 <? Interventions.resistanceScore toLowerCase reply)%Z.

(** The table after [trackResistance] has handled the replies of one user
    in turn, the datastore working. *)
Definition track_all (toLowerCase : string -> string) (table : gmap string Z)
    (user : string) (replies : list string) : gmap string Z :=
  fold_left (fun t reply =>
               snd (Interventions.trackResistance toLowerCase working t user reply))
            replies table.

Section EscalationFacts.
Import Js Interventions.

Lemma track_step (lower : string -> string) (table : gmap string Z) (user reply other : string) :
  stored_level (snd (trackResistance lower working table user reply)) other
  = if decide (user = other)
    then Z.min (stored_level table user + (if resisting lower reply then 1 else 0)) 5
    else stored_level table other.
Proof.
  unfold trackResistance, working, resisting. cbn [snd write_ok read_ok].
  apply stored_level_insert.
Qed.

Lemma track_all_level (lower : string -> string) (replies : list string) :
  forall (table : gmap string Z) (user : string),
    (stored_level table user <= 5)%Z ->
    stored_level (track_all lower table user replies) user
    = Z.min (stored_level table user
             + Z.of_nat (length (List.filter (resisting lower) replies))) 5.
Proof.
  induction replies as [|reply replies IH]; intros table user B.
  - cbn. lia.
  - unfold track_all. cbn [fold_left]. fold (track_all lower (snd (trackResistance lower working table user reply)) user replies).
    rewrite IH; rewrite track_step; destruct (decide (user = user)); try congruence.
    + cbn [List.filter]. destruct (resisting lower reply); cbn [length]; lia.
    + destruct (resisting lower reply); lia.
Qed.

Lemma track_all_others (lower : string -> string) (replies : list string) :
  forall (table : gmap string Z) (user other : string),
    other <> user ->
    stored_level (track_all lower table user replies) other = stored_level table other.
Proof.
  induction replies as [|reply replies IH]; intros table user other N; [reflexivity|].
  unfold track_all. cbn [fold_left].
  fold (track_all lower (snd (trackResistance lower working table user reply)) user replies).
  rewrite IH by exact N. rewrite track_step.
  destruct (decide (user = other)); congruence.
Qed.

(** X6.  With the datastore working, the level stored for a user who had no row
    is the number of replies so far that contained more than two markers,
    capped at 5: the level never goes down again, and the rows of other
    users stay as they were. *)
Theorem level_counts_resisting_replies :
  forall (lower : string -> string) (user : string) (replies : list string),
    stored_level (track_all lower ∅ user replies) user
    = Z.min (Z.of_nat (length (List.filter (resisting lower) replies))) 5
    /\ (forall more,
           (stored_level (track_all lower ∅ user replies) user
            <= stored_level (track_all lower ∅ user (replies ++ more)) user)%Z)
    /\ (forall (table : gmap string Z) (other : string),
           other <> user ->
           stored_level (track_all lower table user replies) other = stored_level table other).
Proof.
  intros lower user replies.
  assert (stored_level (∅ : gmap string Z) user = 0%Z) as Z0
    by (unfold stored_level; now rewrite lookup_empty).
  split; [|split].
  - rewrite track_all_level by lia. now rewrite Z0.
  - intro more. rewrite !track_all_level by lia. rewrite Z0.
    rewrite List.filter_app, length_app. lia.
  - intros table other N. now apply track_all_others.
Qed.

(** X7.  The level returned by [trackResistance] is not capped, the level it
    stores is; with the datastore working both select the same template
    level in [generateIntervention], one of the six defined levels. *)
Theorem returned_level_selects_stored_level :
  forall (lower : string -> string) (table : gmap string Z) (user reply : string),
    tracked lower table ->
    let newLevel := fst (trackResistance lower working table user reply) in
    let after := snd (trackResistance lower working table user reply) in
    stored_level after user = Z.min newLevel 5
    /\ selected_level (of_Z newLevel) = level_name (stored_level after user)
    /\ (exists name, selected_level (of_Z newLevel) = Some name
                     /\ In name defined_levels)
    /\ (stored_level table user = 5%Z -> resisting lower reply = true ->
        newLevel = 6%Z /\ stored_level after user = 5%Z).
Proof.
  intros lower table user reply T newLevel after.
  pose proof (tracked_levels _ _ T user) as B.
  assert (newLevel = (stored_level table user + (if resisting lower reply then 1 else 0))%Z) as N
    by reflexivity.
  assert (stored_level after user = Z.min newLevel 5) as S.
  { unfold after. rewrite track_step. destruct (decide (user = user)); [|congruence].
    now rewrite N. }
  split; [exact S|]. split; [|split].
  - rewrite S. apply selected_level_integer.
  - rewrite selected_level_integer. apply level_name_defined.
    rewrite N. destruct (resisting lower reply); lia.
  - intros F R. rewrite S, N, F, R. split; reflexivity.
Qed.

Lemma returned_level_selects_stored_level_witness :
  selected_level
    (of_Z (fst (trackResistance toLowerCase working ∅ "u1" "but I can't, it is impossible")))
  = level_name
      (stored_level
         (snd (trackResistance toLowerCase working ∅ "u1" "but I can't, it is impossible")) "u1").
Proof.
  apply (proj1 (proj2 (returned_level_selects_stored_level
                         toLowerCase ∅ "u1" "but I can't, it is impossible" (tracked_empty _)))).
Defined.

(** *** Markers that contain other markers *)

Lemma prefix_app (m s : string) :
  String.prefix m s = true <-> exists post, s = (m ++ post)%string.
Proof.
  revert s. induction m as [|c m IH]; intro s.
  - split; [intros _; now exists s | intros _; now destruct s].
  - destruct s as [|d s]; cbn.
    + split; [discriminate | intros (post & E); discriminate].
    + destruct (Ascii.ascii_dec c d) as [->|N].
      * rewrite IH. split; intros (post & E); exists post.
        -- cbn. now rewrite E.
        -- cbn in E. now injection E.
      * split; [discriminate|]. intros (post & E). cbn in E.
        injection E as E1 E2. symmetry in E1. contradiction.
Qed.

Lemma includes_app (s m : string) :
  includes s m = true <-> exists pre post, s = (pre ++ m ++ post)%string.
Proof.
  induction s as [|c s IH]; cbn [includes].
  - destruct (String.prefix m "") eqn:P.
    + apply prefix_app in P. destruct P as (post & E).
      split; [intros _; now exists "", post | intros _; reflexivity].
    + split; [discriminate|]. intros (pre & post & E).
      destruct pre; [|discriminate]. cbn in E.
      assert (String.prefix m "" = true) by (apply prefix_app; now exists post).
      congruence.
  - destruct (String.prefix m (String c s)) eqn:P.
    + apply prefix_app in P. destruct P as (post & E).
      split; [intros _; now exists "", post | intros _; reflexivity].
    + rewrite IH. split.
      * intros (pre & post & ->). now exists (String c pre), post.
      * intros (pre & post & E). destruct pre as [|d pre].
        -- cbn in E. assert (String.prefix m (String c s) = true)
             by (apply prefix_app; now exists post).
           congruence.
        -- cbn in E. injection E as -> ->. now exists pre, post.
Qed.

Lemma app_assoc_string (a b c : string) : ((a ++ b) ++ c = a ++ (b ++ c))%string.
Proof.
  induction a as [|x a IH]; [reflexivity|].
  change (String x ((a ++ b) ++ c) = String x (a ++ (b ++ c)))%string.
  now rewrite IH.
Qed.

Lemma includes_part (s whole pre part post : string) :
  whole = (pre ++ part ++ post)%string ->
  includes s whole = true -> includes s part = true.
Proof.
  intros -> H. apply includes_app in H. destruct H as (a & b & ->).
  apply includes_app. exists (a ++ pre)%string, (post ++ b)%string.
  now rewrite !app_assoc_string.
Qed.

Lemma score_sum (text : string) :
  let hit marker := (if includes text marker then 1 else 0)%Z in
  fold_left (fun score marker => (score + hit marker)%Z) resistanceMarkers 0%Z
  = (hit "but" + hit "however" + hit "yes but" + hit "can't" + hit "impossible"
     + hit "maybe later" + hit "not ready" + hit "need to think"
     + hit "too aggressive" + hit "too harsh" + hit "unfair")%Z.
Proof. reflexivity. Qed.

(** X8.  The marker "yes but" contains the marker "but": a reply that contains
    "yes but" scores at least 2, and at least 3, which raises the level,
    as soon as it contains one more marker that is not one of these two. *)
Theorem yes_but_counts_twice :
  forall (lower : string -> string) (reply : string),
    includes (lower reply) "yes but" = true ->
    (2 <= resistanceScore lower reply)%Z
    /\ (forall marker,
           In marker resistanceMarkers -> marker <> "but" -> marker <> "yes but" ->
           includes (lower reply) marker = true ->
           resisting lower reply = true).
Proof.
  intros lower reply Y.
  assert (includes (lower reply) "but" = true) as B
    by (apply (includes_part _ "yes but" "yes " "but" ""); [reflexivity | exact Y]).
  unfold resisting, resistanceScore.
  pose proof (score_sum (lower reply)) as S. cbv zeta in S. rewrite S. clear S.
  rewrite Y, B. split.
  - repeat match goal with |- context [if ?c then _ else _] => destruct c end; lia.
  - intros marker I N1 N2 M. apply Z.ltb_lt.
    cbn in I.
    repeat (destruct I as [<- | I]; [try congruence; rewrite M;
      repeat match goal with |- context [if ?c then _ else _] => destruct c end; lia|]).
    contradiction.
Qed.

Lemma yes_but_counts_twice_witness :
  (2 <= resistanceScore toLowerCase "Yes but not now")%Z.
Proof.
  apply (proj1 (yes_but_counts_twice toLowerCase "Yes but not now" eq_refl)).
Defined.

End EscalationFacts.

(** ** brutal-interventions.js: [InterventionABTester] *)

Module ABTester.
Import Js.

Definition styles : list string :=
  ["brutal_numbers"; "personal_attack"; "peer_comparison";
   "future_projection"; "legacy_destroyer"; "public_shame"].

(** [this.styles[index]]: defined for the integers 0 to 5 *)
Definition style_at (index : num) : option string :=
  match index with
  | Fin q =>
      if Qeq_bool q (inject_Z (Qfloor q)) && (0 <=? Qfloor q)%Z
      then nth_error styles (Z.to_nat (Qfloor q))
      else None
  | _ => None
  end.

(** Row of [intervention_effectiveness] as selected here; the column may
    be [null]. *)
Record HistoryRow : Type := { delivery_style : option string }.

Section Select.
(** [Math_random n] is what the call number [n] of [Math.random()] returns. *)
Variable Math_random : nat -> num.

Definition random_style (call : nat) : option string :=
  style_at (floor (mul (Math_random call) (of_nat (length styles)))).

(** The rows of [history] come in descending order of effectiveness. *)
Definition selectInterventionStyle (history : Reply (list HistoryRow))
    : completion (option string) :=
  do data <- await history;
  match data with
  | Some (best :: _) =>
      if lt (Math_random 0) (Fin 0.7) then Normal (delivery_style best)
      else Normal (random_style 1)
  | _ => Normal (random_style 0)
  end.
End Select.

End ABTester.

(** [Math.random()] returns a number in [0, 1). *)
Definition unit_draw (a : Js.num) : Prop :=
  match a with
  | Js.Fin q => 0 <= q /\ q < 1
  | _ => False
  end.

Section ABTesterFacts.
Import Js ABTester.

Lemma style_at_index (z : Z) :
  (0 <= z < 6)%Z -> exists style, style_at (of_Z z) = Some style /\ In style styles.
Proof.
  intro B. unfold style_at, of_Z. rewrite Qfloor_Z.
  assert (Qeq_bool (inject_Z z) (inject_Z z) = true) as ->
    by (apply Qeq_bool_iff; reflexivity).
  assert ((0 <=? z)%Z = true) as -> by (apply Z.leb_le; lia).
  cbn [andb].
  assert (z = 0 \/ z = 1 \/ z = 2 \/ z = 3 \/ z = 4 \/ z = 5)%Z as C by lia.
  destruct C as [-> | [-> | [-> | [-> | [-> | ->]]]]];
    eexists; (split; [reflexivity | cbn; tauto]).
Qed.

Lemma random_style_defined (Math_random : nat -> num) (call : nat) :
  unit_draw (Math_random call) ->
  exists style, random_style Math_random call = Some style /\ In style styles.
Proof.
  unfold random_style, unit_draw.
  destruct (Math_random call) as [| | |q]; try tauto. intros [L U].
  cbn [length styles of_nat mul floor].
  change (Fin (inject_Z (Qfloor (q * inject_Z (Z.of_nat 6)))))
    with (of_Z (Qfloor (q * inject_Z 6))).
  apply style_at_index.
  change (inject_Z 6) with 6.
  pose proof (Qfloor_le (q * 6)) as F.
  assert (0 <= Qfloor (q * 6))%Z.
  { change 0%Z with (Qfloor 0). apply Qfloor_resp_le. lra. }
  assert (inject_Z (Qfloor (q * 6)) < inject_Z 6) as G
    by (change (inject_Z 6) with 6; lra).
  rewrite <- Zlt_Qlt in G. lia.
Qed.

(** X9.  With draws in [0, 1) the style chosen at random is always one of the
    six styles, never [undefined].  The call returns the delivery style of
    the most effective row only when there is history and the first draw is
    below 0.7; it throws only when the query is rejected. *)
Theorem selected_style_is_defined :
  forall (Math_random : nat -> num) (history : Reply (list HistoryRow)),
    (forall call, unit_draw (Math_random call)) ->
    match selectInterventionStyle Math_random history with
    | Normal chosen =>
        (exists style, chosen = Some style /\ In style styles)
        \/ (exists best rest error,
               history = Resolved (Some (best :: rest)) error
               /\ lt (Math_random 0%nat) (Fin 0.7) = true
               /\ chosen = delivery_style best)
    | Threw => history = Rejected
    end.
Proof.
  intros Math_random history D. unfold selectInterventionStyle.
  destruct history as [[[|best rest]|] error|]; cbn [await bind]; try reflexivity.
  - left. apply random_style_defined, D.
  - destruct (lt (Math_random 0%nat) (Fin 0.7)) eqn:L.
    + right. now exists best, rest, error.
    + left. apply random_style_defined, D.
  - left. apply random_style_defined, D.
Qed.

Lemma selected_style_is_defined_witness :
  match selectInterventionStyle (fun _ => Fin 0.95)
          (Resolved (Some [{| delivery_style := None |}]) false) with
  | Normal chosen =>
      (exists style, chosen = Some style /\ In style styles)
      \/ (exists best rest error,
             Resolved (Some [{| delivery_style := None |}]) false
             = Resolved (Some (best :: rest)) error
             /\ lt (Fin 0.95) (Fin 0.7) = true
             /\ chosen = delivery_style best)
  | Threw => Resolved (Some [{| delivery_style := None |}]) false = Rejected
  end.
Proof.
  apply (selected_style_is_defined (fun _ => Fin 0.95)
           (Resolved (Some [{| delivery_style := None |}]) false)).
  intro call. cbn. lra.
Defined.

End ABTesterFacts.

(** ** api/analyze.js: the circuit breaker and the routes behind it *)

Module Breaker.
Import Js.

(** One entry of [circuitBreakers] *)
Record State : Type := {
  failures : Z;
  lastFailure : option Z;
  isOpen : bool
}.

Definition initial : State :=
  {| failures := 0; lastFailure := None; isOpen := false |}.

(** The two readings of [Date.now()] in one call of [withCircuitBreaker]:
    at the start, and when the operation has failed. *)
Record Clock : Type := {
  at_start : Z;
  at_failure : Z
}.

(** What one call of [withCircuitBreaker] did *)
Record Outcome (A : Type) : Type := {
  result : completion (option A);
  breaker_after : State;
  (* the operation was started *)
  ran : bool
}.
Arguments result {A}.
Arguments breaker_after {A}.
Arguments ran {A}.

Section WithCircuitBreaker.
Context {A : Type}.

(** [operation] is what the operation does if it is started: it returns a
    value ([None] for [null] or [undefined]) or throws.  [fallback] is the
    value of [fallback()], if a fallback was passed. *)
Definition withCircuitBreaker (breaker : State) (clock : Clock)
    (operation : completion (option A)) (fallback : option (option A))
    : Outcome A :=
  let timeSinceFailure :=
    (at_start clock - match lastFailure breaker with Some t => t | None => 0 end)%Z in
  if isOpen breaker && (timeSinceFailure <? 30000)%Z then
    {| result := Normal (match fallback with Some value => value | None => None end);
       breaker_after := breaker;
       ran := false |}
  else
    match operation with
    | Normal value =>
        {| result := Normal value;
           breaker_after := {| failures := 0;
                               lastFailure := lastFailure breaker;
                               isOpen := false |};
           ran := true |}
    | Threw =>
        {| result := match fallback with
                     | Some value => Normal value
                     | None => Threw
                     end;
           breaker_after := {| failures := failures breaker + 1;
                               lastFailure := Some (at_failure clock);
                               isOpen := (3 <=? failures breaker + 1)%Z |};
           ran := true |}
    end.
End WithCircuitBreaker.

(** [getServiceHealth().supabase] *)
Definition getServiceHealth (breaker : State) : bool := negb (isOpen breaker).

(** Answer of a route *)
Inductive Response (Row : Type) : Type :=
| Tracked
| Patterns (patterns : list Row) (count : nat)
| Refused (status : Z) (error : string).
Arguments Tracked {Row}.
Arguments Patterns {Row} patterns count.
Arguments Refused {Row} status error.

Definition status {Row} (r : Response Row) : Z :=
  match r with
  | Tracked => 200%Z
  | Patterns _ _ => 200%Z
  | Refused code _ => code
  end.

(** What a route did: its answer, the breaker afterwards, and whether the
    datastore call was sent. *)
Record Handled (Row : Type) : Type := {
  response : Response Row;
  breaker_left : State;
  sent : bool
}.
Arguments response {Row}.
Arguments breaker_left {Row}.
Arguments sent {Row}.

(** [handleTrackOutcome]: [insert] is the reply of the datastore to the
    insert, if it is sent.  [req_body] is [req.body], [None] when the
    request carries no parsed body: [const { tracking_id, outcome } =
    req.body] is the first statement of the [try] block and throws on it,
    which the [catch] answers with status 500. *)
Definition handleTrackOutcome (breaker : State) (clock : Clock) (insert : Reply unit)
    (req_body : option Engine.TrackBody) : Handled unit :=
  match req_body with
  | None =>
      {| response := Refused 500 "Failed to track outcome";
         breaker_left := breaker;
         sent := false |}
  | Some body =>
  match truthy_str (Engine.tracking_id body), Engine.outcome body with
  | true, Some _ =>
      let done :=
        withCircuitBreaker breaker clock
          (match insert with
           | Resolved _ _ => Normal (@None unit)
           | Rejected => Threw
           end) None in
      {| response := match result done with
                     | Normal _ => Tracked
                     | Threw => Refused 500 "Failed to track outcome"
                     end;
         breaker_left := breaker_after done;
         sent := ran done |}
  | _, _ =>
      {| response := Refused 400 "Missing required fields: tracking_id, outcome";
         breaker_left := breaker;
         sent := false |}
  end
  end.

(** [handleGetPatterns]: [query] is the reply to the [user_patterns]
    query, if it is sent.  [patterns.length] throws when the operation
    returned [null]. *)
Definition handleGetPatterns {Row : Type} (breaker : State) (clock : Clock)
    (query : Reply (list Row)) (userId : option string) : Handled Row :=
  if truthy_str userId then
    let done :=
      withCircuitBreaker breaker clock
        (match query with
         | Resolved data _ => Normal data
         | Rejected => Threw
         end) (Some (Some [])) in
    {| response := match result done with
                   | Normal (Some patterns) => Patterns patterns (length patterns)
                   | Normal None => Refused 500 "Failed to fetch patterns"
                   | Threw => Refused 500 "Failed to fetch patterns"
                   end;
       breaker_left := breaker_after done;
       sent := ran done |}
  else {| response := Refused 400 "Missing userId parameter";
          breaker_left := breaker;
          sent := false |}.

(** A request handled by one of the two routes that share the breaker of
    the datastore *)
Inductive Request (Row : Type) : Type :=
| TrackOutcome (clock : Clock) (insert : Reply unit) (body : option Engine.TrackBody)
| GetPatterns (clock : Clock) (query : Reply (list Row)) (userId : option string).
Arguments TrackOutcome {Row} clock insert body.
Arguments GetPatterns {Row} clock query userId.

Definition started {Row} (request : Request Row) : Z :=
  match request with
  | TrackOutcome clock _ _ => at_start clock
  | GetPatterns clock _ _ => at_start clock
  end.

(** The status, the breaker afterwards, and whether the datastore was
    called *)
Definition handle {Row} (breaker : State) (request : Request Row)
    : Z * State * bool :=
  match request with
  | TrackOutcome clock insert body =>
      let h := handleTrackOutcome breaker clock insert body in
      (status (response h), breaker_left h, sent h)
  | GetPatterns clock query userId =>
      let h := handleGetPatterns breaker clock query userId in
      (status (response h), breaker_left h, sent h)
  end.

(** The breaker after a sequence of requests *)
Definition serve {Row} (breaker : State) (requests : list (Request Row)) : State :=
  fold_left (fun b request => snd (fst (handle b request))) requests breaker.

End Breaker.

(** The breaker of the datastore after any number of requests *)
Inductive served (Row : Type) : Breaker.State -> Prop :=
| served_none : served Row Breaker.initial
| served_request breaker request :
    served Row breaker ->
    served Row (snd (fst (Breaker.handle (Row := Row) breaker request))).

(** The circuit is open and the request starts less than 30 seconds after
    the last failure. *)
Definition cooling (breaker : Breaker.State) (now : Z) : bool :=
  Breaker.isOpen breaker
  && (now - match Breaker.lastFailure breaker with Some t => t | None => 0%Z end
      <? 30000)%Z.

(** The datastore rejects the call of the request, and the request is
    well formed. *)
Definition rejected_request {Row} (request : Breaker.Request Row) : Prop :=
  match request with
  | Breaker.TrackOutcome _ insert (Some body) =>
      insert = Js.Rejected
      /\ Js.truthy_str (Engine.tracking_id body) = true
      /\ Engine.outcome body <> None
  | Breaker.TrackOutcome _ _ None => False
  | Breaker.GetPatterns _ query userId =>
      query = Js.Rejected /\ Js.truthy_str userId = true
  end.

(** The fields that the route checks are present. *)
Definition well_formed {Row} (request : Breaker.Request Row) : bool :=
  match request with
  | Breaker.TrackOutcome _ _ (Some body) =>
      Js.truthy_str (Engine.tracking_id body)
      && match Engine.outcome body with Some _ => true | None => false end
  | Breaker.TrackOutcome _ _ None => false
  | Breaker.GetPatterns _ _ userId => Js.truthy_str userId
  end.

(** The request has what the route destructures: [req.body] for an outcome,
    [req.query] (always an object) for the patterns. *)
Definition has_body {Row} (request : Breaker.Request Row) : bool :=
  match request with
  | Breaker.TrackOutcome _ _ None => false
  | _ => true
  end.

Definition failure_time {Row} (request : Breaker.Request Row) : Z :=
  match request with
  | Breaker.TrackOutcome clock _ _ => Breaker.at_failure clock
  | Breaker.GetPatterns clock _ _ => Breaker.at_failure clock
  end.

Definition full_outcome : Engine.Outcome :=
  {| Engine.action_taken := true; Engine.revenue_impact := Js.Fin 500;
     Engine.pattern_broken := true; Engine.breakthrough := true |}.

Definition track_request : Engine.TrackBody :=
  {| Engine.tracking_id := Some "t1"; Engine.outcome := Some full_outcome |}.

(** A breaker that opened at time 1000 *)
Definition opened_breaker : Breaker.State :=
  {| Breaker.failures := 3; Breaker.lastFailure := Some 1000%Z; Breaker.isOpen := true |}.

Section BreakerFacts.
Import Js Breaker.

Lemma withCircuitBreaker_cooling {A} breaker clock (operation : completion (option A))
    fallback :
  cooling breaker (at_start clock) = true ->
  withCircuitBreaker breaker clock operation fallback
  = {| result := Normal (match fallback with Some value => value | None => None end);
       breaker_after := breaker;
       ran := false |}.
Proof.
  unfold cooling, withCircuitBreaker. intros ->. reflexivity.
Qed.

Lemma withCircuitBreaker_running {A} breaker clock (operation : completion (option A))
    fallback :
  cooling breaker (at_start clock) = false ->
  withCircuitBreaker breaker clock operation fallback
  = match operation with
    | Normal value =>
        {| result := Normal value;
           breaker_after := {| failures := 0;
                               lastFailure := lastFailure breaker;
                               isOpen := false |};
           ran := true |}
    | Threw =>
        {| result := match fallback with
                     | Some value => Normal value
                     | None => Threw
                     end;
           breaker_after := {| failures := failures breaker + 1;
                               lastFailure := Some (at_failure clock);
                               isOpen := (3 <=? failures breaker + 1)%Z |};
           ran := true |}
    end.
Proof.
  unfold cooling, withCircuitBreaker. intros ->. reflexivity.
Qed.

Definition consistent (breaker : State) : Prop :=
  isOpen breaker = (3 <=? failures breaker)%Z
  /\ (0 <= failures breaker)%Z
  /\ ((0 < failures breaker)%Z -> lastFailure breaker <> None).

Lemma withCircuitBreaker_consistent {A} breaker clock
    (operation : completion (option A)) fallback :
  consistent breaker ->
  consistent (breaker_after (withCircuitBreaker breaker clock operation fallback)).
Proof.
  intros (O & F & L).
  destruct (cooling breaker (at_start clock)) eqn:C.
  - rewrite withCircuitBreaker_cooling by exact C. cbn. repeat split; assumption.
  - rewrite withCircuitBreaker_running by exact C.
    destruct operation as [value|]; cbn [breaker_after]; unfold consistent;
      cbn [isOpen failures lastFailure].
    + split; [reflexivity|]. split; [lia|]. intro H. lia.
    + split; [reflexivity|]. split; [lia|]. intros _. discriminate.
Qed.

Lemma handle_consistent {Row} breaker (request : Request Row) :
  consistent breaker -> consistent (snd (fst (handle breaker request))).
Proof.
  intro C. destruct request as [clock insert body | clock query user]; cbn [handle fst snd].
  - unfold handleTrackOutcome. destruct body as [body|]; [|exact C].
    destruct (truthy_str (Engine.tracking_id body)), (Engine.outcome body);
      cbn [breaker_left]; try exact C.
    now apply withCircuitBreaker_consistent.
  - unfold handleGetPatterns. destruct (truthy_str user); cbn [breaker_left]; try exact C.
    now apply withCircuitBreaker_consistent.
Qed.

Lemma breaker_consistent (Row : Type) (breaker : State) :
  served Row breaker -> consistent breaker.
Proof.
  induction 1 as [|breaker request S IH].
  - unfold consistent, initial. cbn [isOpen failures lastFailure].
    split; [reflexivity|]. split; lia.
  - now apply handle_consistent.
Qed.

(** X10.  After any number of requests the circuit is open exactly when the
    failure count is at least 3, the count is not negative, and the time of
    the last failure is known once there was one; so the health export
    reports the datastore as down exactly from the third failure in a row. *)
Theorem breaker_open_from_three_failures :
  forall (Row : Type) (breaker : State),
    served Row breaker ->
    isOpen breaker = (3 <=? failures breaker)%Z
    /\ (0 <= failures breaker)%Z
    /\ ((0 < failures breaker)%Z -> lastFailure breaker <> None)
    /\ getServiceHealth breaker = (failures breaker <? 3)%Z.
Proof.
  intros Row breaker S.
  destruct (breaker_consistent Row breaker S) as (O & F & L).
  repeat split; try assumption.
  unfold getServiceHealth. rewrite O.
  destruct (3 <=? failures breaker)%Z eqn:E; symmetry; cbn.
  - apply Z.ltb_ge. now apply Z.leb_le.
  - apply Z.ltb_lt. now apply Z.leb_gt.
Qed.

(** Three rejected queries, 10 milliseconds apart *)
Definition three_rejections : list (Request unit) :=
  [GetPatterns {| at_start := 0; at_failure := 5 |} Rejected (Some "u1");
   GetPatterns {| at_start := 10; at_failure := 15 |} Rejected (Some "u1");
   GetPatterns {| at_start := 20; at_failure := 25 |} Rejected (Some "u1")].

Lemma served_serve {Row} (requests : list (Request Row)) :
  forall breaker, served Row breaker -> served Row (serve breaker requests).
Proof.
  induction requests as [|request requests IH]; intros breaker S; [exact S|].
  apply IH. now constructor.
Qed.

Lemma breaker_open_from_three_failures_witness :
  isOpen (serve initial three_rejections)
  = (3 <=? failures (serve initial three_rejections))%Z.
Proof.
  apply (breaker_open_from_three_failures unit).
  apply served_serve, served_none.
Defined.

Lemma handle_cooling {Row} breaker (request : Request Row) :
  cooling breaker (started request) = true ->
  handle breaker request
  = ((if well_formed request then 200 else if has_body request then 400 else 500)%Z,
     breaker, false).
Proof.
  intro C. destruct request as [clock insert [body|] | clock query user];
    cbn [handle started well_formed has_body] in *; [|reflexivity|].
  - unfold handleTrackOutcome.
    destruct (truthy_str (Engine.tracking_id body)), (Engine.outcome body);
      try reflexivity.
    rewrite withCircuitBreaker_cooling by exact C. reflexivity.
  - unfold handleGetPatterns. destruct (truthy_str user); try reflexivity.
    rewrite withCircuitBreaker_cooling by exact C. reflexivity.
Qed.

(** X11.  While the circuit is open and less than 30 seconds have passed since
    the last failure, no request reaches the datastore and the breaker
    stays as it is; a well-formed request is still answered with status
    200: an outcome is reported as tracked although no insert was sent, and
    the list of patterns comes back empty.  A request with a missing field
    is answered 400, a track-outcome request without a body 500. *)
Theorem open_circuit_answers_without_datastore :
  forall (Row : Type) (breaker : State) (requests : list (Request Row)),
    Forall (fun request => cooling breaker (started request) = true) requests ->
    serve breaker requests = breaker
    /\ Forall (fun request =>
                 handle breaker request
                 = ((if well_formed request then 200
                     else if has_body request then 400 else 500)%Z,
                    breaker, false))
              requests
    /\ (forall clock insert body,
           In (TrackOutcome clock insert body) requests ->
           well_formed (TrackOutcome (Row := Row) clock insert body) = true ->
           response (handleTrackOutcome breaker clock insert body) = Tracked
           /\ sent (handleTrackOutcome breaker clock insert body) = false)
    /\ (forall clock query user,
           In (GetPatterns clock query user) requests ->
           well_formed (GetPatterns clock query user) = true ->
           response (handleGetPatterns breaker clock query user) = Patterns [] 0
           /\ sent (handleGetPatterns breaker clock query user) = false).
Proof.
  intros Row breaker requests F. split; [|split; [|split]].
  - induction F as [|request requests C F IH]; [reflexivity|].
    unfold serve. cbn [fold_left]. rewrite handle_cooling by exact C. exact IH.
  - eapply List.Forall_impl; [|exact F]. intros request C. now apply handle_cooling.
  - intros clock insert body I W. rewrite List.Forall_forall in F.
    specialize (F _ I). cbn [started] in F. destruct body as [body|]; [|discriminate W].
    cbn [well_formed] in W. unfold handleTrackOutcome.
    destruct (truthy_str (Engine.tracking_id body)), (Engine.outcome body);
      try discriminate.
    rewrite withCircuitBreaker_cooling by exact F. split; reflexivity.
  - intros clock query user I W. rewrite List.Forall_forall in F.
    specialize (F _ I). cbn [started] in F. cbn [well_formed] in W.
    unfold handleGetPatterns. rewrite W.
    rewrite withCircuitBreaker_cooling by exact F. split; reflexivity.
Qed.

Lemma open_circuit_answers_without_datastore_witness :
  response (handleTrackOutcome opened_breaker {| at_start := 20000; at_failure := 20001 |}
              (Resolved None false) (Some track_request)) = Tracked
  /\ sent (handleTrackOutcome opened_breaker {| at_start := 20000; at_failure := 20001 |}
             (Resolved None false) (Some track_request)) = false.
Proof.
  destruct (open_circuit_answers_without_datastore unit opened_breaker
              [TrackOutcome {| at_start := 20000; at_failure := 20001 |}
                 (Resolved None false) (Some track_request)]) as (_ & _ & T & _).
  - repeat constructor.
  - apply T; [left; reflexivity | reflexivity].
Defined.

Lemma handle_rejected {Row} breaker (request : Request Row) :
  rejected_request request -> cooling breaker (started request) = false ->
  snd (fst (handle breaker request))
  = {| failures := failures breaker + 1;
       lastFailure := Some (failure_time request);
       isOpen := (3 <=? failures breaker + 1)%Z |}.
Proof.
  intros R C. destruct request as [clock insert [body|] | clock query user];
    cbn [handle started failure_time rejected_request fst snd] in *; [|contradiction|].
  - destruct R as (-> & T & O). unfold handleTrackOutcome. rewrite T.
    destruct (Engine.outcome body); [|congruence].
    rewrite withCircuitBreaker_running by exact C. reflexivity.
  - destruct R as (-> & T). unfold handleGetPatterns. rewrite T.
    rewrite withCircuitBreaker_running by exact C. reflexivity.
Qed.

Lemma serve_rejected {Row} (requests : list (Request Row)) :
  forall breaker,
    consistent breaker -> Forall rejected_request requests ->
    isOpen (serve breaker requests)
    = isOpen breaker || (3 <=? failures breaker + Z.of_nat (length requests))%Z.
Proof.
  induction requests as [|request requests IH]; intros breaker K F.
  - cbn [serve fold_left length]. destruct K as (O & _). rewrite O, Z.add_0_r.
    now destruct (3 <=? failures breaker)%Z.
  - inversion F as [|? ? R F']; subst.
    unfold serve. cbn [fold_left].
    fold (serve (snd (fst (handle breaker request))) requests).
    rewrite IH; [|now apply handle_consistent | exact F'].
    destruct (cooling breaker (started request)) eqn:C.
    + rewrite handle_cooling by exact C. cbn [fst snd].
      unfold cooling in C. apply andb_true_iff in C. destruct C as [-> _]. reflexivity.
    + rewrite handle_rejected by assumption. cbn [isOpen failures].
      destruct K as (O & P & _). rewrite O. cbn [length].
      destruct (3 <=? failures breaker + 1)%Z eqn:E1;
        destruct (3 <=? failures breaker)%Z eqn:E2;
        destruct (3 <=? failures breaker + 1 + Z.of_nat (length requests))%Z eqn:E3;
        destruct (3 <=? failures breaker + Z.of_nat (S (length requests)))%Z eqn:E4;
        try reflexivity;
        repeat match goal with
               | H : (_ <=? _)%Z = true |- _ => apply Z.leb_le in H
               | H : (_ <=? _)%Z = false |- _ => apply Z.leb_gt in H
               end; lia.
Qed.

(** X12.  Starting from a breaker without failures, a run of well-formed
    requests that the datastore rejects leaves the circuit open exactly
    when the run has at least three requests; a request that runs and is
    answered by the datastore, be it with an error, sets the count back to
    zero. *)
Theorem third_rejection_opens_circuit :
  forall (Row : Type) (breaker : State) (requests : list (Request Row)),
    served Row breaker ->
    failures breaker = 0%Z ->
    Forall rejected_request requests ->
    isOpen (serve breaker requests) = (3 <=? length requests)%nat
    /\ (forall clock (data : option unit) error body,
           well_formed (TrackOutcome (Row := Row) clock (Resolved data error) body) = true ->
           cooling (serve breaker requests) (at_start clock) = false ->
           let h := handleTrackOutcome (serve breaker requests) clock
                      (Resolved data error) body in
           sent h = true /\ failures (breaker_left h) = 0%Z
           /\ isOpen (breaker_left h) = false).
Proof.
  intros Row breaker requests S Z0 F.
  pose proof (breaker_consistent Row breaker S) as K. split.
  - rewrite serve_rejected by assumption.
    destruct K as (O & _). rewrite O, Z0. cbn [orb Z.leb Z.compare].
    destruct (3 <=? length requests)%nat eqn:E.
    + apply Nat.leb_le in E. apply Z.leb_le. lia.
    + apply Nat.leb_gt in E. apply Z.leb_gt. lia.
  - intros clock data error body W C h. unfold h, handleTrackOutcome.
    destruct body as [body|]; [|discriminate W]. cbn [well_formed] in W.
    destruct (truthy_str (Engine.tracking_id body)), (Engine.outcome body);
      try discriminate.
    rewrite withCircuitBreaker_running by exact C. repeat split.
Qed.

Lemma third_rejection_opens_circuit_witness :
  isOpen (serve initial three_rejections) = (3 <=? length three_rejections)%nat.
Proof.
  apply (third_rejection_opens_circuit unit initial three_rejections).
  - apply served_none.
  - reflexivity.
  - repeat constructor.
Defined.

(** X13.  [handleTrackOutcome] answers 400 exactly when the request has a
    body and a field of it is missing, and 500 exactly when the request has
    no body or the insert was sent and rejected; the insert is sent exactly
    when both fields are there and the circuit is not cooling.  An insert
    that the datastore answers with an error is reported as tracked, and so
    is one that was not sent because the circuit is open.  A request
    without a body leaves the breaker as it is. *)
Theorem track_outcome_status :
  forall (breaker : State) (clock : Clock) (insert : Reply unit)
         (body : option Engine.TrackBody),
    let h := handleTrackOutcome breaker clock insert body in
    let complete := well_formed (TrackOutcome (Row := unit) clock insert body) in
    (status (response h) = 400%Z <-> body <> None /\ complete = false)
    /\ (status (response h) = 500%Z
        <-> body = None
            \/ (complete = true /\ cooling breaker (at_start clock) = false
                /\ insert = Rejected))
    /\ (response h = Tracked
        <-> complete = true
            /\ (cooling breaker (at_start clock) = true \/ insert <> Rejected))
    /\ (sent h = true <-> complete = true /\ cooling breaker (at_start clock) = false)
    /\ (body = None ->
        h = {| response := Refused 500 "Failed to track outcome";
               breaker_left := breaker;
               sent := false |}).
Proof.
  intros breaker clock insert body h complete. subst h complete.
  unfold handleTrackOutcome. destruct body as [body|]; cbn [well_formed].
  2:{ cbn [status response sent].
      repeat split; intros; try discriminate; try tauto;
        repeat match goal with H : _ /\ _ |- _ => destruct H end;
        try discriminate; congruence. }
  destruct (truthy_str (Engine.tracking_id body)), (Engine.outcome body) as [reported|];
    cbn [andb status response sent];
    try (repeat split; intros; try discriminate; try tauto;
         repeat match goal with
                | H : _ /\ _ |- _ => destruct H
                | H : _ \/ _ |- _ => destruct H
                end; discriminate).
  destruct (cooling breaker (at_start clock)) eqn:C.
  - rewrite withCircuitBreaker_cooling by exact C. cbn [result ran status].
    repeat split; intros; try discriminate; try tauto;
      repeat match goal with
             | H : _ /\ _ |- _ => destruct H
             | H : _ \/ _ |- _ => destruct H
             end; discriminate.
  - rewrite withCircuitBreaker_running by exact C.
    destruct insert as [data error|]; cbn [result ran status].
    + repeat split; intros; try discriminate; try tauto;
        try (right; discriminate);
        repeat match goal with
               | H : _ /\ _ |- _ => destruct H
               | H : _ \/ _ |- _ => destruct H
               end; discriminate.
    + repeat split; intros; try discriminate; try tauto;
        repeat match goal with
               | H : _ /\ _ |- _ => destruct H
               | H : _ \/ _ |- _ => destruct H
               end; try discriminate; try congruence; tauto.
Qed.

(** X14.  [handleGetPatterns] answers a rejected query, and any query while the
    circuit is open, with status 200 and an empty list; a query that the
    datastore answers without data makes it answer 500, and the breaker
    counts that as a success.  The count sent is the length of the list. *)
Theorem get_patterns_status :
  forall (Row : Type) (breaker : State) (clock : Clock) (query : Reply (list Row))
         (user : option string),
    let h := handleGetPatterns breaker clock query user in
    (status (response h) = 400%Z <-> truthy_str user = false)
    /\ (truthy_str user = true ->
        (cooling breaker (at_start clock) = true \/ query = Rejected ->
         response h = Patterns [] 0)
        /\ (cooling breaker (at_start clock) = false ->
            forall error,
              query = Resolved None error ->
              status (response h) = 500%Z /\ failures (breaker_left h) = 0%Z)
        /\ (cooling breaker (at_start clock) = false ->
            forall rows error,
              query = Resolved (Some rows) error ->
              response h = Patterns rows (length rows)))
    /\ (forall rows count, response h = Patterns rows count -> count = length rows).
Proof.
  intros Row breaker clock query user h. subst h. unfold handleGetPatterns.
  destruct (truthy_str user); cbn [status response].
  - destruct (cooling breaker (at_start clock)) eqn:C.
    + rewrite withCircuitBreaker_cooling by exact C. cbn [result breaker_after].
      split; [split; discriminate|]. split.
      * intros _. split; [reflexivity|]. split; discriminate.
      * intros rows count [= <- <-]. reflexivity.
    + rewrite withCircuitBreaker_running by exact C.
      destruct query as [[rows|] error|]; cbn [result breaker_after status failures].
      * split; [split; discriminate|]. split.
        -- intros _. split; [intros [H|H]; discriminate|].
           split; [discriminate|]. intros _ rows' error' [= <- <-]. reflexivity.
        -- intros rows' count [= <- <-]. reflexivity.
      * split; [split; discriminate|]. split.
        -- intros _. split; [intros [H|H]; discriminate|].
           split; [intros; split; reflexivity | discriminate].
        -- discriminate.
      * split; [split; discriminate|]. split.
        -- intros _. split; [reflexivity|]. split; discriminate.
        -- intros rows count [= <- <-]. reflexivity.
  - split; [split; reflexivity|]. split; [discriminate|]. discriminate.
Qed.

Lemma get_patterns_status_witness :
  response (handleGetPatterns (Row := unit) initial {| at_start := 0; at_failure := 5 |}
              Rejected (Some "u1")) = Patterns [] 0.
Proof.
  apply (proj1 (proj1 (proj2 (get_patterns_status unit initial
                                {| at_start := 0; at_failure := 5 |}
                                Rejected (Some "u1"))) eq_refl)).
  right. reflexivity.
Defined.

End BreakerFacts.

(** ** celeste7-real-engine.js: the analyze route as a whole *)

(** What [analyzeUser] has detected when it reaches the intervention step *)
Definition gathered_detection (Math_sqrt : Js.num -> Js.num)
    (cached : option Engine.Profile) (up : Engine.Upstream)
    : Js.completion (list Engine.Pattern) :=
  do behavioralHistory <- Engine.getUserBehavioralProfile cached up;
  do businessMetrics <- Engine.getBusinessTruth up;
  do competitorAnalysis <- Engine.getCompetitiveReality up;
  do effectiveness <- Js.await (Engine.intervention_effectiveness up);
  do breakthroughData <- Js.await (Engine.user_breakthroughs up);
  Engine.detectDataDrivenPatterns Math_sqrt businessMetrics competitorAnalysis up.

Definition launch_request : Body :=
  {| userId := Some "u1"; message := Some "I will launch tomorrow" |}.

Section EngineRoute.
Import Js Engine.
Variable Math_sqrt : num -> num.
Variable uuidv4 : string.
Variable Math_random : num.
Variable generateBaseIntervention : Pattern -> string.
Variable addUncomfortableSpecifics : string -> Pattern -> BusinessMetrics -> string * string.

Lemma analyzeUser_by_detection cached up :
  analyzeUser Math_sqrt uuidv4 Math_random generateBaseIntervention
    addUncomfortableSpecifics cached up
  = match gathered_detection Math_sqrt cached up with
    | Normal [] =>
        do profile <- getUserBehavioralProfile cached up;
        Normal {| patterns := [];
                  intervention := Neutral uuidv4;
                  analysis_confidence := calculateRealConfidence [] profile;
                  should_intervene := false |}
    | _ => Threw
    end.
Proof.
  unfold analyzeUser, gathered_detection.
  destruct (getUserBehavioralProfile cached up) as [profile|]; [|reflexivity].
  destruct (getBusinessTruth up) as [metrics|]; [|reflexivity].
  destruct (getCompetitiveReality up) as [analysis|]; [|reflexivity].
  destruct (intervention_effectiveness up) as [effectiveness e1|]; [|reflexivity].
  destruct (user_breakthroughs up) as [breakthroughData e2|]; [|reflexivity].
  cbn [bind await].
  destruct (detectDataDrivenPatterns Math_sqrt metrics analysis up) as [[|first rest]|];
    reflexivity.
Qed.

Lemma missing_fields_user body :
  missing_fields body = false -> exists user, userId body = Some user.
Proof.
  unfold missing_fields. destruct (userId body) as [user|]; [now exists user|].
  discriminate.
Qed.

Lemma limit_reflect (requests : option nat) :
  (30 <? match requests with Some n => n | None => O end)%nat = false
  <-> not_limited requests.
Proof.
  unfold not_limited. destruct requests as [n|].
  - rewrite Nat.ltb_ge. tauto.
  - split; [tauto | reflexivity].
Qed.

(** X15.  The engine's POST /api/analyze answers 400 exactly when a field is
    missing, 429 exactly when the request counter read from the cache is
    above 30, and otherwise 200 exactly when the detection ran and found
    nothing: as soon as one pattern is detected the intervention step
    throws and the answer is 500.  A 200 answer therefore never carries a
    pattern or an intervention. *)
Theorem engine_route_status :
  forall (requests : option nat) (cached : option Profile) (up : Upstream) (body : Body),
    let answer :=
      fst (analyze_route Math_sqrt uuidv4 Math_random generateBaseIntervention
             addUncomfortableSpecifics requests cached up body) in
    (status answer = 400%Z <-> missing_fields body = true)
    /\ (status answer = 429%Z
        <-> missing_fields body = false /\ ~ not_limited requests)
    /\ (status answer = 200%Z
        <-> missing_fields body = false /\ not_limited requests
            /\ gathered_detection Math_sqrt cached up = Normal [])
    /\ (status answer = 500%Z
        <-> missing_fields body = false /\ not_limited requests
            /\ gathered_detection Math_sqrt cached up <> Normal [])
    /\ (forall result,
           answer = Analysed result ->
           patterns result = [] /\ intervention result = Neutral uuidv4
           /\ should_intervene result = false).
Proof.
  intros requests cached up body answer. subst answer. unfold analyze_route.
  destruct (missing_fields body) eqn:M.
  - cbn [fst status].
    repeat split; intros; try discriminate; try tauto;
      repeat match goal with H : _ /\ _ |- _ => destruct H end; discriminate.
  - destruct (missing_fields_user body M) as (user & ->).
    pose proof (limit_reflect requests) as L.
    destruct (30 <? _)%nat.
    + cbn [fst status].
      assert (~ not_limited requests) as N by (intro H; apply L in H; discriminate).
      repeat split; intros; try discriminate; try tauto;
        repeat match goal with H : _ /\ _ |- _ => destruct H end;
        try discriminate; contradiction.
    + assert (not_limited requests) as N by now apply L.
      rewrite analyzeUser_by_detection.
      destruct (gathered_detection Math_sqrt cached up) as [[|first rest]|] eqn:G.
      * assert (exists profile, getUserBehavioralProfile cached up = Normal profile)
          as (profile & P).
        { unfold gathered_detection in G.
          destruct (getUserBehavioralProfile cached up) as [profile|]; [|discriminate].
          now exists profile. }
        rewrite P. cbn [bind fst status].
        repeat split; intros; try discriminate; try tauto;
          repeat match goal with H : _ /\ _ |- _ => destruct H end;
          try discriminate; try contradiction;
          try (match goal with H : Analysed _ = Analysed _ |- _ =>
                 injection H as <- end; reflexivity).
      * cbn [fst status].
        repeat split; intros; try discriminate; try tauto;
          repeat match goal with H : _ /\ _ |- _ => destruct H end;
          try discriminate; try contradiction.
      * cbn [fst status].
        repeat split; intros; try discriminate; try tauto;
          repeat match goal with H : _ /\ _ |- _ => destruct H end;
          try discriminate; try contradiction.
Qed.

End EngineRoute.

Lemma engine_route_status_witness :
  Engine.status
    (fst (Engine.analyze_route (fun x => x) "id" (Js.Fin 0) (fun _ => "base")
            (fun text _ _ => (text, "directive")) None None delaying_engine
            launch_request)) = 500%Z.
Proof.
  apply (proj1 (proj2 (proj2 (proj2
           (engine_route_status (fun x => x) "id" (Js.Fin 0) (fun _ => "base")
              (fun text _ _ => (text, "directive")) None None delaying_engine
              launch_request))))).
  split; [reflexivity|]. split; [exact I|].
  vm_compute. discriminate.
Defined.

(** ** celeste7-real-engine.js: scoring an outcome *)

Section EffectivenessFacts.
Import Js Engine.

(** The four conditions that [calculateEffectiveness] looks at *)
Definition conditions (reported : Outcome) : list bool :=
  [action_taken reported; gt (revenue_impact reported) (Fin 0);
   pattern_broken reported; breakthrough reported].

Lemma conditions_cases (a r p b : bool) (reported : Outcome) :
  action_taken reported = a -> gt (revenue_impact reported) (Fin 0) = r ->
  pattern_broken reported = p -> breakthrough reported = b ->
  conditions reported = [a; r; p; b]
  /\ calculateEffectiveness reported
     = min (add_if b weight_breakthrough
              (add_if p weight_pattern_broken
                 (add_if r weight_revenue_impact
                    (add_if a weight_action_taken (Fin 0))))) (Fin 1).
Proof.
  intros <- <- <- <-. split; reflexivity.
Qed.

(** X16.  The score is the sum of the weights of the conditions that hold (0.3
    for an action taken, 0.3 for a revenue impact above zero, 0.2 for a
    broken pattern, 0.2 for a breakthrough); it is 1 exactly when all four
    hold, the cap at 1 never cuts anything off, and a revenue impact that is
    zero, negative or missing counts for nothing. *)
Theorem effectiveness_is_weighted_count :
  forall reported : Outcome,
    exists q,
      calculateEffectiveness reported = Fin q
      /\ q == (if action_taken reported then 0.3 else 0)
              + (if gt (revenue_impact reported) (Fin 0) then 0.3 else 0)
              + (if pattern_broken reported then 0.2 else 0)
              + (if breakthrough reported then 0.2 else 0)
      /\ (q == 1 <-> Forall (fun c => c = true) (conditions reported))
      /\ (gt (revenue_impact reported) (Fin 0) = false -> q <= 0.7).
Proof.
  intro reported.
  destruct (action_taken reported) eqn:A;
    destruct (gt (revenue_impact reported) (Fin 0)) eqn:R;
    destruct (pattern_broken reported) eqn:P;
    destruct (breakthrough reported) eqn:B;
    destruct (conditions_cases _ _ _ _ reported A R P B) as [-> ->];
    (eexists; split; [vm_compute; reflexivity|]);
    (split; [reflexivity|]);
    (split; [split; [intro H; try (exfalso; vm_compute in H; discriminate H);
                     repeat constructor
                    | intro H; try reflexivity;
                      repeat match goal with
                             | H : Forall _ (_ :: _) |- _ => inversion H; clear H; subst
                             end; discriminate]
            | intro H; try discriminate H; vm_compute; discriminate]).
Qed.

End EffectivenessFacts.

(** ** celeste7-real-engine.js: what reaches the merged list *)

Section EngineListing.
Import Js Engine.
Variable Math_sqrt : num -> num.

Lemma In_merge_confident results p :
  In p (merge_confident results) ->
  exists name d,
    In (name, Some d) results
    /\ gt (confidence d) (Fin 0.7) = true
    /\ type p = name /\ pattern_severity p = severity d
    /\ pattern_confidence p = confidence d.
Proof.
  unfold merge_confident. rewrite in_flat_map.
  intros ([name [d|]] & I & H); cbn [fst snd] in H; [|destruct H].
  destruct (gt (confidence d) (Fin 0.7)) eqn:G; [|destruct H].
  destruct H as [<- | []]. exists name, d. repeat split; assumption.
Qed.

(** An entry of the merged list comes from one of the five detectors. *)
Lemma listed_origin metrics analysis up found p :
  detectDataDrivenPatterns Math_sqrt metrics analysis up = Normal found ->
  In p found ->
  exists d,
    gt (confidence d) (Fin 0.7) = true
    /\ pattern_severity p = severity d
    /\ pattern_confidence p = confidence d
    /\ ((type p = "procrastination"
         /\ ProcrastinationDetector_detect metrics up = Normal (Some d))
        \/ (type p = "pricing_cowardice"
            /\ PricingCowardiceDetector_detect metrics analysis = Some d)
        \/ (type p = "execution_paralysis"
            /\ ExecutionParalysisDetector_detect metrics analysis up = Normal (Some d))
        \/ (type p = "competitive_delusion"
            /\ CompetitiveDelusionDetector_detect metrics analysis = Some d)
        \/ (type p = "revenue_stagnation"
            /\ RevenueStagnationDetector_detect Math_sqrt metrics = Some d)).
Proof.
  unfold detectDataDrivenPatterns.
  destruct (run_detectors Math_sqrt metrics analysis up) as [results|] eqn:R;
    [|discriminate].
  cbn [bind]. intros [= <-] I.
  eapply Permutation_in in I; [|symmetry; apply sort_perm].
  apply In_merge_confident in I.
  destruct I as (name & d & I & G & T & S & C).
  exists d. repeat split; try assumption.
  revert R. unfold run_detectors.
  destruct (ProcrastinationDetector_detect metrics up) as [procrastination|] eqn:P;
    [|discriminate].
  destruct (ExecutionParalysisDetector_detect metrics analysis up) as [paralysis|] eqn:X;
    [|discriminate].
  cbn [bind]. intros [= <-].
  destruct I as [E | [E | [E | [E | [E | []]]]]]; injection E as <- E; rewrite T.
  - left. now subst.
  - right; left. now split.
  - right; right; left. now subst.
  - right; right; right; left. now split.
  - right; right; right; right. now split.
Qed.

Lemma gt_lower (a : num) (small large : Q) :
  small <= large -> gt a (Fin large) = true -> gt a (Fin small) = true.
Proof.
  intros L G. apply gt_Fin_r in G. destruct G as [-> | (q & -> & H)]; [reflexivity|].
  apply gt_Fin. lra.
Qed.

Lemma round_above (a : num) (z : Z) :
  gt a (Fin (inject_Z z)) = true -> ge (round a) (Fin (inject_Z z)) = true.
Proof.
  intro G. apply gt_Fin_r in G. destruct G as [-> | (q & -> & H)]; [reflexivity|].
  cbn [round ge]. apply Qle_bool_iff. rewrite <- Zle_Qle.
  rewrite <- (Qfloor_Z z). apply Qfloor_resp_le. lra.
Qed.

Lemma ge_gt (a : num) (x y : Q) : y < x -> ge a (Fin x) = true -> gt a (Fin y) = true.
Proof.
  intro L. destruct a as [| | |q]; cbn; try congruence.
  intro G. apply Qle_bool_iff in G. apply Qltb_lt. lra.
Qed.

Lemma graded_severity (c : num) :
  gt c (Fin 0.7) = true ->
  (if gt c (Fin 0.8) then critical else if gt c (Fin 0.6) then high else medium)
  <> medium.
Proof.
  intro G. destruct (gt c (Fin 0.8)); [discriminate|].
  rewrite (gt_lower c 0.6 0.7) by (try lra; exact G). discriminate.
Qed.

Lemma critical_if (condition : bool) :
  condition = true -> (if condition then critical else high) = critical.
Proof. now intros ->. Qed.

Lemma procrastination_severity metrics up d :
  ProcrastinationDetector_detect metrics up = Normal (Some d) ->
  gt (confidence d) (Fin 0.7) = true -> severity d <> medium.
Proof.
  unfold ProcrastinationDetector_detect.
  destruct (pending_tasks up) as [tasks e1|]; [|discriminate].
  destruct (user_feedback up) as [messages e2|]; [|discriminate].
  destruct (excuse_patterns up) as [excuses e3|]; [|discriminate].
  cbn [await bind].
  destruct (negb _ && negb _); [discriminate|].
  intros [= <-]. cbn [confidence severity]. intro G.
  exact (graded_severity _ G).
Qed.

Lemma pricing_severity metrics analysis d :
  PricingCowardiceDetector_detect metrics analysis = Some d ->
  gt (confidence d) (Fin 0.7) = true -> severity d = critical.
Proof.
  unfold PricingCowardiceDetector_detect.
  destruct (negb _ && negb _); [discriminate|].
  destruct (underpriced _) eqn:U; [|discriminate].
  cbn [negb]. intros [= <-]. cbn [confidence severity].
  revert U. unfold comparePricing.
  destruct (competitors analysis) as [|c rivals]; [discriminate|].
  destruct (List.map _ _) as [|price prices]; [discriminate|].
  cbn [underpriced comparison_confidence gapPercent]. intros _ G.
  rewrite capped_ratio_gt in G by lra.
  rewrite (gt_bound_eq _ (0.7 * 100) (inject_Z 70)) in G by reflexivity.
  apply round_above in G.
  apply (ge_gt _ (inject_Z 70) 50) in G; [|reflexivity].
  exact (critical_if _ G).
Qed.

Lemma other_severity (condition : bool) :
  (if condition then critical else high) <> medium.
Proof. destruct condition; discriminate. Qed.

Lemma execution_severity metrics analysis up d :
  ExecutionParalysisDetector_detect metrics analysis up = Normal (Some d) ->
  severity d <> medium.
Proof.
  unfold ExecutionParalysisDetector_detect.
  destruct (task_types up) as [tasks e1|]; [|discriminate].
  destruct (blocker_occurrences up) as [found e2|]; [|discriminate].
  cbn [await bind].
  destruct (lt _ _ && negb _); [discriminate|].
  intros [= <-]. apply other_severity.
Qed.

Lemma competitive_severity metrics analysis d :
  CompetitiveDelusionDetector_detect metrics analysis = Some d -> severity d <> medium.
Proof.
  unfold CompetitiveDelusionDetector_detect.
  destruct (length _ <? 5)%nat; [discriminate|].
  destruct (calculateRanking _ _) as [rank percentile].
  destruct (gt percentile (Fin 50)); [discriminate|].
  intros [= <-]. apply other_severity.
Qed.

Lemma stagnation_months (history : list num) :
  stagnation_confidence (analyzeStagnation Math_sqrt history)
  = (if isStagnant (analyzeStagnation Math_sqrt history)
     then min (div (of_nat (monthsStagnant (analyzeStagnation Math_sqrt history)))
                   (Fin 12)) (Fin 0.9)
     else Fin 0)
  /\ (monthsStagnant (analyzeStagnation Math_sqrt history) <= length history)%nat.
Proof.
  unfold analyzeStagnation. cbn [stagnation_confidence isStagnant monthsStagnant].
  destruct (lt _ _ && ge _ _).
  - split; [reflexivity | apply List.filter_length_le].
  - split; [reflexivity | lia].
Qed.

Lemma stagnation_severity metrics d :
  RevenueStagnationDetector_detect Math_sqrt metrics = Some d ->
  gt (confidence d) (Fin 0.7) = true ->
  severity d = critical /\ (9 <= length (revenue_history metrics))%nat.
Proof.
  unfold RevenueStagnationDetector_detect.
  destruct (length _ <? 3)%nat; [discriminate|].
  destruct (stagnation_months (revenue_history metrics)) as [C B].
  remember (analyzeStagnation Math_sqrt (revenue_history metrics)) as s eqn:Hs.
  clear Hs.
  destruct (isStagnant s) eqn:S; [|discriminate].
  cbn [negb]. intros [= <-]. cbn [confidence severity].
  rewrite C. intro G.
  rewrite capped_ratio_gt in G by lra.
  unfold of_nat in G. apply gt_Fin in G.
  assert (9 <= monthsStagnant s)%nat as M.
  { destruct (Nat.le_gt_cases 9 (monthsStagnant s)) as [L|L]; [exact L|].
    assert (inject_Z (Z.of_nat (monthsStagnant s)) <= inject_Z 8) as K
      by (rewrite <- Zle_Qle; lia).
    exfalso. revert G. change (inject_Z 8) with 8 in K.
    assert (0.7 * 12 == 8.4) as -> by reflexivity. lra. }
  split; [|lia].
  apply critical_if. apply Nat.ltb_lt. lia.
Qed.

(** X17.  No entry of the merged list has severity 'medium'; a pricing entry
    and a stagnation entry are always 'critical' (the confidence needed to
    be listed implies a price gap above 70 percent, and at least 9 stagnant
    months). *)
Theorem listed_pattern_severity :
  forall metrics analysis up found p,
    detectDataDrivenPatterns Math_sqrt metrics analysis up = Normal found ->
    In p found ->
    pattern_severity p <> medium
    /\ (type p = "pricing_cowardice" -> pattern_severity p = critical)
    /\ (type p = "revenue_stagnation" ->
        pattern_severity p = critical
        /\ (9 <= length (revenue_history metrics))%nat).
Proof.
  intros metrics analysis up found p D I.
  destruct (listed_origin _ _ _ _ _ D I) as (d & G & S & C & O).
  rewrite S.
  destruct O as [[T O] | [[T O] | [[T O] | [[T O] | [T O]]]]]; rewrite T.
  - split; [eapply procrastination_severity; eassumption|].
    split; discriminate.
  - pose proof (pricing_severity _ _ _ O G) as K. rewrite K.
    split; [discriminate|]. split; [reflexivity | discriminate].
  - split; [eapply execution_severity; eassumption|].
    split; discriminate.
  - split; [eapply competitive_severity; eassumption|].
    split; discriminate.
  - destruct (stagnation_severity _ _ O G) as [K L]. rewrite K.
    split; [discriminate|]. split; [discriminate | now split].
Qed.

(** Two numbers of at most [cap] whose mean exceeds [bound] each exceed
    [2 * bound - cap]. *)
Lemma mean_needs_both (a b : num) (cap bound : Q) (x y : Q) :
  a = Fin x -> b = Fin y -> x <= cap -> y <= cap ->
  gt (div (add a b) (Fin 2)) (Fin bound) = true ->
  gt a (Fin (2 * bound - cap)) = true /\ gt b (Fin (2 * bound - cap)) = true.
Proof.
  intros -> -> X Y. cbn [add]. rewrite div_Fin by lra. rewrite !gt_Fin.
  intro G. assert (2 * bound < x + y) as S.
  { assert ((x + y) / 2 * 2 == x + y) as E by (field; lra). lra. }
  split; lra.
Qed.

Lemma within_Fin (lo hi : Q) (a : num) :
  within lo hi a -> exists q, a = Fin q /\ lo <= q /\ q <= hi.
Proof.
  destruct a as [| | |q]; cbn; try tauto. intros [? ?]. now exists q.
Qed.

Lemma of_nat_gt (n : nat) (z : Z) :
  gt (of_nat n) (Fin (inject_Z z)) = true -> (z < Z.of_nat n)%Z.
Proof.
  unfold of_nat. rewrite gt_Fin. now rewrite <- Zlt_Qlt.
Qed.

Lemma procrastination_needs_both metrics up d :
  ProcrastinationDetector_detect metrics up = Normal (Some d) ->
  gt (confidence d) (Fin 0.7) = true ->
  exists tasks e1 messages e2,
    pending_tasks up = Resolved tasks e1
    /\ user_feedback up = Resolved messages e2
    /\ rows_or_empty tasks <> []
    /\ (0 < count_words futureWords (rows_or_empty messages))%nat.
Proof.
  unfold ProcrastinationDetector_detect.
  destruct (pending_tasks up) as [tasks e1|]; [|discriminate].
  destruct (user_feedback up) as [messages e2|]; [|discriminate].
  destruct (excuse_patterns up) as [excuses e3|]; [|discriminate].
  cbn [await bind].
  destruct (negb _ && negb _); [discriminate|].
  intros [= <-]. cbn [confidence]. intro G.
  exists tasks, e1, messages, e2. split; [reflexivity|]. split; [reflexivity|].
  destruct (delayScore_bounds (now up) tasks) as (q1 & E1 & U1 & _).
  destruct (within_Fin _ _ _ (futureScore_bounds messages)) as (q2 & E2 & _ & U2).
  destruct (mean_needs_both _ _ 1 0.7 q1 q2 E1 E2 U1 U2 G) as [G1 G2].
  split.
  - intro N. revert G1. unfold analyzeTaskDelays. rewrite N. cbn. discriminate.
  - revert G2. unfold analyzeLanguagePatterns.
    destruct (rows_or_empty messages) as [|m msgs]; [cbn; discriminate|].
    cbn [futureScore].
    destruct (count_words futureWords (m :: msgs)) as [|k]; [|lia].
    cbn [Nat.add]. rewrite or_else_of_nat.
    destruct (count_words actionWords (m :: msgs)); vm_compute; discriminate.
Qed.

Lemma execution_needs_both metrics analysis up d :
  ExecutionParalysisDetector_detect metrics analysis up = Normal (Some d) ->
  gt (confidence d) (Fin 0.7) = true ->
  exists tasks e1 found e2,
    task_types up = Resolved tasks e1
    /\ blocker_occurrences up = Resolved found e2
    /\ (6 <= plannedCount (calculatePlanningToExecutionRatio tasks))%nat
    /\ (11 <= count_rows found)%nat.
Proof.
  unfold ExecutionParalysisDetector_detect.
  destruct (task_types up) as [tasks e1|]; [|discriminate].
  destruct (blocker_occurrences up) as [found e2|]; [|discriminate].
  cbn [await bind].
  destruct (lt _ _ && negb _); [discriminate|].
  intros [= <-]. cbn [confidence]. intro G.
  exists tasks, e1, found, e2. split; [reflexivity|]. split; [reflexivity|].
  destruct (within_Fin _ _ _ (planning_confidence_bounds tasks)) as (q1 & E1 & _ & U1).
  destruct (within_Fin _ _ _ (blocker_confidence_bounds (now up) found))
    as (q2 & E2 & _ & U2).
  destruct (mean_needs_both _ _ 0.9 0.7 q1 q2 E1 E2 U1 U2 G) as [G1 G2].
  split.
  - revert G1. unfold calculatePlanningToExecutionRatio.
    cbn [planning_confidence plannedCount].
    rewrite capped_ratio_gt by lra.
    rewrite (gt_bound_eq _ ((2 * 0.7 - 0.9) * 10) (inject_Z 5)) by reflexivity.
    intro H. apply of_nat_gt in H. lia.
  - revert G2. unfold identifyBlockers, count_rows, rows_or_empty.
    destruct found as [[|latest others]|]; try (cbn; discriminate).
    cbn [blocker_confidence].
    rewrite capped_ratio_gt by lra.
    rewrite (gt_bound_eq _ ((2 * 0.7 - 0.9) * 20) (inject_Z 10)) by reflexivity.
    intro H. apply of_nat_gt in H. lia.
Qed.

(** X18.  A procrastination entry is listed only for a user who has open tasks
    and whose messages contain a future-tense word: neither signal is
    enough alone.  An execution entry is listed only with at least 6
    planning tasks and at least 11 recorded blockers. *)
Theorem listed_pattern_needs_both_signals :
  forall metrics analysis up found p,
    detectDataDrivenPatterns Math_sqrt metrics analysis up = Normal found ->
    In p found ->
    (type p = "procrastination" ->
     exists tasks e1 messages e2,
       pending_tasks up = Resolved tasks e1
       /\ user_feedback up = Resolved messages e2
       /\ rows_or_empty tasks <> []
       /\ (0 < count_words futureWords (rows_or_empty messages))%nat)
    /\ (type p = "execution_paralysis" ->
        exists tasks e1 blockers e2,
          task_types up = Resolved tasks e1
          /\ blocker_occurrences up = Resolved blockers e2
          /\ (6 <= plannedCount (calculatePlanningToExecutionRatio tasks))%nat
          /\ (11 <= count_rows blockers)%nat).
Proof.
  intros metrics analysis up found p D I.
  destruct (listed_origin _ _ _ _ _ D I) as (d & G & S & C & O).
  destruct O as [[T O] | [[T O] | [[T O] | [[T O] | [T O]]]]]; rewrite T;
    (split; intro N; try discriminate N).
  - eapply procrastination_needs_both; eassumption.
  - eapply execution_needs_both; eassumption.
Qed.

End EngineListing.

(** The merged list for [delaying_engine] *)
Definition delaying_found : list Engine.Pattern :=
  Eval vm_compute in
    match Engine.detectDataDrivenPatterns (fun x => x) no_metrics no_competitors
            delaying_engine with
    | Js.Normal found => found
    | Js.Threw => []
    end.

Lemma listed_pattern_severity_witness :
  match delaying_found with
  | p :: _ => Engine.pattern_severity p <> medium
  | [] => False
  end.
Proof.
  apply (listed_pattern_severity (fun x => x) no_metrics no_competitors delaying_engine
           delaying_found).
  - vm_compute. reflexivity.
  - left. reflexivity.
Defined.

Lemma listed_pattern_needs_both_signals_witness :
  exists tasks e1 messages e2,
    Engine.pending_tasks delaying_engine = Js.Resolved tasks e1
    /\ Engine.user_feedback delaying_engine = Js.Resolved messages e2
    /\ Engine.rows_or_empty tasks <> []
    /\ (0 < Engine.count_words Engine.futureWords (Engine.rows_or_empty messages))%nat.
Proof.
  edestruct (listed_pattern_needs_both_signals (fun x => x) no_metrics no_competitors
               delaying_engine delaying_found) as [P _].
  - vm_compute. reflexivity.
  - left. reflexivity.
  - apply P. reflexivity.
Defined.

(** ** celeste7-real-engine.js: ranking against competitors *)

(** Every competitor's revenue is a number below (above) [revenue]. *)
Definition all_below (revenue : Q) (rivals : list Engine.Competitor) : Prop :=
  Forall (fun c => exists r, Engine.monthly_recurring_revenue c = Js.Fin r /\ r < revenue)
         rivals.

Definition all_above (revenue : Q) (rivals : list Engine.Competitor) : Prop :=
  Forall (fun c => exists r, Engine.monthly_recurring_revenue c = Js.Fin r /\ revenue < r)
         rivals.

Definition rival (name : string) (revenue : Q) : Engine.Competitor :=
  {| Engine.competitor_id := name;
     Engine.monthly_recurring_revenue := Js.Fin revenue;
     Engine.competitor_product_count := Js.Fin 1 |}.

(** Five competitors with revenues from 1000 to 5000 *)
Definition five_rivals : Engine.CompetitorAnalysis :=
  {| Engine.competitors :=
       [rival "c1" 5000; rival "c2" 4000; rival "c3" 3000; rival "c4" 2000;
        rival "c5" 1000];
     Engine.data_points := Js.Fin 30 |}.

Definition earning (revenue : Q) : Engine.BusinessMetrics :=
  {| Engine.current_mrr := Js.Fin revenue;
     Engine.avg_transaction_value := Js.Fin 0;
     Engine.product_count := Js.Fin 1;
     Engine.revenue_history := [] |}.

Section RankingFacts.
Import Js Engine.

Let desc (a b : num) : num := sub b a.

Lemma sort_app_last (l : list num) (u : num) :
  sort desc (l ++ [u])%list = fold_right (insert desc) [u] l.
Proof.
  unfold sort. now rewrite fold_right_app.
Qed.

Lemma leader_first (u : Q) (l : list num) :
  Forall (fun x => exists r, x = Fin r /\ r < u) l ->
  fold_right (insert desc) [Fin u] l = Fin u :: sort desc l.
Proof.
  induction 1 as [|x l (r & -> & L) F IH]; [reflexivity|].
  cbn [fold_right]. rewrite IH. cbn [insert].
  assert (goes_after desc (Fin r) (Fin u) = true) as ->.
  { unfold goes_after, desc. cbn [sub neg add]. apply gt_Fin. lra. }
  reflexivity.
Qed.

Lemma insert_before_last (u r : Q) (s : list num) :
  u < r ->
  insert desc (Fin r) (s ++ [Fin u])%list = (insert desc (Fin r) s ++ [Fin u])%list.
Proof.
  intro L. induction s as [|y s IH].
  - cbn [app insert].
    assert (goes_after desc (Fin r) (Fin u) = false) as ->; [|reflexivity].
    unfold goes_after, desc. cbn [sub neg add]. apply Qltb_ge. lra.
  - cbn [app insert]. destruct (goes_after desc (Fin r) y); [|reflexivity].
    now rewrite IH.
Qed.

Lemma last_stays (u : Q) (l : list num) :
  Forall (fun x => exists r, x = Fin r /\ u < r) l ->
  fold_right (insert desc) [Fin u] l = (sort desc l ++ [Fin u])%list.
Proof.
  induction 1 as [|x l (r & -> & L) F IH]; [reflexivity|].
  cbn [fold_right]. rewrite IH.
  change (sort desc (Fin r :: l)) with (insert desc (Fin r) (sort desc l)).
  now apply insert_before_last.
Qed.

Lemma position_last (u : Q) (s : list num) :
  Forall (fun x => exists r, x = Fin r /\ u < r) s ->
  position (Fin u) (s ++ [Fin u])%list = S (length s).
Proof.
  induction 1 as [|x s (r & -> & L) F IH].
  - cbn. assert (Qeq_bool u u = true) as -> by (apply Qeq_bool_iff; reflexivity).
    reflexivity.
  - cbn [app position length]. rewrite IH.
    assert (eqb (Fin r) (Fin u) = false) as ->; [|reflexivity].
    cbn. destruct (Qeq_bool r u) eqn:E; [|reflexivity].
    apply Qeq_bool_iff in E. lra.
Qed.

Lemma sort_length (l : list num) : length (sort desc l) = length l.
Proof.
  symmetry. apply Permutation_length. exact (sort_perm (fun x => x) l).
Qed.

Lemma revenues_below (u : Q) (rivals : list Competitor) :
  all_below u rivals ->
  Forall (fun x => exists r, x = Fin r /\ r < u) (List.map monthly_recurring_revenue rivals).
Proof.
  intro F. apply Forall_map. exact F.
Qed.

Lemma revenues_above (u : Q) (rivals : list Competitor) :
  all_above u rivals ->
  Forall (fun x => exists r, x = Fin r /\ u < r) (List.map monthly_recurring_revenue rivals).
Proof.
  intro F. apply Forall_map. exact F.
Qed.

Lemma ranking_of_leader (metrics : BusinessMetrics) (rivals : list Competitor) (u : Q) :
  current_mrr metrics = Fin u -> all_below u rivals ->
  calculateRanking metrics rivals
  = (1%nat, round (mul (div (of_nat 1) (of_nat (S (length rivals)))) (Fin 100))).
Proof.
  intros E B. unfold calculateRanking. rewrite E.
  fold desc. rewrite sort_app_last.
  rewrite (leader_first u _ (revenues_below u rivals B)).
  cbn [position eqb length].
  assert (Qeq_bool u u = true) as -> by (apply Qeq_bool_iff; reflexivity).
  now rewrite sort_length, length_map.
Qed.

Lemma ranking_of_last (metrics : BusinessMetrics) (rivals : list Competitor) (u : Q) :
  current_mrr metrics = Fin u -> all_above u rivals ->
  calculateRanking metrics rivals
  = (S (length rivals),
     round (mul (div (of_nat (S (length rivals))) (of_nat (S (length rivals))))
                (Fin 100))).
Proof.
  intros E A. unfold calculateRanking. rewrite E.
  fold desc. rewrite sort_app_last.
  rewrite (last_stays u _ (revenues_above u rivals A)).
  rewrite position_last.
  - now rewrite length_app, sort_length, length_map, Nat.add_1_r.
  - eapply Permutation_Forall; [exact (sort_perm (fun x => x) _)|].
    now apply revenues_above.
Qed.

Lemma percentile_of_leader (n : nat) :
  (5 <= n)%nat ->
  exists z, round (mul (div (of_nat 1) (of_nat (S n))) (Fin 100)) = Fin (inject_Z z)
            /\ (z <= 17)%Z.
Proof.
  intro N. unfold of_nat.
  assert (6 <= inject_Z (Z.of_nat (S n))) as P.
  { change 6 with (inject_Z 6). rewrite <- Zle_Qle. lia. }
  rewrite div_Fin by lra. cbn [mul round].
  eexists. split; [reflexivity|].
  set (x := inject_Z (Z.of_nat 1) / inject_Z (Z.of_nat (S n)) * 100 + (1 # 2)).
  assert (x < 18) as U.
  { unfold x. change (inject_Z (Z.of_nat 1)) with 1.
    assert (1 / inject_Z (Z.of_nat (S n)) <= (1 # 6)) as D.
    { apply Qle_shift_div_r; lra. }
    lra. }
  pose proof (Qfloor_le x) as F.
  assert (inject_Z (Qfloor x) < inject_Z 18) as G by (change (inject_Z 18) with 18; lra).
  rewrite <- Zlt_Qlt in G. lia.
Qed.

Lemma percentile_of_last (n : nat) :
  round (mul (div (of_nat (S n)) (of_nat (S n))) (Fin 100)) = Fin (inject_Z 100).
Proof.
  unfold of_nat.
  assert (0 < inject_Z (Z.of_nat (S n))) as P by (apply of_nat_pos; lia).
  rewrite div_Fin by lra. cbn [mul round].
  assert (inject_Z (Z.of_nat (S n)) / inject_Z (Z.of_nat (S n)) * 100 + (1 # 2)
          == 100 + (1 # 2)) as -> by (field; lra).
  reflexivity.
Qed.

(** X19.  With at least five competitors, a user whose revenue is above that of
    every competitor is ranked first, which puts the percentile at 17 or
    less: the detector reports a competitive delusion of severity
    'critical' with confidence 0.85, enough to be listed.  A user whose
    revenue is below that of every competitor is at percentile 100 and is
    never reported. *)
Theorem leader_is_flagged_last_is_not :
  forall (metrics : BusinessMetrics) (analysis : CompetitorAnalysis) (revenue : Q),
    current_mrr metrics = Fin revenue ->
    (5 <= length (competitors analysis))%nat ->
    (all_below revenue (competitors analysis) ->
     exists d,
       CompetitiveDelusionDetector_detect metrics analysis = Some d
       /\ severity d = critical
       /\ confidence d = Fin 0.85
       /\ gt (confidence d) (Fin 0.7) = true)
    /\ (all_above revenue (competitors analysis) ->
        CompetitiveDelusionDetector_detect metrics analysis = None).
Proof.
  intros metrics analysis revenue E N.
  assert ((length (competitors analysis) <? 5)%nat = false) as L
    by (apply Nat.ltb_ge; exact N).
  unfold CompetitiveDelusionDetector_detect. rewrite L. split.
  - intro B. rewrite (ranking_of_leader _ _ _ E B).
    destruct (percentile_of_leader _ N) as (z & -> & Z).
    assert (gt (Fin (inject_Z z)) (Fin 50) = false) as ->.
    { apply Qltb_ge. change 50 with (inject_Z 50). rewrite <- Zle_Qle. lia. }
    assert (lt (Fin (inject_Z z)) (Fin 20) = true) as ->.
    { apply Qltb_lt. change 20 with (inject_Z 20). rewrite <- Zlt_Qlt. lia. }
    eexists. split; [reflexivity|]. repeat split.
  - intro A. rewrite (ranking_of_last _ _ _ E A).
    rewrite percentile_of_last. reflexivity.
Qed.

End RankingFacts.

Lemma leader_is_flagged_last_is_not_witness :
  (exists d,
      Engine.CompetitiveDelusionDetector_detect (earning 9000) five_rivals = Some d
      /\ Engine.severity d = critical
      /\ Engine.confidence d = Js.Fin 0.85
      /\ Js.gt (Engine.confidence d) (Js.Fin 0.7) = true)
  /\ Engine.CompetitiveDelusionDetector_detect (earning 500) five_rivals = None.
Proof.
  split.
  - apply (proj1 (leader_is_flagged_last_is_not (earning 9000) five_rivals 9000
                    eq_refl ltac:(cbn; lia))).
    repeat constructor; eexists; (split; [reflexivity|]); reflexivity.
  - apply (proj2 (leader_is_flagged_last_is_not (earning 500) five_rivals 500
                    eq_refl ltac:(cbn; lia))).
    repeat constructor; eexists; (split; [reflexivity|]); reflexivity.
Defined.


(** ** celeste7-real-engine.js: a revenue history of zeros *)

Section StagnationFacts.
Import Js Engine.
Variable Math_sqrt : num -> num.

Lemma sum_zeros (history : list num) :
  Forall (fun r => r = Fin 0) history -> sum history = Fin 0.
Proof.
  unfold sum. induction 1 as [|r history -> F IH]; [reflexivity|].
  cbn [fold_left]. exact IH.
Qed.

Lemma div_zero_by_zero (x y : Q) : x == 0 -> y == 0 -> div (Fin x) (Fin y) = NaN.
Proof.
  intros X Y. unfold div.
  apply Qeq_alt in X. apply Qeq_alt in Y. now rewrite X, Y.
Qed.

Lemma zero_month_never_near (average : Q) :
  average == 0 ->
  lt (div (abs (sub (Fin 0) (Fin average))) (Fin average)) (Fin 0.1) = false.
Proof.
  intro A. cbn [sub neg add abs].
  rewrite div_zero_by_zero; [reflexivity | | exact A].
  rewrite A. reflexivity.
Qed.

(** X20.  A revenue history that consists of zeros is never reported as
    stagnant, whatever [Math.sqrt] returns: no month counts as close to the
    average, because the relative deviation 0/0 is not a number. *)
Theorem zero_revenue_is_never_stagnant :
  forall metrics : BusinessMetrics,
    Forall (fun r => r = Fin 0) (revenue_history metrics) ->
    RevenueStagnationDetector_detect Math_sqrt metrics = None
    /\ (revenue_history metrics <> [] ->
        isStagnant (analyzeStagnation Math_sqrt (revenue_history metrics)) = false).
Proof.
  intros metrics Z.
  assert (revenue_history metrics <> [] ->
          isStagnant (analyzeStagnation Math_sqrt (revenue_history metrics)) = false) as S.
  { intro N. unfold analyzeStagnation. cbn [isStagnant].
    set (history := revenue_history metrics) in *.
    set (avgRevenue := div (sum history) (of_nat (length history))).
    assert (exists average, avgRevenue = Fin average /\ average == 0)
      as (average & E & A).
    { unfold avgRevenue. rewrite (sum_zeros _ Z).
      assert (0 < inject_Z (Z.of_nat (length history))) as P.
      { apply of_nat_pos. destruct history; [congruence | cbn; lia]. }
      unfold of_nat. rewrite div_Fin by lra. eexists. split; [reflexivity|].
      field. lra. }
    clearbody avgRevenue. subst avgRevenue.
    assert (List.filter
              (fun r => lt (div (abs (sub r (Fin average))) (Fin average)) (Fin 0.1))
              history = []) as ->.
    { clear N. induction Z as [|r history' -> F IH]; [reflexivity|].
      cbn [List.filter]. rewrite (zero_month_never_near average A). exact IH. }
    cbn [length]. apply andb_false_iff. right.
    assert (0 < inject_Z (Z.of_nat (length history))) as P.
    { apply of_nat_pos. destruct history; [congruence | cbn; lia]. }
    unfold of_nat. cbn [mul ge]. destruct (Qle_bool _ _) eqn:L; [|reflexivity].
    apply Qle_bool_iff in L. change (inject_Z (Z.of_nat 0)) with 0 in L. lra. }
  split; [|exact S].
  unfold RevenueStagnationDetector_detect.
  destruct (length (revenue_history metrics) <? 3)%nat eqn:L; [reflexivity|].
  rewrite S; [reflexivity|].
  apply Nat.ltb_ge in L. destruct (revenue_history metrics); [cbn in L; lia | discriminate].
Qed.

End StagnationFacts.

Definition earning_nothing : Engine.BusinessMetrics :=
  {| Engine.current_mrr := Js.Fin 0;
     Engine.avg_transaction_value := Js.Fin 0;
     Engine.product_count := Js.Fin 1;
     Engine.revenue_history := [Js.Fin 0; Js.Fin 0; Js.Fin 0; Js.Fin 0] |}.

Lemma zero_revenue_is_never_stagnant_witness :
  Engine.RevenueStagnationDetector_detect (fun x => x) earning_nothing = None.
Proof.
  apply (zero_revenue_is_never_stagnant (fun x => x) earning_nothing).
  repeat constructor.
Defined.

(** ** index.js: the cache, the resistance level and the realtime stream *)

Module Realtime.
Import Js.

(** [this.stats] of [SmartCacheWrapper] *)
Record Stats : Type := {
  hits : nat;
  misses : nat;
  errors : nat
}.

(** [SmartCacheWrapper] with the LRU store ([isRedis] false).  The store
    loses entries when their time to live is over and when the cleanup
    timer runs; both are deletions. *)
Record Cache (V : Type) : Type := {
  lru : gmap string V;
  stats : Stats
}.
Arguments lru {V}.
Arguments stats {V}.

Definition empty_cache {V} : Cache V :=
  {| lru := ∅; stats := {| hits := 0; misses := 0; errors := 0 |} |}.

Definition count_hit (s : Stats) : Stats :=
  {| hits := S (hits s); misses := misses s; errors := errors s |}.
Definition count_miss (s : Stats) : Stats :=
  {| hits := hits s; misses := S (misses s); errors := errors s |}.
Definition count_error (s : Stats) : Stats :=
  {| hits := hits s; misses := misses s; errors := S (errors s) |}.

(** [get(key, fallbackFn, ttl)] for a call that passes a fallback.
    [fallbackFn] is what the first call of the fallback does, [again] what
    the second call (in the [catch]) does.
    The value comes with its [cached] flag, which is absent when it was
    produced in the [catch]. *)
Definition get {V} (cache : Cache V) (key : string) (fallbackFn again : completion V)
    : completion (V * option bool) * Cache V :=
  match lru cache !! key with
  | Some cached =>
      (Normal (cached, Some true),
       {| lru := lru cache; stats := count_hit (stats cache) |})
  | None =>
      match fallbackFn with
      | Normal fresh =>
          (Normal (fresh, Some false),
           {| lru := <[key := fresh]> (lru cache); stats := count_miss (stats cache) |})
      | Threw =>
          (do value <- again; Normal (value, None),
           {| lru := lru cache; stats := count_error (count_miss (stats cache)) |})
      end
  end.

(** An entry leaves the store. *)
Definition expire {V} (cache : Cache V) (key : string) : Cache V :=
  {| lru := delete key (lru cache); stats := stats cache |}.

Record Health : Type := {
  healthy : bool;
  hit_rate : num
}.

Definition getHealth {V} (cache : Cache V) : Health :=
  let hitRate :=
    or_else (div (of_nat (hits (stats cache)))
                 (of_nat (hits (stats cache) + misses (stats cache)))) (Fin 0) in
  {| healthy := (errors (stats cache) <? 10)%nat;
     hit_rate := div (round (mul hitRate (Fin 100))) (Fin 100) |}.

(** The object cached under [resistance:<userId>] *)
Record Resistance : Type := { level : num }.

Definition getUserResistanceLevel (cache : Cache Resistance) (userId : string)
    : num * Cache Resistance :=
  let fallback := Normal {| level := Fin 0 |} in
  let '(cached, cache') := get cache ("resistance:" ++ userId)%string fallback fallback in
  (match cached with
   | Normal (entry, _) => or_else (level entry) (Fin 0)
   | Threw => Fin 0
   end, cache').

(** The methods that the class [InterventionABTester] defines *)
Definition InterventionABTester_methods : list string :=
  ["selectInterventionStyle"; "generateStyledIntervention"].

(** What one run of the pattern check writes to the stream *)
Inductive Event : Type :=
| InterventionEvent (pattern : string) (severity : Severity)
                    (confidence estimated_cost resistance_level : num)
| PatternDetected (patterns : list Optimizer.Pattern).

(** The [type] property of the object written to the stream *)
Definition event_type (event : Event) : string :=
  match event with
  | InterventionEvent _ _ _ _ _ => "intervention"
  | PatternDetected _ => "pattern_detected"
  end.

Section Tick.
Variable VERCEL : bool.
Variable detectPatternsQueued : string -> completion Optimizer.Detection.
Variable Text : Type.
Variable runGenerator : string -> string -> Api.Evidence -> string -> completion Text.
(** What [trackInterventionDelivery] would do if the A/B tester had it *)
Variable trackInterventionDelivery : completion unit.

(** [this.abTester.trackInterventionDelivery(...)]: calling a property
    that the object does not have throws. *)
Definition abTester_trackInterventionDelivery : completion unit :=
  if Interventions.mem "trackInterventionDelivery" InterventionABTester_methods
  then trackInterventionDelivery
  else Threw.

(** The body of the [setInterval] callback of GET /api/realtime/:userId;
    whatever is thrown inside is caught and logged. *)
Definition pattern_check (table : gmap string Optimizer.CacheRow)
    (cache : Cache Resistance) (up : Optimizer.Upstream) (userId : string)
    : option Event * gmap string Optimizer.CacheRow * Cache Resistance :=
  let '(found, table') :=
    Optimizer.detectAllPatternsBrutally VERCEL detectPatternsQueued table up userId in
  match Optimizer.patterns found with
  | [] => (None, table', cache)
  | _ =>
      match List.find (fun p => is_critical (Optimizer.severity p))
                      (Optimizer.patterns found) with
      | Some criticalPattern =>
          let '(resistanceLevel, cache') := getUserResistanceLevel cache userId in
          let written :=
            do intervention <-
              Interventions.generateIntervention Api.Evidence string Text runGenerator
                (Some (Api.as_argument criticalPattern))
                (Some (Optimizer.evidence criticalPattern))
                (Some userId) resistanceLevel;
            do tracked <- abTester_trackInterventionDelivery;
            Normal (InterventionEvent (Optimizer.pattern_type criticalPattern)
                      (Optimizer.severity criticalPattern)
                      (Optimizer.confidence criticalPattern)
                      (Optimizer.estimated_cost criticalPattern)
                      resistanceLevel) in
          (match written with Normal event => Some event | Threw => None end,
           table', cache')
      | None => (Some (PatternDetected (Optimizer.patterns found)), table', cache)
      end
  end.
End Tick.

End Realtime.

(** The cache of index.js after any number of [getUserResistanceLevel]
    calls and expired entries *)
Inductive cache_reached : Realtime.Cache Realtime.Resistance -> Prop :=
| reached_empty : cache_reached Realtime.empty_cache
| reached_lookup cache user :
    cache_reached cache ->
    cache_reached (snd (Realtime.getUserResistanceLevel cache user))
| reached_expiry cache key :
    cache_reached cache -> cache_reached (Realtime.expire cache key).

Section RealtimeFacts.
Import Js Realtime.

Lemma cache_holds_zero cache :
  cache_reached cache ->
  forall key entry, lru cache !! key = Some entry -> level entry = Fin 0.
Proof.
  induction 1 as [|cache user R IH|cache key' R IH]; intros key entry.
  - cbn. rewrite lookup_empty. discriminate.
  - unfold getUserResistanceLevel, get.
    destruct (lru cache !! ("resistance:" ++ user)%string) as [cached|] eqn:L;
      cbn [snd lru].
    + apply IH.
    + rewrite lookup_insert. destruct (decide _); [|apply IH].
      now intros [= <-].
  - unfold expire. cbn [lru]. intro L.
    apply lookup_delete_Some in L. destruct L as [_ L]. now apply (IH key).
Qed.

Lemma cache_counts cache :
  cache_reached cache -> errors (stats cache) = O.
Proof.
  induction 1 as [|cache user R IH|cache key' R IH]; [reflexivity| |exact IH].
  unfold getUserResistanceLevel, get.
  destruct (lru cache !! ("resistance:" ++ user)%string); exact IH.
Qed.

(** X21.  With the LRU store, the resistance level that index.js reads is 0 for
    every user at every time: the only object that is ever cached is the
    default of the lookup itself.  The realtime stream therefore always
    asks for the first level, and the cache never counts an error. *)
Theorem cached_resistance_level_is_zero :
  forall (cache : Cache Resistance) (user : string),
    cache_reached cache ->
    fst (getUserResistanceLevel cache user) = Fin 0
    /\ Interventions.selected_level (fst (getUserResistanceLevel cache user))
       = Some "first_contact"
    /\ healthy (getHealth (snd (getUserResistanceLevel cache user))) = true.
Proof.
  intros cache user R.
  assert (fst (getUserResistanceLevel cache user) = Fin 0) as Z.
  { unfold getUserResistanceLevel, get.
    destruct (lru cache !! ("resistance:" ++ user)%string) as [cached|] eqn:L;
      cbn [fst]; [|reflexivity].
    rewrite (cache_holds_zero cache R _ _ L). reflexivity. }
  split; [exact Z|]. split.
  - rewrite Z. reflexivity.
  - unfold getHealth. cbn [healthy].
    now rewrite (cache_counts _ (reached_lookup cache user R)).
Qed.

Lemma cached_resistance_level_is_zero_witness :
  fst (getUserResistanceLevel
         (snd (getUserResistanceLevel empty_cache "u1")) "u1") = Fin 0.
Proof.
  apply (cached_resistance_level_is_zero
           (snd (getUserResistanceLevel empty_cache "u1")) "u1").
  apply reached_lookup, reached_empty.
Defined.

(** X22.  The hit rate reported by the cache is a number between 0 and 1, and 0
    before the first lookup. *)
Theorem hit_rate_is_a_fraction :
  forall (V : Type) (cache : Cache V),
    within 0 1 (hit_rate (getHealth cache))
    /\ ((hits (stats cache) + misses (stats cache) = 0)%nat ->
        exists q, hit_rate (getHealth cache) = Fin q /\ q == 0)
    /\ (healthy (getHealth cache) = true <-> (errors (stats cache) < 10)%nat).
Proof.
  intros V cache. unfold getHealth. cbn [hit_rate healthy].
  set (h := hits (stats cache)). set (m := misses (stats cache)).
  split; [|split].
  - assert (within 0 1 (or_else (div (of_nat h) (of_nat (h + m))) (Fin 0))) as W.
    { destruct (h + m)%nat eqn:E.
      - assert (h = O) as -> by lia. change (0 <= 0 /\ 0 <= 1). lra.
      - rewrite <- E. apply or_else_within; [apply ratio_within; lia | lra | lra]. }
    destruct (or_else _ _) as [| | |q]; cbn in W; try tauto.
    cbn [mul round]. rewrite div_Fin by lra. cbn [within].
    assert (0 <= Qfloor (q * 100 + (1 # 2)) <= 100)%Z as [L U].
    { assert (Qfloor 0 <= Qfloor (q * 100 + (1 # 2)))%Z as L
        by (apply Qfloor_resp_le; lra).
      assert (Qfloor (q * 100 + (1 # 2)) <= Qfloor (100 + (1 # 2)))%Z as U
        by (apply Qfloor_resp_le; lra).
      split; [exact L | exact U]. }
    rewrite Zle_Qle in L, U. change (inject_Z 0) with 0 in L.
    change (inject_Z 100) with 100 in U.
    split; [apply Qle_shift_div_l | apply Qle_shift_div_r]; lra.
  - intro E. rewrite E. assert (h = O) as -> by lia.
    eexists. split; reflexivity.
  - apply Nat.ltb_lt.
Qed.

Lemma hit_rate_is_a_fraction_witness :
  exists q, hit_rate (getHealth (@empty_cache Resistance)) = Fin q /\ q == 0.
Proof.
  apply (proj1 (proj2 (hit_rate_is_a_fraction Resistance empty_cache))).
  reflexivity.
Defined.

Section TickFacts.
Variable VERCEL : bool.
Variable detectPatternsQueued : string -> completion Optimizer.Detection.
Variable Text : Type.
Variable runGenerator : string -> string -> Api.Evidence -> string -> completion Text.
Variable trackInterventionDelivery : completion unit.

(** X23.  One run of the pattern check never writes an intervention event: the
    step before the write calls [trackInterventionDelivery] on the A/B
    tester, which has no such method, and the error is caught.  The run
    writes a [pattern_detected] event exactly when the list is not empty
    and holds no critical pattern; a list with a critical pattern leaves
    the stream silent. *)
Theorem stream_never_sends_an_intervention :
  forall (table : gmap string Optimizer.CacheRow) (cache : Cache Resistance)
         (up : Optimizer.Upstream) (user : string),
    let found :=
      Optimizer.patterns
        (fst (Optimizer.detectAllPatternsBrutally VERCEL detectPatternsQueued
                table up user)) in
    let written :=
      fst (fst (pattern_check VERCEL detectPatternsQueued Text runGenerator
                  trackInterventionDelivery table cache up user)) in
    (forall pattern severity confidence cost level,
        written <> Some (InterventionEvent pattern severity confidence cost level))
    /\ (forall listed,
           written = Some (PatternDetected listed)
           <-> listed = found /\ found <> []
               /\ forallb (fun p => negb (is_critical (Optimizer.severity p))) found
                  = true)
    /\ (existsb (fun p => is_critical (Optimizer.severity p)) found = true ->
        written = None).
Proof.
  intros table cache up user found written. subst found written.
  unfold pattern_check.
  destruct (Optimizer.detectAllPatternsBrutally VERCEL detectPatternsQueued table up user)
    as [found table'].
  cbn [fst].
  assert (forall l : list Optimizer.Pattern,
             List.find (fun p => is_critical (Optimizer.severity p)) l = None
             <-> forallb (fun p => negb (is_critical (Optimizer.severity p))) l = true)
    as NoCritical.
  { induction l as [|p l IH]; cbn; [tauto|].
    destruct (is_critical (Optimizer.severity p)); cbn; [split; discriminate | exact IH]. }
  assert (forall l : list Optimizer.Pattern,
             existsb (fun p => is_critical (Optimizer.severity p)) l = true ->
             List.find (fun p => is_critical (Optimizer.severity p)) l <> None)
    as Critical.
  { induction l as [|p l IH]; cbn; [discriminate|].
    destruct (is_critical (Optimizer.severity p)); cbn; [discriminate | exact IH]. }
  destruct (Optimizer.patterns found) as [|first rest] eqn:P.
  - cbn [fst]. split; [discriminate|]. split; [|reflexivity].
    intro listed. split; [discriminate | intros (_ & N & _); congruence].
  - specialize (NoCritical (first :: rest)). specialize (Critical (first :: rest)).
    destruct (List.find _ (first :: rest)) as [criticalPattern|] eqn:F.
    + destruct (getUserResistanceLevel cache user) as [resistanceLevel cache'].
      cbn [fst].
      assert (forall generated : completion (Interventions.Intervention Api.Evidence Text),
                 (do intervention <- generated;
                  do tracked <-
                    abTester_trackInterventionDelivery trackInterventionDelivery;
                  Normal (InterventionEvent (Optimizer.pattern_type criticalPattern)
                            (Optimizer.severity criticalPattern)
                            (Optimizer.confidence criticalPattern)
                            (Optimizer.estimated_cost criticalPattern)
                            resistanceLevel)) = Threw) as ->.
      { intros [generated|]; reflexivity. }
      split; [discriminate|]. split; [|reflexivity].
      intro listed. split; [discriminate|].
      intros (_ & _ & A). apply NoCritical in A. discriminate.
    + cbn [fst]. split; [discriminate|]. split.
      * intro listed. split.
        -- intros [= <-]. split; [reflexivity|]. split; [discriminate|].
           now apply NoCritical.
        -- intros (-> & _). reflexivity.
      * intro E. now apply Critical in E.
Qed.

End TickFacts.

End RealtimeFacts.

Lemma stream_never_sends_an_intervention_witness :
  fst (fst (Realtime.pattern_check false (fun _ => Js.Threw) unit
              (fun _ _ _ _ => Js.Threw) (Js.Normal tt) ∅ Realtime.empty_cache
              mixed_detection "u1")) = None.
Proof.
  apply (stream_never_sends_an_intervention false (fun _ => Js.Threw) unit
           (fun _ _ _ _ => Js.Threw) (Js.Normal tt) ∅ Realtime.empty_cache
           mixed_detection "u1").
  vm_compute. reflexivity.
Defined.

(** ** client-realtime.js *)

Module Client.
Import Js.

(** *** Reconnection *)

Definition maxReconnectAttempts : nat := 5.

(** [handleConnectionDrop]: the delay of the reconnection timer, if one is
    started. *)
Definition handleConnectionDrop (reconnectAttempts : nat) : option num :=
  if (reconnectAttempts <? maxReconnectAttempts)%nat
  then Some (min (mul (Fin 1000) (pow (Fin 2) reconnectAttempts)) (Fin 30000))
  else None.

(** The delays of the timers when every connection that is opened drops
    before [onopen] has reset the counter; [drops] bounds the number of
    drops that are looked at. *)
Fixpoint reconnect_delays (drops : nat) (reconnectAttempts : nat) : list num :=
  match drops with
  | O => []
  | S remaining =>
      match handleConnectionDrop reconnectAttempts with
      | Some delay => delay :: reconnect_delays remaining (S reconnectAttempts)
      | None => []
      end
  end.

(** *** Messages of the server *)

Inductive Handling : Type :=
| ConfirmConnection
| FirePatterns
| ShowIntervention
| Alive
| UnknownMessage.

(** The [switch] of [handleServerMessage] on [data.type] *)
Definition handleServerMessage (type : string) : Handling :=
  if String.eqb type "connected" then ConfirmConnection
  else if String.eqb type "patterns_detected" then FirePatterns
  else if String.eqb type "patterns_pending" then FirePatterns
  else if String.eqb type "intervention" then ShowIntervention
  else if String.eqb type "heartbeat" then Alive
  else UnknownMessage.

(** *** Detection *)

Record Pattern : Type := {
  type : string;
  confidence : num
}.

(** [handleInput]: [lastKeyTime] is [typingSession.lastKeyTime]. *)
Definition handleInput (now lastKeyTime : Z) : option Pattern :=
  let timeSinceLastKey := (now - lastKeyTime)%Z in
  if (5000 <? timeSinceLastKey)%Z && (0 <? lastKeyTime)%Z
  then Some {| type := "hesitation";
               confidence := min (div (of_Z timeSinceLastKey) (Fin 10000)) (Fin 0.9) |}
  else None.

Definition analyzeTypingSession (deletions additions : nat) : option Pattern :=
  if (0 <? deletions)%nat && (10 <? additions)%nat then
    let deletionRatio := div (of_nat deletions) (of_nat additions) in
    if gt deletionRatio (Fin 0.3)
    then Some {| type := "uncertainty"; confidence := min deletionRatio (Fin 0.9) |}
    else None
  else None.

(** [handleVisibilityChange] when the document is visible again;
    [tabSwitchTime] is [None] for [null]. *)
Definition handleVisibilityChange (now : Z) (tabSwitchTime : option Z) : option Pattern :=
  match tabSwitchTime with
  | Some hiddenAt =>
      if (hiddenAt =? 0)%Z then None
      else
        let awayDuration := (now - hiddenAt)%Z in
        if (30000 <? awayDuration)%Z
        then Some {| type := "distraction";
                     confidence := min (div (of_Z awayDuration) (Fin 120000)) (Fin 0.95) |}
        else None
  | None => None
  end.

Definition handleWindowFocus (now : Z) (windowBlurTime : option Z) : option Pattern :=
  match windowBlurTime with
  | Some blurredAt =>
      if (blurredAt =? 0)%Z then None
      else if (60000 <? now - blurredAt)%Z
           then Some {| type := "procrastination"; confidence := Fin 0.8 |}
           else None
  | None => None
  end.

Inductive FieldType : Type := pricing | planning | general.

(** [getFieldType]: [identifier] is [element.name || element.id ||
    element.placeholder || ''] before it is put in lower case. *)
Definition getFieldType (identifier : string) : FieldType :=
  let name := toLowerCase identifier in
  if includes name "price" || includes name "cost" || includes name "$" then pricing
  else if includes name "plan" || includes name "strategy" then planning
  else general.

(** [handleFormBlur]: [value] is the content of the field and
    [numericValue] what [parseFloat] made of its digits and dots. *)
Definition handleFormBlur (identifier value : string) (numericValue : num)
    : option Pattern :=
  match getFieldType identifier, value with
  | pricing, String _ _ =>
      if gt numericValue (Fin 0) && lt numericValue (Fin 50)
      then Some {| type := "pricing_cowardice";
                   confidence := if lt numericValue (Fin 20) then Fin 0.9 else Fin 0.75 |}
      else None
  | _, _ => None
  end.

(** *** The pattern buffer *)

(** The buffer, the batches of the calls of [sendPatterns] that are
    waiting for their request, and the batches of the calls that have
    finished without an error. *)
Record Buffering (P : Type) : Type := {
  patternBuffer : list P;
  in_flight : list (list P);
  completed : list (list P)
}.
Arguments patternBuffer {P}.
Arguments in_flight {P}.
Arguments completed {P}.

(** What can happen next: [detectPattern] is called, [sendPatterns] is
    called, the request of a waiting call is answered and its body parsed,
    or the [try] block of a waiting call throws. *)
Inductive Step (P : Type) : Type :=
| DetectPattern (pattern : P)
| SendPatterns
| RequestCompletes (request : nat)
| RequestThrows (request : nat).
Arguments DetectPattern {P} pattern.
Arguments SendPatterns {P}.
Arguments RequestCompletes {P} request.
Arguments RequestThrows {P} request.

(** The list without its element number [n] *)
Fixpoint remove_nth {A} (n : nat) (l : list A) : list A :=
  match l, n with
  | [], _ => []
  | _ :: rest, O => rest
  | x :: rest, S k => x :: remove_nth k rest
  end.

Definition step {P} (state : Buffering P) (s : Step P) : Buffering P :=
  match s with
  | DetectPattern pattern =>
      {| patternBuffer := patternBuffer state ++ [pattern];
         in_flight := in_flight state;
         completed := completed state |}
  | SendPatterns =>
      match patternBuffer state with
      | [] => state
      | patterns =>
          {| patternBuffer := [];
             in_flight := in_flight state ++ [patterns];
             completed := completed state |}
      end
  | RequestCompletes request =>
      match nth_error (in_flight state) request with
      | Some patterns =>
          {| patternBuffer := patternBuffer state;
             in_flight := remove_nth request (in_flight state);
             completed := completed state ++ [patterns] |}
      | None => state
      end
  | RequestThrows request =>
      match nth_error (in_flight state) request with
      | Some patterns =>
          {| patternBuffer := patterns ++ patternBuffer state;
             in_flight := remove_nth request (in_flight state);
             completed := completed state |}
      | None => state
      end
  end.

Definition run {P} (steps : list (Step P)) : Buffering P :=
  fold_left step steps {| patternBuffer := []; in_flight := []; completed := [] |}.

(** The patterns passed to [detectPattern], in order *)
Definition detected {P} (steps : list (Step P)) : list P :=
  flat_map (fun s => match s with DetectPattern pattern => [pattern] | _ => [] end) steps.

End Client.

Section ClientFacts.
Import Js Client.

(** *** Reconnection *)

Lemma reconnect_delays_end (drops : nat) : reconnect_delays drops 5 = [].
Proof. destruct drops; reflexivity. Qed.

(** X24.  When every new connection drops, the client waits 1, 2, 4, 8 and 16
    seconds and then gives up: there is no sixth attempt, and the cap of
    30 seconds on the delay is never reached. *)
Theorem reconnection_gives_up_after_five :
  forall drops : nat,
    reconnect_delays drops 0
    = firstn drops [Fin 1000; Fin 2000; Fin 4000; Fin 8000; Fin 16000]
    /\ (forall attempts delay,
           handleConnectionDrop attempts = Some delay ->
           (attempts < 5)%nat /\ lt delay (Fin 30000) = true)
    /\ (forall attempts, (5 <= attempts)%nat -> handleConnectionDrop attempts = None).
Proof.
  intro drops. split; [|split].
  - do 5 (destruct drops as [|drops]; [vm_compute; reflexivity|]).
    change (reconnect_delays (S (S (S (S (S drops))))) 0)
      with ([Fin 1000; Fin 2000; Fin 4000; Fin 8000; Fin 16000]
              ++ reconnect_delays drops 5)%list.
    rewrite reconnect_delays_end. cbn [firstn app].
    now rewrite List.firstn_nil.
  - intros attempts delay. unfold handleConnectionDrop.
    destruct (attempts <? maxReconnectAttempts)%nat eqn:L; [|discriminate].
    apply Nat.ltb_lt in L. unfold maxReconnectAttempts in L. intros [= <-].
    split; [exact L|].
    do 5 (destruct attempts as [|attempts]; [vm_compute; reflexivity|]). lia.
  - intros attempts L. unfold handleConnectionDrop.
    assert ((attempts <? maxReconnectAttempts)%nat = false) as ->
      by (apply Nat.ltb_ge; exact L).
    reflexivity.
Qed.

Lemma reconnection_gives_up_after_five_witness :
  (3 < 5)%nat /\ lt (Fin 8000) (Fin 30000) = true.
Proof.
  apply (proj1 (proj2 (reconnection_gives_up_after_five 0)) 3%nat (Fin 8000)).
  vm_compute. reflexivity.
Defined.

(** *** Confidence of the patterns detected in the browser *)

Lemma of_Z_gt (z bound : Z) :
  (bound < z)%Z -> gt (of_Z z) (Fin (inject_Z bound)) = true.
Proof.
  intro L. unfold of_Z. apply gt_Fin. now rewrite <- Zlt_Qlt.
Qed.

Lemma capped_above (x : num) (d c lo : Q) (bound : Z) :
  0 < d -> lo < c -> lo * d == inject_Z bound ->
  gt x (Fin (inject_Z bound)) = true ->
  above lo c (min (div x (Fin d)) (Fin c)).
Proof.
  intros D C E G. apply min_above. rewrite capped_ratio_gt by assumption.
  now rewrite (gt_bound_eq _ _ _ E).
Qed.

(** X25.  Every pattern that the client detects carries a confidence above 0.25
    and of at most 0.95: above 0.5 for a hesitation, above 0.3 for an
    uncertainty, above 0.25 for a distraction (each capped), 0.8 for a
    procrastination, and for a pricing pattern 0.9 when the price is below
    20 and 0.75 otherwise. *)
Theorem client_confidence_ranges :
  forall p : Pattern,
    ((exists now lastKeyTime, handleInput now lastKeyTime = Some p) ->
     type p = "hesitation" /\ above 0.5 0.9 (confidence p))
    /\ ((exists deletions additions, analyzeTypingSession deletions additions = Some p) ->
        type p = "uncertainty" /\ above 0.3 0.9 (confidence p))
    /\ ((exists now hiddenAt, handleVisibilityChange now hiddenAt = Some p) ->
        type p = "distraction" /\ above 0.25 0.95 (confidence p))
    /\ ((exists now blurredAt, handleWindowFocus now blurredAt = Some p) ->
        type p = "procrastination"
        /\ confidence p = Fin 0.8
        /\ above 0.25 0.95 (confidence p))
    /\ (forall identifier value numericValue,
           handleFormBlur identifier value numericValue = Some p ->
           type p = "pricing_cowardice"
           /\ confidence p = (if lt numericValue (Fin 20) then Fin 0.9 else Fin 0.75)
           /\ (confidence p = Fin 0.9 \/ confidence p = Fin 0.75)
           /\ above 0.25 0.95 (confidence p)).
Proof.
  intro p. split; [|split; [|split; [|split]]].
  - intros (now & lastKeyTime & H). unfold handleInput in H.
    destruct (5000 <? now - lastKeyTime)%Z eqn:T; [|discriminate].
    destruct (0 <? lastKeyTime)%Z; [|discriminate].
    cbn [andb] in H.
    assert (p = {| type := "hesitation";
                   confidence := min (div (of_Z (now - lastKeyTime)) (Fin 10000))
                                     (Fin 0.9) |}) as -> by congruence.
    cbn [type confidence]. split; [reflexivity|].
    apply (capped_above _ 10000 0.9 0.5 5000); try lra; try reflexivity.
    apply of_Z_gt. now apply Z.ltb_lt.
  - intros (deletions & additions & H). unfold analyzeTypingSession in H.
    destruct ((0 <? deletions)%nat && (10 <? additions)%nat); [|discriminate].
    destruct (gt _ (Fin 0.3)) eqn:G; [|discriminate].
    assert (p = {| type := "uncertainty";
                   confidence := min (div (of_nat deletions) (of_nat additions))
                                     (Fin 0.9) |}) as -> by congruence.
    cbn [type confidence]. split; [reflexivity|].
    apply min_above.
    destruct (div (of_nat deletions) (of_nat additions)) as [| | |q];
      try discriminate G.
    + reflexivity.
    + apply gt_Fin in G. destruct (min_Fin q 0.9) as (r & -> & _ & _ & [E|E]);
        apply gt_Fin; lra.
  - intros (now & [hiddenAt|] & H); [|discriminate]. unfold handleVisibilityChange in H.
    destruct (hiddenAt =? 0)%Z; [discriminate|].
    destruct (30000 <? now - hiddenAt)%Z eqn:T; [|discriminate].
    assert (p = {| type := "distraction";
                   confidence := min (div (of_Z (now - hiddenAt)) (Fin 120000))
                                     (Fin 0.95) |}) as -> by congruence.
    cbn [type confidence]. split; [reflexivity|].
    apply (capped_above _ 120000 0.95 0.25 30000); try lra; try reflexivity.
    apply of_Z_gt. now apply Z.ltb_lt.
  - intros (now & [blurredAt|] & H); [|discriminate]. unfold handleWindowFocus in H.
    destruct (blurredAt =? 0)%Z; [discriminate|].
    destruct (60000 <? now - blurredAt)%Z; [|discriminate].
    injection H as <-. cbn. split; [reflexivity|]. split; [reflexivity | lra].
  - intros identifier value numericValue H. unfold handleFormBlur in H.
    destruct (getFieldType identifier); try discriminate.
    destruct value as [|c rest]; [discriminate|].
    destruct (gt numericValue (Fin 0) && lt numericValue (Fin 50)); [|discriminate].
    injection H as <-. cbn [type confidence]. split; [reflexivity|].
    split; [reflexivity|].
    destruct (lt numericValue (Fin 20)); (split; [auto | cbn; lra]).
Qed.

Lemma client_confidence_ranges_witness :
  above 0.5 0.9 (min (div (of_Z 7000) (Fin 10000)) (Fin 0.9))
  /\ (handleFormBlur "price" "15" (Fin 15)
      = Some {| type := "pricing_cowardice"; confidence := Fin 0.9 |}
      /\ confidence {| type := "pricing_cowardice"; confidence := Fin 0.9 |}
         = (if lt (Fin 15) (Fin 20) then Fin 0.9 else Fin 0.75)).
Proof.
  split.
  - apply (proj1 (client_confidence_ranges
                    {| type := "hesitation";
                       confidence := min (div (of_Z 7000) (Fin 10000)) (Fin 0.9) |})).
    exists 8000%Z, 1000%Z. reflexivity.
  - assert (handleFormBlur "price" "15" (Fin 15)
            = Some {| type := "pricing_cowardice"; confidence := Fin 0.9 |}) as H
      by (vm_compute; reflexivity).
    split; [exact H|].
    apply (proj2 (proj2 (proj2 (proj2 (client_confidence_ranges _)))) _ _ _ H).
Defined.

(** *** The pattern buffer *)

Section BufferFacts.
Context {P : Type}.

Definition held (state : Buffering P) : list P :=
  (concat (completed state) ++ concat (in_flight state) ++ patternBuffer state)%list.

Lemma remove_nth_perm (batches : list (list P)) (n : nat) (batch : list P) :
  nth_error batches n = Some batch ->
  Permutation (concat batches) (batch ++ concat (remove_nth n batches)).
Proof.
  revert n. induction batches as [|first batches IH]; intros [|n] H; cbn in H;
    try discriminate.
  - injection H as ->. reflexivity.
  - cbn [remove_nth concat]. rewrite (IH n H).
    rewrite !app_assoc. apply Permutation_app_tail, Permutation_app_comm.
Qed.

Lemma step_held (state : Buffering P) (s : Step P) :
  Permutation (held (step state s))
    (held state ++ match s with DetectPattern pattern => [pattern] | _ => [] end).
Proof.
  unfold held. destruct s as [pattern| |request|request]; cbn [step].
  - cbn [patternBuffer in_flight completed]. now rewrite !app_assoc.
  - rewrite app_nil_r. destruct (patternBuffer state) as [|p buffer] eqn:B.
    + now rewrite B.
    + cbn [patternBuffer in_flight completed]. rewrite concat_app. cbn [concat].
      now rewrite !app_nil_r.
  - rewrite app_nil_r. destruct (nth_error (in_flight state) request) as [batch|] eqn:N;
      [|reflexivity].
    cbn [patternBuffer in_flight completed]. rewrite concat_app. cbn [concat].
    rewrite app_nil_r. rewrite (remove_nth_perm _ _ _ N).
    rewrite <- !app_assoc. reflexivity.
  - rewrite app_nil_r. destruct (nth_error (in_flight state) request) as [batch|] eqn:N;
      [|reflexivity].
    cbn [patternBuffer in_flight completed]. rewrite (remove_nth_perm _ _ _ N).
    apply Permutation_app_head. rewrite !app_assoc.
    apply Permutation_app_tail, Permutation_app_comm.
Qed.

Lemma run_held (steps : list (Step P)) (state : Buffering P) :
  Permutation (held (fold_left step steps state)) (held state ++ detected steps).
Proof.
  revert state. induction steps as [|s steps IH]; intro state; cbn [fold_left].
  - unfold detected. cbn. now rewrite app_nil_r.
  - rewrite IH, step_held. unfold detected. cbn [flat_map].
    now rewrite <- app_assoc.
Qed.

End BufferFacts.

(** X26.  Whatever the order of detections, calls of [sendPatterns], answers
    and failures: every pattern passed to [detectPattern] is at any time
    in exactly one place, the buffer, the batch of a call that waits for
    its request, or the batch of a call that has finished; a failed request
    loses nothing and duplicates nothing.  Without failures the buffer
    keeps the order of detection. *)
Theorem pattern_buffer_keeps_every_pattern :
  forall (P : Type) (steps : list (Step P)),
    Permutation (detected steps)
      (concat (completed (run steps)) ++ concat (in_flight (run steps))
         ++ patternBuffer (run steps))%list
    /\ (forall pattern : P,
           In pattern (detected steps)
           <-> In pattern (concat (completed (run steps)))
               \/ In pattern (concat (in_flight (run steps)))
               \/ In pattern (patternBuffer (run steps)))
    /\ length (detected steps)
       = (length (concat (completed (run steps)))
          + length (concat (in_flight (run steps)))
          + length (patternBuffer (run steps)))%nat.
Proof.
  intros P steps.
  pose proof (run_held steps {| patternBuffer := []; in_flight := []; completed := [] |})
    as H.
  fold (run steps) in H. unfold held in H. cbn [app concat completed in_flight
                                                  patternBuffer] in H.
  symmetry in H. split; [exact H|]. split.
  - intro pattern. rewrite <- !in_app_iff. split; intro I.
    + eapply Permutation_in; [exact H | exact I].
    + eapply Permutation_in; [symmetry; exact H | exact I].
  - rewrite (Permutation_length H), !length_app. lia.
Qed.

(** *** Events of the server's stream *)

Lemma pattern_check_written VERCEL pooler Text run track table cache up user :
  fst (fst (Realtime.pattern_check VERCEL pooler Text run track table cache up user))
  = match Optimizer.patterns
            (fst (Optimizer.detectAllPatternsBrutally VERCEL pooler table up user)) with
    | [] => None
    | found =>
        if existsb (fun p => is_critical (Optimizer.severity p)) found then None
        else Some (Realtime.PatternDetected found)
    end.
Proof.
  unfold Realtime.pattern_check.
  destruct (Optimizer.detectAllPatternsBrutally VERCEL pooler table up user)
    as [found table'].
  cbn [fst].
  destruct (Optimizer.patterns found) as [|first rest]; [reflexivity|].
  assert (forall l : list Optimizer.Pattern,
             existsb (fun p => is_critical (Optimizer.severity p)) l
             = match List.find (fun p => is_critical (Optimizer.severity p)) l with
               | Some _ => true
               | None => false
               end) as E.
  { induction l as [|p l IH]; [reflexivity|]. cbn.
    destruct (is_critical (Optimizer.severity p)); [reflexivity | exact IH]. }
  rewrite E.
  destruct (List.find _ (first :: rest)) as [criticalPattern|]; [|reflexivity].
  destruct (Realtime.getUserResistanceLevel cache user) as [resistanceLevel cache'].
  cbn [fst].
  destruct (Interventions.generateIntervention _ _ _ _ _ _ _ _); reflexivity.
Qed.

(** X27.  Whatever one run of the server's pattern check writes to the stream,
    the client of client-realtime.js treats it as an unknown message: the
    server names the event 'pattern_detected', the client listens for
    'patterns_detected'.  No 'patterns' event is fired and no intervention
    is shown. *)
Theorem stream_events_are_unknown_to_the_client :
  forall VERCEL pooler Text run track table cache up user event,
    fst (fst (Realtime.pattern_check VERCEL pooler Text run track table cache up user))
    = Some event ->
    handleServerMessage (Realtime.event_type event) = UnknownMessage
    /\ handleServerMessage "patterns_detected" = FirePatterns
    /\ handleServerMessage "intervention" = ShowIntervention.
Proof.
  intros VERCEL pooler Text run track table cache up user event.
  rewrite pattern_check_written.
  destruct (Optimizer.patterns _) as [|first rest]; [discriminate|]. cbv zeta.
  destruct (existsb _ (first :: rest)); [discriminate|].
  intros [= <-]. repeat split.
Qed.

End ClientFacts.

(** As [quiet_detection], with tasks delayed by 30 days: a pattern that is
    listed and not critical. *)
Definition delayed_detection : Optimizer.Upstream :=
  {| Optimizer.now := 0;
     Optimizer.cache_read_ok := true;
     Optimizer.cache_write_ok := true;
     Optimizer.procrastination_metrics :=
       Js.Resolved (Some {| Optimizer.total_delay_days := Js.Fin 30;
                            Optimizer.oldest_task_age := Js.Fin 30 |}) false;
     Optimizer.business_context := Js.Resolved None false;
     Optimizer.pricing_comparison := Js.Resolved None false;
     Optimizer.execution_metrics := Js.Resolved None false |}.

Definition delayed_event : Realtime.Event :=
  Eval vm_compute in
    match fst (fst (Realtime.pattern_check false (fun _ => Js.Threw) unit
                      (fun _ _ _ _ => Js.Threw) (Js.Normal tt) ∅ Realtime.empty_cache
                      delayed_detection "u1")) with
    | Some event => event
    | None => Realtime.PatternDetected []
    end.

Lemma stream_events_are_unknown_to_the_client_witness :
  Client.handleServerMessage (Realtime.event_type delayed_event) = Client.UnknownMessage.
Proof.
  apply (stream_events_are_unknown_to_the_client false (fun _ => Js.Threw) unit
           (fun _ _ _ _ => Js.Threw) (Js.Normal tt) ∅ Realtime.empty_cache
           delayed_detection "u1" delayed_event).
  vm_compute. reflexivity.
Defined.

(** ** api/analyze.js: when the handler asks for an intervention *)

(** One of the three procedures reports a value beyond the bound that
    makes its pattern both listed and critical. *)
Definition crosses_critical_bound (up : Optimizer.Upstream) : Prop :=
  (exists data,
      Optimizer.procrastination_metrics up = Js.Resolved data false
      /\ Js.gt (Js.field data Optimizer.total_delay_days) (Js.Fin 60) = true)
  \/ (exists row,
         Optimizer.pricing_comparison up = Js.Resolved (Some row) false
         /\ Js.gt (gapPercent row) (Js.Fin 50) = true)
  \/ (exists data,
         Optimizer.execution_metrics up = Js.Resolved data false
         /\ Js.gt (planToShipRatio data) (Js.Fin 7) = true
         /\ Js.gt (Js.field data Optimizer.days_since_ship) (Js.Fin 60) = true).

Section ApiThresholds.
Import Js.

Lemma find_reflect {A} (f : A -> bool) (l : list A) :
  match List.find f l with Some _ => true | None => false end = true
  <-> exists x, In x l /\ f x = true.
Proof.
  destruct (List.find f l) as [x|] eqn:F.
  - apply List.find_some in F. split; [intros _; now exists x | reflexivity].
  - split; [discriminate|]. intros (x & I & T).
    rewrite (List.find_none _ _ F x I) in T. discriminate.
Qed.

Lemma critical_in_fresh_patterns up :
  (exists p, In p (fresh_patterns up) /\ is_critical (Optimizer.severity p) = true)
  <-> crosses_critical_bound up.
Proof.
  split.
  - intros (p & I & C). apply In_fresh_patterns in I. destruct I as [D G].
    destruct D as [D | [D | D]].
    + apply procrastination_confident in D. destruct D as (data & E & _ & _ & S).
      left. exists data. split; [exact E | congruence].
    + apply pricing_confident in D. destruct D as (row & E & _ & _ & S).
      right; left. exists row. split; [exact E | congruence].
    + apply execution_confident in D. destruct D as (data & E & _ & K & S).
      right; right. exists data. split; [exact E|]. split; congruence.
  - intros [(data & E & C) | [(row & E & C) | (data & E & R & C)]].
    + destruct (Optimizer.detectProcrastinationBrutally
                  (Optimizer.procrastination_metrics up) (Optimizer.business_context up))
        as [p|] eqn:D; [|rewrite E in D; discriminate].
      exists p. pose proof D as D'. apply procrastination_confident in D'.
      destruct D' as (data' & E' & _ & K & S). rewrite E in E'. injection E' as <-.
      split; [|congruence]. apply In_fresh_patterns. split; [now left|].
      rewrite K. apply (gt_lower _ 21 60); [lra | exact C].
    + destruct (Optimizer.detectPricingCowardiceBrutally (Optimizer.pricing_comparison up))
        as [p|] eqn:D; [|rewrite E in D; discriminate].
      exists p. pose proof D as D'. apply pricing_confident in D'.
      destruct D' as (row' & E' & _ & K & S). rewrite E in E'. injection E' as <-.
      split; [|congruence]. apply In_fresh_patterns. split; [tauto|].
      rewrite K. apply (gt_lower _ 35 50); [lra | exact C].
    + destruct (Optimizer.detectExecutionParalysisBrutally (Optimizer.execution_metrics up))
        as [p|] eqn:D.
      * exists p. pose proof D as D'. apply execution_confident in D'.
        destruct D' as (data' & E' & _ & K & S). rewrite E in E'. injection E' as <-.
        split; [|congruence]. apply In_fresh_patterns. split; [tauto | congruence].
      * rewrite E in D. unfold Optimizer.detectExecutionParalysisBrutally in D.
        fold (planToShipRatio data) in D.
        rewrite (gt_weaken _ 3 7) in D by (try lra; exact R). discriminate.
Qed.

(** X28.  In the local configuration, a well-formed request that is not answered
    from the cache sets [should_intervene] exactly when the delay exceeds 60
    days, or the price gap exceeds 50 percent, or the ratio of planned to
    shipped work exceeds 7 while nothing was shipped for more than 60 days;
    the intervention is then the default one, never a template. *)
Theorem api_intervenes_beyond_critical_bounds :
  forall pooler Text run (db : Api.Tables) (up : Api.Upstream) (user msg : string),
    user <> "" -> msg <> "" ->
    cache_hit (Api.pattern_cache db) (Api.detection up) user = false ->
    exists b,
      fst (fst (Api.handleAnalyze false pooler Text run db up
                  (Some {| userId := Some user; message := Some msg |}))) = Api.Json200 b
      /\ Api.patterns b = fresh_patterns (Api.detection up)
      /\ (Api.should_intervene b = true <-> crosses_critical_bound (Api.detection up))
      /\ (forall type level text,
             Api.intervention b <> Some (Interventions.Generated type level text)).
Proof.
  intros pooler Text run db up user msg U M Miss.
  pose proof (handleAnalyze_present false pooler Text run db up user msg U M) as H.
  cbv zeta in H.
  assert (fst (Optimizer.detectAllPatternsBrutally false pooler (Api.pattern_cache db)
                 (Api.detection up) user) = fresh_detection (Api.detection up)) as F.
  { rewrite detect_local. unfold cache_hit in Miss.
    destruct (Optimizer.getCachedPatterns _ _ _) as [[d ts]|]; [|reflexivity].
    rewrite Miss. reflexivity. }
  rewrite F in H. cbn [Optimizer.patterns fresh_detection] in H.
  eexists. split; [exact H|]. cbn [Api.patterns Api.should_intervene Api.intervention].
  split; [reflexivity|]. split.
  - rewrite find_reflect. apply critical_in_fresh_patterns.
  - intros type level text.
    destruct (List.find _ (fresh_patterns (Api.detection up))); discriminate.
Qed.

End ApiThresholds.

Lemma api_intervenes_beyond_critical_bounds_witness :
  exists b,
    fst (fst (Api.handleAnalyze false (fun _ => Js.Threw) unit (fun _ _ _ _ => Js.Threw)
                no_tables mixed_upstream
                (Some {| userId := Some "u1"; message := Some "I will launch tomorrow" |})))
    = Api.Json200 b
    /\ Api.patterns b = fresh_patterns (Api.detection mixed_upstream)
    /\ (Api.should_intervene b = true
        <-> crosses_critical_bound (Api.detection mixed_upstream))
    /\ (forall type level text,
           Api.intervention b <> Some (Interventions.Generated type level text)).
Proof.
  apply (api_intervenes_beyond_critical_bounds (fun _ => Js.Threw) unit
           (fun _ _ _ _ => Js.Threw) no_tables mixed_upstream "u1"
           "I will launch tomorrow").
  - discriminate.
  - discriminate.
  - reflexivity.
Defined.
